(** * Flower Hub backend: the order placement and pricing pipeline

    A shallow embedding of [src/services/order.service.ts] (createOrder,
    updateOrder, cancelOrder, validateCoupon) and of the pricing helpers
    [calculateTax] and [calculateShipping], with the Prisma tables they read
    and write modelled as an explicit store.

    Modelling conventions.
    - In the store and in the services, numbers that carry money (prices,
      amounts, coupon values) are exact rationals [Q]; statements about them
      use [==].  The arithmetic of the pricing itself is also given on IEEE
      754 binary64 numbers ([Double], [pricing64]), rounding as JavaScript
      does; what is said about computed figures is said there.  Integer
      columns (stockCount, quantity, usedCount, usageLimit) are [Z].
    - A [Date] is its time value in milliseconds, a [Z]; the clock read by
      [new Date()] is the argument [now].
    - Optional fields ([T | null | undefined]) are [option T]; JavaScript
      truthiness of such a field is written out ([truthyQ], [truthyZ],
      [truthyStr]): a number is truthy when it is not zero, a string when it
      is not empty, an object always.
    - [validateCoupon] calls [toNumber()] on the [minimumAmount] of the coupon
      row: that column is a [Decimal] object, truthy whenever it is present.
      [createOrder] uses [value] and [maximumDiscount] as the numbers the
      [Coupon] interface declares; [Number(product.price)] is the price.
    - Tables are finite maps keyed by the unique column the code looks rows
      up by (product id, coupon code, order id); the address table is the
      list of created rows, in creation order.
    - Service methods run in the monad [M]: they thread the store and may
      throw.  Nothing wraps the writes in a transaction, so the store reached
      when an error is thrown keeps every write made before it.
    - The identifiers the database generates and the result of
      [generateOrderNumber()] are arguments ([Fresh]). *)

From Stdlib Require Import ZArith QArith Qround Qabs Lqa String Ascii List Lia SpecFloat.
From stdpp Require Import gmap strings list fin_maps pretty.

Local Open Scope string_scope.

(** ** JavaScript helpers *)

Module Js.

(** [String.prototype.toUpperCase] as it is on ASCII strings: the letters a
    to z are mapped, every other character is kept.  The functions that
    take the built-in as a parameter, for strings of any kind, are in
    [withBuiltin]. *)
Definition upperAscii (c : ascii) : ascii :=
  let n := nat_of_ascii c in
  if (97 <=? n)%nat && (n <=? 122)%nat then ascii_of_nat (n - 32) else c.

Fixpoint toUpperCase (s : string) : string :=
  match s with
  | EmptyString => EmptyString
  | String c rest => String (upperAscii c) (toUpperCase rest)
  end.

(** Truthiness of a number: zero is falsy. *)
Definition truthyQ (x : option Q) : bool :=
  match x with
  | Some q => negb (Qeq_bool q 0)
  | None => false
  end.

Definition truthyZ (x : option Z) : bool :=
  match x with
  | Some z => negb (z =? 0)%Z
  | None => false
  end.

(** Truthiness of an object reference: only null is falsy. *)
Definition truthyObj {A} (x : option A) : bool :=
  match x with
  | Some _ => true
  | None => false
  end.

(** Truthiness of a string: the empty string is falsy. *)
Definition truthyStr (x : option string) : bool :=
  match x with
  | Some EmptyString => false
  | Some _ => true
  | None => false
  end.

(** [x || null] on an optional string. *)
Definition orNull (x : option string) : option string :=
  if truthyStr x then x else None.

(** Comparisons on numbers. *)
Definition ltQ (a b : Q) : bool := negb (Qle_bool b a).
Definition geQ (a b : Q) : bool := Qle_bool b a.

(** [Math.round]: the nearest integer, ties towards plus infinity. *)
Definition Math_round (x : Q) : Q := inject_Z (Qfloor (x + (1 # 2))).

(** [Math.min] on two numbers. *)
Definition Math_min (a b : Q) : Q := if Qle_bool a b then a else b.

End Js.

(** ** Data model *)

Inductive OrderStatus :=
  PENDING | CONFIRMED | PROCESSING | SHIPPED | DELIVERED | CANCELLED | REFUNDED.

Inductive PaymentStatus := PAY_PENDING | PAY_PAID | PAY_FAILED | PAY_REFUNDED.

Inductive PaymentMethod := CASH_ON_DELIVERY | CARD.

Inductive CouponType := percentage | fixed.

Inductive AddressType := SHIPPING | BILLING.

(** A decimal column as the client returns it: an object with [toNumber()]. *)
Record Decimal := mkDecimal { toNumber : Q }.

#[global] Instance OrderStatus_eq_dec : EqDecision OrderStatus.
Proof. solve_decision. Defined.

Record Product := mkProduct {
  name : string;
  price : Q;
  inStock : bool;
  stockCount : Z
}.

Record Coupon := mkCoupon {
  type : CouponType;
  value : Q;
  minimumAmount : option Decimal;
  maximumDiscount : option Q;
  usageLimit : option Z;
  usedCount : Z;
  isActive : bool;
  validFrom : Z;
  validUntil : Z
}.

(** The address fields of a request, without [id] and [type]. *)
Record Address := mkAddress {
  firstName : string;
  lastName : string;
  street : string;
  city : string;
  state : string;
  zipCode : string;
  country : string;
  phone : option string
}.

Record AddressRow := mkAddressRow {
  addr_id : string;
  addr_type : AddressType;
  addr_userId : string;
  addr_data : Address
}.

Record CreateOrderItemRequest := mkItemReq {
  productId : string;
  quantity : Z;
  selectedColor : option string;
  selectedSize : option string
}.

Record CreateOrderRequest := mkOrderReq {
  req_items : list CreateOrderItemRequest;
  shippingAddress : Address;
  billingAddress : Address;
  req_notes : option string;
  couponCode : option string
}.

Record OrderItem := mkOrderItem {
  oi_productId : string;
  oi_quantity : Z;
  oi_price : Q;
  oi_selectedColor : option string;
  oi_selectedSize : option string
}.

Record Order := mkOrder {
  orderNumber : string;
  userId : string;
  items : list OrderItem;
  subtotal : Q;
  shipping : Q;
  tax : Q;
  discount : Q;
  total : Q;
  status : OrderStatus;
  paymentMethod : PaymentMethod;
  paymentStatus : PaymentStatus;
  notes : option string;
  shippingAddressId : string;
  billingAddressId : string;
  trackingNumber : option string;
  estimatedDelivery : option Z
}.

Record UpdateOrderRequest := mkUpdateReq {
  upd_status : option OrderStatus;
  upd_trackingNumber : option string;
  upd_estimatedDelivery : option Z;
  upd_notes : option string
}.

(** ** The store behind the Prisma client *)

Record Store := mkStore {
  addresses : list AddressRow;
  products : gmap string Product;
  coupons : gmap string Coupon;
  orders : gmap string Order
}.

Definition set_addresses (f : list AddressRow -> list AddressRow) (s : Store) : Store :=
  mkStore (f (addresses s)) (products s) (coupons s) (orders s).

Definition set_products (f : gmap string Product -> gmap string Product) (s : Store) : Store :=
  mkStore (addresses s) (f (products s)) (coupons s) (orders s).

Definition set_coupons (f : gmap string Coupon -> gmap string Coupon) (s : Store) : Store :=
  mkStore (addresses s) (products s) (f (coupons s)) (orders s).

Definition set_orders (f : gmap string Order -> gmap string Order) (s : Store) : Store :=
  mkStore (addresses s) (products s) (coupons s) (f (orders s)).

(** Values supplied by the environment during one [createOrder] call. *)
Record Fresh := mkFresh {
  newShippingId : string;
  newBillingId : string;
  newOrderId : string;
  newOrderNumber : string
}.

(** ** Errors and the service monad *)

Inductive Error :=
  | AppError (message : string) (statusCode : Z)
  | PrismaError (errorCode : string).

Inductive Result (A : Type) :=
  | Ok (a : A)
  | Err (e : Error).

Arguments Ok {A} a.
Arguments Err {A} e.

Definition M (A : Type) : Type := Store -> Result A * Store.

Definition ret {A} (a : A) : M A := fun s => (Ok a, s).

Definition throw {A} (e : Error) : M A := fun s => (Err e, s).

Definition bind {A B} (m : M A) (k : A -> M B) : M B :=
  fun s =>
    match m s with
    | (Ok a, s') => k a s'
    | (Err e, s') => (Err e, s')
    end.

Declare Scope svc_scope.
Delimit Scope svc_scope with svc.

Notation "'let*' x ':=' m 'in' k" := (bind m (fun x => k))
  (at level 10, x pattern, m at level 100, k at level 200) : svc_scope.

Notation "m ';;' k" := (bind m (fun _ => k))
  (at level 100, k at level 200, right associativity) : svc_scope.

Local Open Scope svc_scope.

(** ** Prisma operations used by the order service *)

Module Prisma.

(** Record to update not found. *)
Definition P2025 : Error := PrismaError "P2025".

(** Unique constraint failed. *)
Definition P2002 : Error := PrismaError "P2002".

Definition address_create (id : string) (ty : AddressType) (uid : string)
    (data : Address) : M AddressRow :=
  fun s =>
    let row := mkAddressRow id ty uid data in
    (Ok row, set_addresses (fun l => (l ++ [row])%list) s).

Definition product_findUnique (id : string) : M (option Product) :=
  fun s => (Ok (products s !! id), s).

(** [product.update] with [stockCount: { increment: delta }]
    ([decrement: n] is [increment: -n]). *)
Definition addStock (delta : Z) (p : Product) : Product :=
  mkProduct (name p) (price p) (inStock p) (stockCount p + delta).

Definition product_update_stock (id : string) (delta : Z) : M unit :=
  fun s =>
    match products s !! id with
    | Some _ => (Ok tt, set_products (alter (addStock delta) id) s)
    | None => (Err P2025, s)
    end.

Definition coupon_findUnique (code : string) : M (option Coupon) :=
  fun s => (Ok (coupons s !! code), s).

Definition bumpUsed (c : Coupon) : Coupon :=
  mkCoupon (type c) (value c) (minimumAmount c) (maximumDiscount c)
    (usageLimit c) (usedCount c + 1) (isActive c) (validFrom c) (validUntil c).

(** [coupon.update] with [usedCount: { increment: 1 }]. *)
Definition coupon_update_used (code : string) : M unit :=
  fun s =>
    match coupons s !! code with
    | Some _ => (Ok tt, set_coupons (alter bumpUsed code) s)
    | None => (Err P2025, s)
    end.

Definition orderNumberTaken (num : string) (os : gmap string Order) : bool :=
  bool_decide (map_Exists (fun _ o => orderNumber o = num) os).

(** [order.create]: the id and the order number are unique columns. *)
Definition order_create (id : string) (o : Order) : M Order :=
  fun s =>
    match orders s !! id with
    | Some _ => (Err P2002, s)
    | None =>
        if orderNumberTaken (orderNumber o) (orders s) then (Err P2002, s)
        else (Ok o, set_orders (insert id o) s)
    end.

Definition order_findUnique (id : string) : M (option Order) :=
  fun s => (Ok (orders s !! id), s).

(** [order.findFirst] with [where: { id, userId }]. *)
Definition order_findFirst (id uid : string) : M (option Order) :=
  fun s =>
    match orders s !! id with
    | Some o => if decide (userId o = uid) then (Ok (Some o), s) else (Ok None, s)
    | None => (Ok None, s)
    end.

(** [order.update]: returns the updated row. *)
Definition order_update (id : string) (f : Order -> Order) : M Order :=
  fun s =>
    match orders s !! id with
    | Some o => (Ok (f o), set_orders (alter f id) s)
    | None => (Err P2025, s)
    end.

(** [orderItem.findMany] with [where: { orderId }]. *)
Definition orderItem_findMany (id : string) : M (list OrderItem) :=
  fun s =>
    match orders s !! id with
    | Some o => (Ok (items o), s)
    | None => (Ok [], s)
    end.

End Prisma.

(** ** Pricing helpers ([calculateShipping], [calculateTax]) *)

(** The two helpers in exact arithmetic, as the services of this model use
    them.  [pricing64] has them on binary64 numbers, with the rounding of
    every operation. *)

Definition calculateShipping (amount : Q) : Q :=
  if Js.geQ amount 50 then 0
  else if Js.geQ amount 25 then 5.99
  else 9.99.

Definition calculateTax (amount : Q) (taxRate : Q) : Q :=
  Js.Math_round (amount * taxRate * 100) / 100.

(** The default value of [taxRate]. *)
Definition defaultTaxRate : Q := 0.08.

(** ** The order service *)

Module orderService.

(** [validateCoupon(code, amount)]: look the coupon up under the uppercased
    code and run the four checks in order; every failing check returns null.
    [minimumAmount] is a [Decimal] object here, [usageLimit] a number. *)
Definition validateCoupon (now : Z) (code : string) (amount : Q) : M (option Coupon) :=
  let* found := Prisma.coupon_findUnique (Js.toUpperCase code) in
  match found with
  | None => ret None
  | Some coupon =>
      if negb (isActive coupon) then ret None
      else if (now <? validFrom coupon)%Z || (validUntil coupon <? now)%Z then ret None
      else if Js.truthyObj (minimumAmount coupon)
              && Js.ltQ amount (toNumber (default (mkDecimal 0) (minimumAmount coupon)))
           then ret None
      else if Js.truthyZ (usageLimit coupon)
              && (default 0%Z (usageLimit coupon) <=? usedCount coupon)%Z then ret None
      else ret (Some coupon)
  end.

(** The body of [if (coupon) { ... }] in [createOrder]: the discount a
    validated coupon grants on [subtotal]. *)
Definition couponDiscount (subtotal : Q) (coupon : Coupon) : Q :=
  match type coupon with
  | percentage =>
      let discount := (subtotal * value coupon / 100)%Q in
      if Js.truthyQ (maximumDiscount coupon)
      then Js.Math_min discount (default 0%Q (maximumDiscount coupon))
      else discount
  | fixed => value coupon
  end.

(** The first loop of [createOrder]: look every product up, check its stock,
    add up the subtotal and collect the order items. *)
Fixpoint validateItems (todo : list CreateOrderItemRequest) (subtotal : Q)
    (orderItems : list OrderItem) : M (Q * list OrderItem) :=
  match todo with
  | [] => ret (subtotal, orderItems)
  | item :: rest =>
      let* found := Prisma.product_findUnique (productId item) in
      match found with
      | None =>
          throw (AppError ("Product with ID " ++ productId item ++ " not found") 404)
      | Some product =>
          if negb (inStock product) || (stockCount product <? quantity item)%Z
          then throw (AppError ("Insufficient stock for product " ++ name product) 400)
          else
            let itemTotal := (price product * inject_Z (quantity item))%Q in
            validateItems rest (subtotal + itemTotal)%Q
              (orderItems ++
                 [mkOrderItem (productId item) (quantity item) (price product)
                    (Js.orNull (selectedColor item)) (Js.orNull (selectedSize item))])%list
      end
  end.

(** The second loop of [createOrder]: one relative decrement per line item. *)
Fixpoint decrementStock (todo : list CreateOrderItemRequest) : M unit :=
  match todo with
  | [] => ret tt
  | item :: rest =>
      Prisma.product_update_stock (productId item) (- quantity item) ;;
      decrementStock rest
  end.

(** [if (couponCode) { ... }] of the pricing step. *)
Definition discountFor (now : Z) (code : option string) (subtotal : Q) : M Q :=
  if Js.truthyStr code then
    let* coupon := validateCoupon now (default "" code) subtotal in
    match coupon with
    | Some coupon => ret (couponDiscount subtotal coupon)
    | None => ret 0%Q
    end
  else ret 0%Q.

(** [if (couponCode) { coupon.update ... }] of the last step. *)
Definition recordCouponUse (code : option string) : M unit :=
  if Js.truthyStr code then Prisma.coupon_update_used (default "" code)
  else ret tt.

Definition createOrder (fresh : Fresh) (now : Z) (uid : string)
    (data : CreateOrderRequest) : M Order :=
  let* createdShippingAddress :=
    Prisma.address_create (newShippingId fresh) SHIPPING uid (shippingAddress data) in
  let* createdBillingAddress :=
    Prisma.address_create (newBillingId fresh) BILLING uid (billingAddress data) in
  let* validated := validateItems (req_items data) 0%Q [] in
  let subtotal := fst validated in
  let orderItems := snd validated in
  let shipping := calculateShipping subtotal in
  let tax := calculateTax (subtotal + shipping)%Q defaultTaxRate in
  let* discount := discountFor now (couponCode data) subtotal in
  let total := (subtotal + shipping + tax - discount)%Q in
  let* order :=
    Prisma.order_create (newOrderId fresh)
      (mkOrder (newOrderNumber fresh) uid orderItems subtotal shipping tax
         discount total PENDING CASH_ON_DELIVERY PAY_PENDING (req_notes data)
         (addr_id createdShippingAddress) (addr_id createdBillingAddress)
         None None) in
  decrementStock (req_items data) ;;
  recordCouponUse (couponCode data) ;;
  ret order.

(** The fields of an [UpdateOrderRequest] that are present overwrite the
    order's; the others are left as they are. *)
Definition applyPatch (data : UpdateOrderRequest) (o : Order) : Order :=
  mkOrder (orderNumber o) (userId o) (items o) (subtotal o) (shipping o)
    (tax o) (discount o) (total o)
    (default (status o) (upd_status data))
    (paymentMethod o) (paymentStatus o)
    (match upd_notes data with Some n => Some n | None => notes o end)
    (shippingAddressId o) (billingAddressId o)
    (match upd_trackingNumber data with Some t => Some t | None => trackingNumber o end)
    (match upd_estimatedDelivery data with Some d => Some d | None => estimatedDelivery o end).

Definition updateOrder (orderId : string) (data : UpdateOrderRequest) : M Order :=
  let* found := Prisma.order_findUnique orderId in
  match found with
  | None => throw (AppError "Order not found" 404)
  | Some order =>
      let* updatedOrder := Prisma.order_update orderId (applyPatch data) in
      ret updatedOrder
  end.

Definition setStatus (st : OrderStatus) (o : Order) : Order :=
  applyPatch (mkUpdateReq (Some st) None None None) o.

(** The loop of [cancelOrder]: one relative increment per order item. *)
Fixpoint restoreStock (todo : list OrderItem) : M unit :=
  match todo with
  | [] => ret tt
  | item :: rest =>
      Prisma.product_update_stock (oi_productId item) (oi_quantity item) ;;
      restoreStock rest
  end.

Definition cancelOrder (uid : string) (orderId : string) : M Order :=
  let* found := Prisma.order_findFirst orderId uid in
  match found with
  | None => throw (AppError "Order not found" 404)
  | Some order =>
      if decide (status order = CANCELLED)
      then throw (AppError "Order is already cancelled" 400)
      else if decide (status order = DELIVERED)
      then throw (AppError "Cannot cancel delivered order" 400)
      else
        let* orderItems := Prisma.orderItem_findMany orderId in
        restoreStock orderItems ;;
        let* updatedOrder := Prisma.order_update orderId (setStatus CANCELLED) in
        ret updatedOrder
  end.

End orderService.

Import orderService.

(** ** Sample data *)

Module Sample.

Definition home : Address :=
  mkAddress "Ada" "Lovelace" "1 Rose Lane" "Bloomfield" "CA" "90001" "US" None.

Definition fresh1 : Fresh := mkFresh "addr-1" "addr-2" "order-1" "ORD-0001".

Definition rose : Product := mkProduct "Rose" 10 true 5.
Definition tulip : Product := mkProduct "Tulip" 12.5 true 40.
Definition lily : Product := mkProduct "Lily" 30 true 8.

(** The two coupons of the seed script. *)
Definition WELCOME10 : Coupon :=
  mkCoupon percentage 10 (Some (mkDecimal 25)) None (Some 1000%Z) 0 true 0 1000.
Definition SAVE20 : Coupon :=
  mkCoupon fixed 20 (Some (mkDecimal 100)) None (Some 500%Z) 0 true 0 1000.


(** A fixed coupon with no minimum, larger than a small order. *)
Definition FLAT50 : Coupon :=
  mkCoupon fixed 50 None None None 0 true 0 1000.

Definition store0 : Store :=
  mkStore []
    (<["p-rose" := rose]> (<["p-tulip" := tulip]> (<["p-lily" := lily]> ∅)))
    (<["WELCOME10" := WELCOME10]> (<["SAVE20" := SAVE20]> (<["FLAT50" := FLAT50]> ∅)))
    ∅.

Definition line (pid : string) (q : Z) : CreateOrderItemRequest :=
  mkItemReq pid q None None.

Definition request (lines : list CreateOrderItemRequest) (code : option string)
    : CreateOrderRequest :=
  mkOrderReq lines home home None code.

(** An order of user [u1] already in the store: three roses and one lily. *)
Definition placed : Order :=
  mkOrder "ORD-0007" "u1"
    [mkOrderItem "p-rose" 3 10 None None; mkOrderItem "p-lily" 1 30 None None]
    60 0 4.8 0 64.8 PENDING CASH_ON_DELIVERY PAY_PENDING None
    "addr-7" "addr-8" None None.

Definition store1 : Store := set_orders (insert "order-7" placed) store0.

End Sample.

(** ** JavaScript numbers as IEEE 754 binary64 *)

Module Double.

Definition prec : Z := 53.
Definition emax : Z := 1024.

Definition add : spec_float -> spec_float -> spec_float := SFadd prec emax.
Definition sub : spec_float -> spec_float -> spec_float := SFsub prec emax.
Definition mul : spec_float -> spec_float -> spec_float := SFmul prec emax.
Definition div : spec_float -> spec_float -> spec_float := SFdiv prec emax.

(** [a < b], [a >= b] and [a > b]: false as soon as one side is NaN. *)
Definition ltb (a b : spec_float) : bool := SFltb a b.
Definition geb (a b : spec_float) : bool := SFleb b a.
Definition gtb (a b : spec_float) : bool := SFltb b a.

(** The number an integer denotes (exact below 2^53). *)
Definition ofZ (z : Z) : spec_float := binary_normalize prec emax z 0 false.

(** The number a decimal literal or [Number(decimal)] denotes: the binary64
    number nearest to the fraction, for a fraction whose numerator and
    denominator in lowest terms are below 2^53. *)
Definition ofQ (q : Q) : spec_float :=
  div (ofZ (Qnum (Qred q))) (ofZ (Zpos (Qden (Qred q)))).



(** [Math.round]: the nearest integer, ties towards plus infinity; a result
    of zero keeps the sign of the argument. *)
Definition Math_round (x : spec_float) : spec_float :=
  match x with
  | S754_finite s m e =>
      if (0 <=? e)%Z then x
      else
        match ((2 * cond_Zopp s (Zpos m) + 2 ^ (- e)) / 2 ^ (1 - e))%Z with
        | Z0 => S754_zero s
        | n => ofZ n
        end
  | _ => x
  end.

(** [Math.ceil]. *)
Definition Math_ceil (x : spec_float) : spec_float :=
  match x with
  | S754_finite s m e =>
      if (0 <=? e)%Z then x
      else
        match (- ((- cond_Zopp s (Zpos m)) / 2 ^ (- e)))%Z with
        | Z0 => S754_zero s
        | n => ofZ n
        end
  | _ => x
  end.

(** [Math.min] of two numbers. *)
Definition Math_min (a b : spec_float) : spec_float :=
  match a, b with
  | S754_nan, _ | _, S754_nan => S754_nan
  | S754_zero sa, S754_zero sb => S754_zero (sa || sb)
  | _, _ => if SFltb b a then b else a
  end.

(** Truthiness of a number: zero and NaN are falsy. *)
Definition truthy (x : spec_float) : bool :=
  match x with
  | S754_zero _ | S754_nan => false
  | _ => true
  end.

End Double.

(** ** The other methods of the order service *)

Module PrismaQueries.

(** The rows of the order table. *)
Definition orderRows (s : Store) : list Order := (map_to_list (orders s)).*2.

(** [order.findUnique] with [where: { orderNumber }]. *)
Definition order_findUnique_number (num : string) : M (option Order) :=
  fun s => (Ok (head (filter (fun o => orderNumber o = num) (orderRows s))), s).

(** [order.count], with [where: { status }] when a status is given. *)
Definition order_count (st : option OrderStatus) : M Z :=
  fun s =>
    (Ok (Z.of_nat (length
           match st with
           | Some st => filter (fun o => status o = st) (orderRows s)
           | None => orderRows s
           end)), s).

Fixpoint sumTotals (rows : list Order) : Q :=
  match rows with
  | [] => 0%Q
  | o :: rest => (total o + sumTotals rest)%Q
  end.

(** [order.aggregate] with [_sum: { total: true }]: the sum is null when
    there is no row. *)
Definition order_sum_total : M (option Decimal) :=
  fun s =>
    (Ok match orderRows s with
        | [] => None
        | rows => Some (mkDecimal (sumTotals rows))
        end, s).

(** [coupon.create]: the code is a unique column. *)
Definition coupon_create (code : string) (c : Coupon) : M Coupon :=
  fun s =>
    match coupons s !! code with
    | Some _ => (Err Prisma.P2002, s)
    | None => (Ok c, set_coupons (insert code c) s)
    end.

End PrismaQueries.

Record OrderSummary := mkOrderSummary {
  totalOrders : Z;
  totalRevenue : Q;
  pendingOrders : Z;
  completedOrders : Z;
  cancelledOrders : Z;
  averageOrderValue : Q
}.

Record CreateCouponRequest := mkCouponReq {
  cr_code : string;
  cr_type : CouponType;
  cr_value : Q;
  cr_minimumAmount : option Q;
  cr_maximumDiscount : option Q;
  cr_usageLimit : option Z;
  cr_validFrom : Z;
  cr_validUntil : Z
}.

(** The column defaults of the coupon table, which [createCoupon] leaves to
    the database. *)
Record CouponDefaults := mkCouponDefaults {
  defaultUsedCount : Z;
  defaultIsActive : bool
}.

Module orderQueries.

(** An order with the product joined to each of its lines, in the order of
    the lines. *)
Record OrderWithProducts := mkJoined {
  jo_order : Order;
  jo_products : list Product
}.

(** [include: { items: { include: { product } } }]: the product of every
    line is read when the order is; a line whose product is gone makes the
    client fail. *)
Definition includeItems (order : Order) : M OrderWithProducts :=
  fun s =>
    match mapM (fun it => products s !! oi_productId it) (items order) with
    | Some joined => (Ok (mkJoined order joined), s)
    | None => (Err (PrismaError "InconsistentQueryResult"), s)
    end.

(** The two lookups also join the user and the two addresses to the order;
    the model takes those rows to be there. *)
Definition getOrderById (orderId : string) : M OrderWithProducts :=
  let* found := Prisma.order_findUnique orderId in
  match found with
  | None => throw (AppError "Order not found" 404)
  | Some order => includeItems order
  end.

Definition getOrderByNumber (num : string) : M OrderWithProducts :=
  let* found := PrismaQueries.order_findUnique_number num in
  match found with
  | None => throw (AppError "Order not found" 404)
  | Some order => includeItems order
  end.

(** [x?.toNumber() || 0]. *)
Definition toNumberOrZero (x : option Decimal) : Q :=
  match x with
  | Some d => if Js.truthyQ (Some (toNumber d)) then toNumber d else 0%Q
  | None => 0%Q
  end.

Definition getOrderSummary : M OrderSummary :=
  let* totalOrders := PrismaQueries.order_count None in
  let* totalRevenue := PrismaQueries.order_sum_total in
  let* pendingOrders := PrismaQueries.order_count (Some PENDING) in
  let* completedOrders := PrismaQueries.order_count (Some DELIVERED) in
  let* cancelledOrders := PrismaQueries.order_count (Some CANCELLED) in
  let averageOrderValue :=
    if (0 <? totalOrders)%Z
    then (toNumberOrZero totalRevenue / inject_Z totalOrders)%Q
    else 0%Q in
  ret (mkOrderSummary totalOrders (toNumberOrZero totalRevenue) pendingOrders
         completedOrders cancelledOrders averageOrderValue).

(** The row [createCoupon] writes: the fields of the request and the column
    defaults. *)
Definition couponRow (dflt : CouponDefaults) (data : CreateCouponRequest) : Coupon :=
  mkCoupon (cr_type data) (cr_value data)
    (mkDecimal <$> cr_minimumAmount data) (cr_maximumDiscount data)
    (cr_usageLimit data) (defaultUsedCount dflt) (defaultIsActive dflt)
    (cr_validFrom data) (cr_validUntil data).

End orderQueries.

Import orderQueries.

(** ** The coupon functions over the built-in [toUpperCase] *)

(** [String.prototype.toUpperCase] maps every cased letter of Unicode;
    [Js.toUpperCase] maps the letters a to z, which is the built-in on ASCII
    strings.  Here the built-in is a parameter, and the functions are those
    of the source for whatever function on strings it is.
    [orderService.validateCoupon] is [withBuiltin.validateCoupon] at
    [Js.toUpperCase]. *)
Module withBuiltin.

Section ToUpperCase.

Variable toUpperCase : string -> string.

Definition validateCoupon (now : Z) (code : string) (amount : Q) : M (option Coupon) :=
  let* found := Prisma.coupon_findUnique (toUpperCase code) in
  match found with
  | None => ret None
  | Some coupon =>
      if negb (isActive coupon) then ret None
      else if (now <? validFrom coupon)%Z || (validUntil coupon <? now)%Z then ret None
      else if Js.truthyObj (minimumAmount coupon)
              && Js.ltQ amount (toNumber (default (mkDecimal 0) (minimumAmount coupon)))
           then ret None
      else if Js.truthyZ (usageLimit coupon)
              && (default 0%Z (usageLimit coupon) <=? usedCount coupon)%Z then ret None
      else ret (Some coupon)
  end.

Definition getCouponByCode (code : string) : M Coupon :=
  let* found := Prisma.coupon_findUnique (toUpperCase code) in
  match found with
  | None => throw (AppError "Coupon not found" 404)
  | Some coupon => ret coupon
  end.

Definition createCoupon (dflt : CouponDefaults) (data : CreateCouponRequest) : M Coupon :=
  let code := toUpperCase (cr_code data) in
  let* existingCoupon := Prisma.coupon_findUnique code in
  match existingCoupon with
  | Some _ => throw (AppError "Coupon with this code already exists" 409)
  | None =>
      let* coupon := PrismaQueries.coupon_create code (couponRow dflt data) in
      ret coupon
  end.

End ToUpperCase.

End withBuiltin.

(** ** More JavaScript: strings and non-finite numbers *)

Module JsStr.

(** [String.prototype.toLowerCase], on the ASCII letters. *)
Definition lowerAscii (c : ascii) : ascii :=
  let n := nat_of_ascii c in
  if (65 <=? n)%nat && (n <=? 90)%nat then ascii_of_nat (n + 32) else c.

Fixpoint toLowerCase (s : string) : string :=
  match s with
  | EmptyString => EmptyString
  | String c rest => String (lowerAscii c) (toLowerCase rest)
  end.

(** The ASCII characters of the class [\s], which are also the ASCII
    characters [trim] removes: tab, line feed, vertical tab, form feed,
    carriage return and space. *)
Definition isSpace (c : ascii) : bool :=
  let n := nat_of_ascii c in
  ((9 <=? n)%nat && (n <=? 13)%nat) || (n =? 32)%nat.

(** The class [\w]: letters, digits and the underscore. *)
Definition isWord (c : ascii) : bool :=
  let n := nat_of_ascii c in
  ((48 <=? n)%nat && (n <=? 57)%nat) || ((65 <=? n)%nat && (n <=? 90)%nat)
  || ((97 <=? n)%nat && (n <=? 122)%nat) || (n =? 95)%nat.

Definition isHyphen (c : ascii) : bool := (nat_of_ascii c =? 45)%nat.

Fixpoint dropWhile (f : ascii -> bool) (s : string) : string :=
  match s with
  | EmptyString => EmptyString
  | String c rest => if f c then dropWhile f rest else s
  end.

(** Removes the longest suffix whose characters all satisfy [f]. *)
Fixpoint dropWhileEnd (f : ascii -> bool) (s : string) : string :=
  match s with
  | EmptyString => EmptyString
  | String c rest =>
      match dropWhileEnd f rest with
      | EmptyString => if f c then EmptyString else String c EmptyString
      | kept => String c kept
      end
  end.

(** [String.prototype.trim]. *)
Definition trim (s : string) : string := dropWhileEnd isSpace (dropWhile isSpace s).

(** [s.replace(/[...]/g, '')] for a character class: the characters outside
    [keep] are deleted. *)
Fixpoint keepOnly (keep : ascii -> bool) (s : string) : string :=
  match s with
  | EmptyString => EmptyString
  | String c rest => if keep c then String c (keepOnly keep rest) else keepOnly keep rest
  end.

(** [s.replace(/[...]+/g, r)] for a character class: every maximal run of
    characters of the class becomes one [r]; [inRun] tells that the previous
    character was of the class. *)
Fixpoint collapseRuns (cls : ascii -> bool) (r : ascii) (inRun : bool) (s : string) : string :=
  match s with
  | EmptyString => EmptyString
  | String c rest =>
      if cls c
      then (if inRun then collapseRuns cls r true rest
            else String r (collapseRuns cls r true rest))
      else String c (collapseRuns cls r false rest)
  end.

(** [s.slice(0, n)] and [s.slice(-n)], for a natural number [n]. *)
Fixpoint sliceTo (n : nat) (s : string) : string :=
  match n, s with
  | S n, String c rest => String c (sliceTo n rest)
  | _, _ => EmptyString
  end.

Fixpoint dropFirst (n : nat) (s : string) : string :=
  match n, s with
  | S n, String c rest => dropFirst n rest
  | _, _ => s
  end.

Definition sliceLast (n : nat) (s : string) : string :=
  dropFirst (String.length s - n) s.

(** [s.split(sep)] for a one-character separator. *)
Fixpoint split (sep : ascii) (s : string) : list string :=
  match s with
  | EmptyString => [EmptyString]
  | String c rest =>
      if Ascii.eqb c sep then EmptyString :: split sep rest
      else match split sep rest with
           | p :: ps => String c p :: ps
           | [] => [String c EmptyString]
           end
  end.

(** The two hexadecimal digits of a byte, as [Buffer.toString('hex')] writes
    them. *)
Definition hexDigit (n : N) : ascii :=
  match n with
  | 0 => "0" | 1 => "1" | 2 => "2" | 3 => "3" | 4 => "4" | 5 => "5" | 6 => "6"
  | 7 => "7" | 8 => "8" | 9 => "9" | 10 => "a" | 11 => "b" | 12 => "c"
  | 13 => "d" | 14 => "e" | _ => "f"
  end%char%N.

Fixpoint toHex (bytes : list Byte.byte) : string :=
  match bytes with
  | [] => EmptyString
  | b :: rest =>
      let n := Byte.to_N b in
      String (hexDigit (n / 16)) (String (hexDigit (n mod 16)) (toHex rest))
  end.

End JsStr.

(** ** The helpers of [utils/helpers] *)

(** The arguments of [calculatePagination] are JavaScript numbers: the
    callers pass [Number(req.query...)] as it comes. *)
Record Pagination := mkPagination {
  pg_page : spec_float;
  pg_limit : spec_float;
  pg_total : spec_float;
  pg_totalPages : spec_float;
  pg_hasNext : bool;
  pg_hasPrev : bool;
  pg_offset : spec_float
}.

Module helpers.

Definition calculatePagination (page limit total : spec_float) : Pagination :=
  let totalPages := Double.Math_ceil (Double.div total limit) in
  let hasNext := Double.ltb page totalPages in
  let hasPrev := Double.gtb page (Double.ofZ 1) in
  let offset := Double.mul (Double.sub page (Double.ofZ 1)) limit in
  mkPagination page limit total totalPages hasNext hasPrev offset.

(** [generateRandomString(length)], given the bytes [randomBytes] returns. *)
Definition generateRandomString (randomBytes : nat -> list Byte.byte) (length : nat) : string :=
  JsStr.sliceTo length (JsStr.toHex (randomBytes (Nat.div2 (length + 1)))).

(** [generateOrderNumber()], given the clock reading and the random bytes. *)
Definition generateOrderNumber (randomBytes : nat -> list Byte.byte) (now : N) : string :=
  let timestamp := pretty now in
  let random := Js.toUpperCase (generateRandomString randomBytes 4) in
  "FH-" ++ JsStr.sliceLast 6 timestamp ++ "-" ++ random.

Definition isSeparator (c : ascii) : bool :=
  JsStr.isSpace c || (nat_of_ascii c =? 95)%nat || JsStr.isHyphen c.

Definition generateSlug (text : string) : string :=
  let lowered := JsStr.toLowerCase text in
  let trimmed := JsStr.trim lowered in
  let cleaned :=
    JsStr.keepOnly (fun c => JsStr.isWord c || JsStr.isSpace c || JsStr.isHyphen c) trimmed in
  let dashed := JsStr.collapseRuns isSeparator "-" false cleaned in
  JsStr.dropWhileEnd JsStr.isHyphen (JsStr.dropWhile JsStr.isHyphen dashed).

End helpers.

Module authUtils.

(** [extractTokenFromHeader(authHeader)]. *)
Definition extractTokenFromHeader (authHeader : option string) : option string :=
  if negb (Js.truthyStr authHeader) then None
  else
    let parts := JsStr.split " " (default "" authHeader) in
    if negb (length parts =? 2)%nat
       || negb (String.eqb (nth 0 parts "") "Bearer")
    then None
    else
      let token := nth 1 parts "" in
      if Js.truthyStr (Some token) then Some token else None.

End authUtils.

(** ** The cart and wishlist tables *)

Record CartItem := mkCartItem {
  ci_id : string;
  ci_userId : string;
  ci_productId : string;
  ci_quantity : Z;
  ci_selectedColor : option string;
  ci_selectedSize : option string
}.

Record WishlistItem := mkWishlistItem {
  wi_id : string;
  wi_userId : string;
  wi_productId : string
}.

(** The store with the cart and wishlist tables; each table lists its rows
    in creation order. *)
Record Shop := mkShop {
  base : Store;
  cartItems : list CartItem;
  wishlistItems : list WishlistItem
}.

Definition set_cartItems (f : list CartItem -> list CartItem) (sh : Shop) : Shop :=
  mkShop (base sh) (f (cartItems sh)) (wishlistItems sh).

Definition set_wishlistItems (f : list WishlistItem -> list WishlistItem) (sh : Shop) : Shop :=
  mkShop (base sh) (cartItems sh) (f (wishlistItems sh)).

Record AddToCartRequest := mkAddToCart {
  add_productId : string;
  add_quantity : Z;
  add_selectedColor : option string;
  add_selectedSize : option string
}.

Record UpdateCartItemRequest := mkUpdateCartItem {
  upc_quantity : Z;
  upc_selectedColor : option string;
  upc_selectedSize : option string
}.

Record Cart := mkCart {
  cart_items : list (CartItem * Product);
  cart_subtotal : Q;
  cart_shipping : Q;
  cart_tax : Q;
  cart_discount : Q;
  cart_total : Q;
  cart_itemCount : Z
}.

(** The service monad over the larger store. *)
Definition MS (A : Type) : Type := Shop -> Result A * Shop.

Definition retS {A} (a : A) : MS A := fun sh => (Ok a, sh).

Definition throwS {A} (e : Error) : MS A := fun sh => (Err e, sh).

Definition bindS {A B} (m : MS A) (k : A -> MS B) : MS B :=
  fun sh =>
    match m sh with
    | (Ok a, sh') => k a sh'
    | (Err e, sh') => (Err e, sh')
    end.

Declare Scope shop_scope.
Delimit Scope shop_scope with shop.

Notation "'let*' x ':=' m 'in' k" := (bindS m (fun x => k))
  (at level 10, x pattern, m at level 100, k at level 200) : shop_scope.

Notation "m ';;' k" := (bindS m (fun _ => k))
  (at level 100, k at level 200, right associativity) : shop_scope.

Local Open Scope shop_scope.

Module PrismaCart.

(** A required relation whose row is missing: the client reports an
    inconsistent query result. *)
Definition inconsistent : Error := PrismaError "InconsistentQueryResult".

Definition product_findUnique (id : string) : MS (option Product) :=
  fun sh => (Ok (products (base sh) !! id), sh).

(** [include: { product }] on one row. *)
Definition includeProduct {A} (pid : A -> string) (row : A) : MS (A * Product) :=
  fun sh =>
    match products (base sh) !! pid row with
    | Some p => (Ok (row, p), sh)
    | None => (Err inconsistent, sh)
    end.

Fixpoint includeProducts (rows : list CartItem) : MS (list (CartItem * Product)) :=
  match rows with
  | [] => retS []
  | row :: rest =>
      let* first := includeProduct ci_productId row in
      let* others := includeProducts rest in
      retS (first :: others)
  end.

Definition ofUser (uid : string) (it : CartItem) : bool :=
  String.eqb (ci_userId it) uid.

(** [cartItem.findMany] with [where: { userId }], [include: { product }] and
    [orderBy: { createdAt: 'desc' }]. *)
Definition cartItem_findMany (uid : string) : MS (list (CartItem * Product)) :=
  fun sh => includeProducts (rev (List.filter (ofUser uid) (cartItems sh))) sh.

Definition sameVariant (uid pid : string) (color size : option string)
    (it : CartItem) : bool :=
  String.eqb (ci_userId it) uid && String.eqb (ci_productId it) pid
  && bool_decide (ci_selectedColor it = color)
  && bool_decide (ci_selectedSize it = size).

(** [cartItem.findFirst] with
    [where: { userId, productId, selectedColor, selectedSize }]. *)
Definition cartItem_findFirst_variant (uid pid : string) (color size : option string)
    : MS (option CartItem) :=
  fun sh => (Ok (List.find (sameVariant uid pid color size) (cartItems sh)), sh).

Definition hasId (id : string) (it : CartItem) : bool := String.eqb (ci_id it) id.

(** [cartItem.findFirst] with [where: { id, userId }]. *)
Definition cartItem_findFirst (id uid : string) : MS (option CartItem) :=
  fun sh =>
    (Ok (List.find (fun it => hasId id it && ofUser uid it) (cartItems sh)), sh).

(** [cartItem.update] with [where: { id }]. *)
Definition cartItem_update (id : string) (f : CartItem -> CartItem) : MS CartItem :=
  fun sh =>
    match List.find (hasId id) (cartItems sh) with
    | Some it =>
        (Ok (f it),
         set_cartItems (map (fun row => if hasId id row then f row else row)) sh)
    | None => (Err Prisma.P2025, sh)
    end.

(** [cartItem.create]: the row gets the generated id and goes last. *)
Definition cartItem_create (it : CartItem) : MS CartItem :=
  fun sh =>
    match List.find (hasId (ci_id it)) (cartItems sh) with
    | Some _ => (Err Prisma.P2002, sh)
    | None => (Ok it, set_cartItems (fun rows => rows ++ [it])%list sh)
    end.

(** [cartItem.delete] with [where: { id }]. *)
Definition cartItem_delete (id : string) : MS unit :=
  fun sh =>
    match List.find (hasId id) (cartItems sh) with
    | Some _ => (Ok tt, set_cartItems (List.filter (fun row => negb (hasId id row))) sh)
    | None => (Err Prisma.P2025, sh)
    end.

(** [cartItem.deleteMany] with [where: { userId }]. *)
Definition cartItem_deleteMany (uid : string) : MS unit :=
  fun sh => (Ok tt, set_cartItems (List.filter (fun row => negb (ofUser uid row))) sh).

(** [cartItem.aggregate] with [_sum: { quantity: true }]: null when the user
    has no row. *)
Definition cartItem_sum_quantity (uid : string) : MS (option Z) :=
  fun sh =>
    (Ok match List.filter (ofUser uid) (cartItems sh) with
        | [] => None
        | rows => Some (fold_left (fun sum it => (sum + ci_quantity it)%Z) rows 0%Z)
        end, sh).

Definition wishHasId (id : string) (it : WishlistItem) : bool := String.eqb (wi_id it) id.

(** [wishlistItem.findFirst] with [where: { userId, productId }]. *)
Definition wishlistItem_findFirst_product (uid pid : string) : MS (option WishlistItem) :=
  fun sh =>
    (Ok (List.find (fun it => String.eqb (wi_userId it) uid
                              && String.eqb (wi_productId it) pid)
           (wishlistItems sh)), sh).

(** [wishlistItem.findFirst] with [where: { id, userId }]. *)
Definition wishlistItem_findFirst (id uid : string) : MS (option WishlistItem) :=
  fun sh =>
    (Ok (List.find (fun it => wishHasId id it && String.eqb (wi_userId it) uid)
           (wishlistItems sh)), sh).

Definition wishlistItem_create (it : WishlistItem) : MS WishlistItem :=
  fun sh =>
    match List.find (wishHasId (wi_id it)) (wishlistItems sh) with
    | Some _ => (Err Prisma.P2002, sh)
    | None => (Ok it, set_wishlistItems (fun rows => rows ++ [it])%list sh)
    end.

Definition wishlistItem_delete (id : string) : MS unit :=
  fun sh =>
    match List.find (wishHasId id) (wishlistItems sh) with
    | Some _ =>
        (Ok tt, set_wishlistItems (List.filter (fun row => negb (wishHasId id row))) sh)
    | None => (Err Prisma.P2025, sh)
    end.

(** [wishlistItem.count] with [where: { userId }]. *)
Definition wishlistItem_count (uid : string) : MS Z :=
  fun sh =>
    (Ok (Z.of_nat (length (List.filter (fun it => String.eqb (wi_userId it) uid)
                             (wishlistItems sh)))), sh).

End PrismaCart.

(** ** The cart service *)

(** The service joins each product with its category; categories are not
    part of the model and are taken to resolve.  A returned cart line
    stands for the row, without the joined product. *)

Module cartService.

(** The totals are summed in exact arithmetic, as in the order service of
    this model. *)
Definition getCart (uid : string) : MS Cart :=
  let* cartItems := PrismaCart.cartItem_findMany uid in
  let subtotal :=
    fold_left (fun sum item => (sum + price (snd item) * inject_Z (ci_quantity (fst item)))%Q)
      cartItems 0%Q in
  let shipping := calculateShipping subtotal in
  let tax := calculateTax (subtotal + shipping)%Q defaultTaxRate in
  let total := (subtotal + shipping + tax)%Q in
  let itemCount :=
    fold_left (fun sum item => (sum + ci_quantity (fst item))%Z) cartItems 0%Z in
  retS (mkCart cartItems subtotal shipping tax 0 total itemCount).

(** [addToCart(userId, data)]; [newId] is the id a created row gets. *)
Definition addToCart (newId : string) (uid : string) (data : AddToCartRequest)
    : MS CartItem :=
  let* found := PrismaCart.product_findUnique (add_productId data) in
  match found with
  | None => throwS (AppError "Product not found" 404)
  | Some product =>
      if negb (inStock product) then throwS (AppError "Product is out of stock" 400)
      else
        let* existingItem :=
          PrismaCart.cartItem_findFirst_variant uid (add_productId data)
            (Js.orNull (add_selectedColor data)) (Js.orNull (add_selectedSize data)) in
        match existingItem with
        | Some existingItem =>
            let newQuantity := (ci_quantity existingItem + add_quantity data)%Z in
            if (stockCount product <? newQuantity)%Z
            then throwS (AppError "Insufficient stock" 400)
            else
              let* updatedItem :=
                PrismaCart.cartItem_update (ci_id existingItem)
                  (fun it => mkCartItem (ci_id it) (ci_userId it) (ci_productId it)
                               newQuantity (ci_selectedColor it) (ci_selectedSize it)) in
              retS updatedItem
        | None =>
            if (stockCount product <? add_quantity data)%Z
            then throwS (AppError "Insufficient stock" 400)
            else
              let* cartItem :=
                PrismaCart.cartItem_create
                  (mkCartItem newId uid (add_productId data) (add_quantity data)
                     (Js.orNull (add_selectedColor data))
                     (Js.orNull (add_selectedSize data))) in
              retS cartItem
        end
  end.

Definition updateCartItem (uid : string) (cartItemId : string)
    (data : UpdateCartItemRequest) : MS CartItem :=
  let* found := PrismaCart.cartItem_findFirst cartItemId uid in
  match found with
  | None => throwS (AppError "Cart item not found" 404)
  | Some found =>
      let* cartItem := PrismaCart.includeProduct ci_productId found in
      if (upc_quantity data <=? 0)%Z then
        PrismaCart.cartItem_delete cartItemId ;;
        throwS (AppError "Item removed from cart" 200)
      else if (stockCount (snd cartItem) <? upc_quantity data)%Z
      then throwS (AppError "Insufficient stock" 400)
      else
        let* updatedItem :=
          PrismaCart.cartItem_update cartItemId
            (fun it => mkCartItem (ci_id it) (ci_userId it) (ci_productId it)
                         (upc_quantity data) (Js.orNull (upc_selectedColor data))
                         (Js.orNull (upc_selectedSize data))) in
        retS updatedItem
  end.

Definition removeFromCart (uid : string) (cartItemId : string) : MS unit :=
  let* found := PrismaCart.cartItem_findFirst cartItemId uid in
  match found with
  | None => throwS (AppError "Cart item not found" 404)
  | Some _ => PrismaCart.cartItem_delete cartItemId
  end.

Definition clearCart (uid : string) : MS unit :=
  PrismaCart.cartItem_deleteMany uid.

Definition addToWishlist (newId : string) (uid : string) (pid : string)
    : MS WishlistItem :=
  let* found := PrismaCart.product_findUnique pid in
  match found with
  | None => throwS (AppError "Product not found" 404)
  | Some _ =>
      let* existingItem := PrismaCart.wishlistItem_findFirst_product uid pid in
      match existingItem with
      | Some _ => throwS (AppError "Product is already in your wishlist" 409)
      | None =>
          let* wishlistItem :=
            PrismaCart.wishlistItem_create (mkWishlistItem newId uid pid) in
          retS wishlistItem
      end
  end.

Definition removeFromWishlist (uid : string) (wishlistItemId : string) : MS unit :=
  let* found := PrismaCart.wishlistItem_findFirst wishlistItemId uid in
  match found with
  | None => throwS (AppError "Wishlist item not found" 404)
  | Some _ => PrismaCart.wishlistItem_delete wishlistItemId
  end.

Definition moveToCart (newId : string) (uid : string) (wishlistItemId : string)
    (quantity : Z) : MS CartItem :=
  let* found := PrismaCart.wishlistItem_findFirst wishlistItemId uid in
  match found with
  | None => throwS (AppError "Wishlist item not found" 404)
  | Some found =>
      let* wishlistItem := PrismaCart.includeProduct wi_productId found in
      let product := snd wishlistItem in
      if negb (inStock product) || (stockCount product <? quantity)%Z
      then throwS (AppError "Product is out of stock" 400)
      else
        let* cartItem :=
          addToCart newId uid (mkAddToCart (wi_productId found) quantity None None) in
        PrismaCart.wishlistItem_delete wishlistItemId ;;
        retS cartItem
  end.

(** [result._sum.quantity || 0]. *)
Definition getCartItemCount (uid : string) : MS Z :=
  let* sum := PrismaCart.cartItem_sum_quantity uid in
  retS (if Js.truthyZ sum then default 0%Z sum else 0%Z).

Definition getWishlistItemCount (uid : string) : MS Z :=
  PrismaCart.wishlistItem_count uid.

End cartService.

Import cartService.

(** ** Requests, responses and the error handler *)

(** [req.user], as far as the handlers read it.  The role is the string of
    the user row; the handlers compare it with string literals. *)
Record User := mkUser { user_id : string; user_role : string }.

(** What a handler can throw: an error of the services, or a plain [Error]
    with its message. *)
Inductive Thrown :=
  | Raised (e : Error)
  | PlainError (message : string).

Inductive Payload :=
  | PNull
  | PCartItem (it : CartItem)
  | POrder (o : OrderWithProducts).

(** The JSON bodies of [sendSuccess] and of [sendError]. *)
Inductive Body :=
  | SuccessBody (data : Payload) (message : option string)
  | ErrorBody (error : string).

Record Response := mkResponse { res_statusCode : Z; res_body : Body }.

(** [...(message && { message })] leaves an empty message out. *)
Definition sendSuccess (data : Payload) (message : string) (statusCode : Z) : Response :=
  mkResponse statusCode
    (SuccessBody data (if Js.truthyStr (Some message) then Some message else None)).

Definition sendError (error : string) (statusCode : Z) : Response :=
  mkResponse statusCode (ErrorBody error).

Definition sendUnauthorized (message : string) : Response :=
  mkResponse 401 (ErrorBody message).

Definition sendForbidden (message : string) : Response :=
  mkResponse 403 (ErrorBody message).

(** [errorHandler] on what the services and [ensureUser] throw: an
    [AppError] keeps its status and message; the errors of the database
    client and plain errors have none of the names the handler knows. *)
Definition errorHandler (error : Thrown) : Response :=
  match error with
  | Raised (AppError message statusCode) => sendError message statusCode
  | Raised (PrismaError _) | PlainError _ => sendError "Internal server error" 500
  end.

(** [asyncHandler(fn)] with the error middleware behind it. *)
Definition asyncHandler {S} (fn : S -> (Thrown + Response) * S) : S -> Response * S :=
  fun s =>
    match fn s with
    | (inr res, s') => (res, s')
    | (inl error, s') => (errorHandler error, s')
    end.

Definition ensureUser (user : option User) : Thrown + string :=
  match user with
  | Some u =>
      if Js.truthyStr (Some (user_id u)) then inr (user_id u)
      else inl (PlainError "User not authenticated")
  | None => inl (PlainError "User not authenticated")
  end.

(** [error instanceof Error && error.message === text]; the messages of the
    database client are never one of the texts the handlers look for. *)
Definition hasMessage (text : string) (error : Thrown) : bool :=
  match error with
  | Raised (AppError message _) => String.eqb message text
  | Raised (PrismaError _) => false
  | PlainError message => String.eqb message text
  end.

(** The middleware of the routes: [None] stands for the call of [next]. *)
Module authMiddleware.

(** [roles.includes(user.role)]. *)
Definition authorize (roles : list string) (user : option User) : option Response :=
  match user with
  | None => Some (sendUnauthorized "Authentication required")
  | Some u =>
      if negb (existsb (String.eqb (user_role u)) roles)
      then Some (sendForbidden "Insufficient permissions")
      else None
  end.

Definition adminOnly (user : option User) : option Response :=
  match user with
  | None => Some (sendUnauthorized "Authentication required")
  | Some u =>
      if negb (String.eqb (user_role u) "admin")
         && negb (String.eqb (user_role u) "super_admin")
      then Some (sendForbidden "Admin access required")
      else None
  end.

Definition superAdminOnly (user : option User) : option Response :=
  match user with
  | None => Some (sendUnauthorized "Authentication required")
  | Some u =>
      if negb (String.eqb (user_role u) "super_admin")
      then Some (sendForbidden "Super admin access required")
      else None
  end.

End authMiddleware.

Module cartController.

Definition updateCartItem (user : option User) (cartItemId : string)
    (body : UpdateCartItemRequest) : Shop -> Response * Shop :=
  asyncHandler (fun sh =>
    let attempt :=
      match ensureUser user with
      | inl error => (inl error, sh)
      | inr uid =>
          match cartService.updateCartItem uid cartItemId body sh with
          | (Ok cartItem, sh') =>
              (inr (sendSuccess (PCartItem cartItem) "Cart item updated" 200), sh')
          | (Err e, sh') => (inl (Raised e), sh')
          end
      end in
    match attempt with
    | (inl error, sh') =>
        if hasMessage "Item removed from cart" error
        then (inr (sendSuccess PNull "Item removed from cart" 200), sh')
        else (inl error, sh')
    | (inr res, sh') => (inr res, sh')
    end).

Definition removeFromCart (user : option User) (cartItemId : string)
    : Shop -> Response * Shop :=
  asyncHandler (fun sh =>
    match ensureUser user with
    | inl error => (inl error, sh)
    | inr uid =>
        match cartService.removeFromCart uid cartItemId sh with
        | (Ok _, sh') => (inr (sendSuccess PNull "Item removed from cart" 200), sh')
        | (Err e, sh') => (inl (Raised e), sh')
        end
    end).

End cartController.

Module orderController.

(** [order.userId !== ensureUser(req) && req.user?.role === 'user']. *)
Definition denied (order : OrderWithProducts) (uid : string) (user : option User)
    : bool :=
  negb (String.eqb (userId (jo_order order)) uid)
  && match user with
     | Some u => String.eqb (user_role u) "user"
     | None => false
     end.

Definition getOrderById (user : option User) (orderId : string)
    : Store -> Response * Store :=
  asyncHandler (fun s =>
    match orderQueries.getOrderById orderId s with
    | (Err e, s') => (inl (Raised e), s')
    | (Ok order, s') =>
        match ensureUser user with
        | inl error => (inl error, s')
        | inr uid =>
            if denied order uid user then (inr (sendError "Access denied" 403), s')
            else (inr (sendSuccess (POrder order) "Order retrieved" 200), s')
        end
    end).

Definition getOrderByNumber (user : option User) (orderNumber : string)
    : Store -> Response * Store :=
  asyncHandler (fun s =>
    match orderQueries.getOrderByNumber orderNumber s with
    | (Err e, s') => (inl (Raised e), s')
    | (Ok order, s') =>
        match ensureUser user with
        | inl error => (inl error, s')
        | inr uid =>
            if denied order uid user then (inr (sendError "Access denied" 403), s')
            else (inr (sendSuccess (POrder order) "Order retrieved" 200), s')
        end
    end).

End orderController.

(** ** The pricing of [createOrder] on binary64 numbers *)

(** The arithmetic of [createOrder], lines 212 to 257, and of the helpers
    [calculateShipping] and [calculateTax], with every operation rounded as
    JavaScript rounds it.  A line is the [Decimal] price of its product and
    its quantity; [Number(product.price)] is [Double.ofQ]. *)
Module pricing64.

Definition itemTotal (line : Q * Z) : spec_float :=
  Double.mul (Double.ofQ (fst line)) (Double.ofZ (snd line)).

(** [let subtotal = 0; for (...) { subtotal += itemTotal }]. *)
Definition subtotalOf (lines : list (Q * Z)) : spec_float :=
  fold_left (fun subtotal line => Double.add subtotal (itemTotal line)) lines (Double.ofZ 0).

Definition calculateShipping (amount : spec_float) : spec_float :=
  if Double.geb amount (Double.ofZ 50) then Double.ofZ 0
  else if Double.geb amount (Double.ofZ 25) then Double.ofQ 5.99
  else Double.ofQ 9.99.

Definition calculateTax (amount taxRate : spec_float) : spec_float :=
  Double.div
    (Double.Math_round (Double.mul (Double.mul amount taxRate) (Double.ofZ 100)))
    (Double.ofZ 100).

Definition defaultTaxRate : spec_float := Double.ofQ 0.08.

(** The body of [if (coupon) { ... }], on the numbers of the coupon row. *)
Definition couponDiscount (subtotal : spec_float) (coupon : Coupon) : spec_float :=
  match type coupon with
  | percentage =>
      let discount :=
        Double.div (Double.mul subtotal (Double.ofQ (value coupon))) (Double.ofZ 100) in
      match maximumDiscount coupon with
      | Some cap =>
          if Double.truthy (Double.ofQ cap)
          then Double.Math_min discount (Double.ofQ cap)
          else discount
      | None => discount
      end
  | fixed => Double.ofQ (value coupon)
  end.

Record Figures := mkFigures {
  f_subtotal : spec_float;
  f_shipping : spec_float;
  f_tax : spec_float;
  f_discount : spec_float;
  f_total : spec_float
}.


(** The figures of [getCart], lines 29 to 35 of cart.service.ts: the same
    running sum and the same helpers, no discount. *)
Definition cartFigures (lines : list (Q * Z)) : Figures :=
  let subtotal := subtotalOf lines in
  let shipping := calculateShipping subtotal in
  let tax := calculateTax (Double.add subtotal shipping) defaultTaxRate in
  let total := Double.add (Double.add subtotal shipping) tax in
  mkFigures subtotal shipping tax (Double.ofZ 0) total.

End pricing64.

(** ** The cap of a percentage coupon, by what the column holds *)




(** ** Vocabulary of the specification *)

Definition lineTotal (it : OrderItem) : Q :=
  (oi_price it * inject_Z (oi_quantity it))%Q.

(** The sum of unit price times quantity over the lines of an order. *)
Fixpoint sumLines (l : list OrderItem) : Q :=
  match l with
  | [] => 0%Q
  | it :: rest => (lineTotal it + sumLines rest)%Q
  end.

(** The stock check on a single line. *)
Definition lineInsufficient (p : Product) (item : CreateOrderItemRequest) : Prop :=
  inStock p = false \/ (stockCount p < quantity item)%Z.

(** [frozenLine s item oi]: [oi] is the order item made from the request line
    [item], with the unit price the catalog of [s] has at that moment. *)
Definition frozenLine (s : Store) (item : CreateOrderItemRequest) (oi : OrderItem) : Prop :=
  exists p,
    products s !! productId item = Some p /\
    ~ lineInsufficient p item /\
    oi = mkOrderItem (productId item) (quantity item) (price p)
           (Js.orNull (selectedColor item)) (Js.orNull (selectedSize item)).

(** A line whose product is missing or short of stock. *)
Definition lineRejected (s : Store) (item : CreateOrderItemRequest) : Prop :=
  match products s !! productId item with
  | None => True
  | Some p => lineInsufficient p item
  end.

Definition isNotFound (e : Error) : Prop :=
  exists pid, e = AppError ("Product with ID " ++ pid ++ " not found") 404.

Definition isInsufficientStock (e : Error) : Prop :=
  exists pname, e = AppError ("Insufficient stock for product " ++ pname) 400.

(** The shipping tiers. *)
Definition shippingTier (sub ship : Q) : Prop :=
  (50 <= sub -> ship == 0)%Q /\
  (25 <= sub -> sub < 50 -> ship == 5.99)%Q /\
  (sub < 25 -> ship == 9.99)%Q.

(** [r] is [x] rounded to two decimal places, halves rounded up. *)
Definition isRound2HalfUp (x r : Q) : Prop :=
  (exists k : Z, r == inject_Z k / 100)%Q /\
  (r - 0.005 <= x)%Q /\ (x < r + 0.005)%Q.

(** The store once the two address snapshots are written. *)
Definition withSnapshots (fresh : Fresh) (uid : string) (data : CreateOrderRequest)
    (s : Store) : Store :=
  set_addresses
    (fun l => (l ++ [mkAddressRow (newBillingId fresh) BILLING uid (billingAddress data)])%list)
    (set_addresses
       (fun l => (l ++ [mkAddressRow (newShippingId fresh) SHIPPING uid (shippingAddress data)])%list)
       s).

(** The order row [createOrder] builds from a subtotal, the order items and a
    discount. *)
Definition orderRow (fresh : Fresh) (uid : string) (data : CreateOrderRequest)
    (sub : Q) (ois : list OrderItem) (d : Q) : Order :=
  let ship := calculateShipping sub in
  let tx := calculateTax (sub + ship)%Q defaultTaxRate in
  mkOrder (newOrderNumber fresh) uid ois sub ship tx d (sub + ship + tx - d)%Q
    PENDING CASH_ON_DELIVERY PAY_PENDING (req_notes data)
    (newShippingId fresh) (newBillingId fresh) None None.

(** A minimum amount is set when the column is present; a usage limit or a
    discount cap is set when the field is present and not zero. *)
Definition minimumSet (c : Coupon) (m : Q) : Prop :=
  exists d, minimumAmount c = Some d /\ toNumber d = m.

Definition limitSet (c : Coupon) (l : Z) : Prop :=
  usageLimit c = Some l /\ l <> 0%Z.

Definition capSet (c : Coupon) (m : Q) : Prop :=
  maximumDiscount c = Some m /\ ~ (m == 0)%Q.

(** The applicability conditions of the coupon validator. *)
Definition couponApplicable (now : Z) (amount : Q) (c : Coupon) : Prop :=
  isActive c = true /\
  (validFrom c <= now <= validUntil c)%Z /\
  (forall m, minimumSet c m -> (m <= amount)%Q) /\
  (forall l, limitSet c l -> (usedCount c < l)%Z).

(** The checks of [validateCoupon] after the lookup, as one boolean. *)
Definition couponPasses (now : Z) (amount : Q) (c : Coupon) : bool :=
  isActive c
  && negb ((now <? validFrom c)%Z || (validUntil c <? now)%Z)
  && negb (Js.truthyObj (minimumAmount c)
           && Js.ltQ amount (toNumber (default (mkDecimal 0) (minimumAmount c))))
  && negb (Js.truthyZ (usageLimit c)
           && (default 0%Z (usageLimit c) <=? usedCount c)%Z).


(** An order the owner may cancel. *)
Definition cancellable (uid oid : string) (s : Store) (o : Order) : Prop :=
  orders s !! oid = Some o /\ userId o = uid /\
  status o <> CANCELLED /\ status o <> DELIVERED.

(** The quantity the items of an order hold of product [pid]. *)
Fixpoint quantityOf (pid : string) (its : list OrderItem) : Z :=
  match its with
  | [] => 0%Z
  | it :: rest =>
      ((if decide (oi_productId it = pid) then oi_quantity it else 0)
       + quantityOf pid rest)%Z
  end.

(** Every order item refers to a product of the catalog (the foreign key of
    the order-item table). *)
Definition itemsResolved (s : Store) : Prop :=
  map_Forall
    (fun _ o => Forall (fun it => is_Some (products s !! oi_productId it)) (items o))
    (orders s).

(** The quantity a request asks of product [pid], over all its lines. *)
Fixpoint requestedOf (pid : string) (todo : list CreateOrderItemRequest) : Z :=
  match todo with
  | [] => 0%Z
  | item :: rest =>
      ((if decide (productId item = pid) then quantity item else 0)
       + requestedOf pid rest)%Z
  end.

(** When a request names a coupon code, a coupon row is stored under that
    very code. *)
Definition couponRowPresent (code : option string) (s : Store) : Prop :=
  Js.truthyStr code = true -> is_Some (coupons s !! default "" code).

(** ** Vocabulary for the helpers *)

(** What is to pay before any discount: subtotal, shipping and tax, as
    [createOrder] and [getCart] add them up. *)
Definition payable (subtotal : Q) : Q :=
  (subtotal + calculateShipping subtotal
   + calculateTax (subtotal + calculateShipping subtotal) defaultTaxRate)%Q.

(** Every character of [s] satisfies [f]. *)
Fixpoint allChars (f : ascii -> bool) (s : string) : bool :=
  match s with
  | EmptyString => true
  | String c rest => f c && allChars f rest
  end.

Definition startsWith (f : ascii -> bool) (s : string) : bool :=
  match s with
  | EmptyString => false
  | String c _ => f c
  end.

Fixpoint endsWith (f : ascii -> bool) (s : string) : bool :=
  match s with
  | EmptyString => false
  | String c EmptyString => f c
  | String _ rest => endsWith f rest
  end.

(** No two hyphens in a row. *)
Fixpoint noDoubleHyphen (s : string) : bool :=
  match s with
  | EmptyString => true
  | String c rest =>
      negb (JsStr.isHyphen c && startsWith JsStr.isHyphen rest) && noDoubleHyphen rest
  end.

Definition isAscii (c : ascii) : bool := (nat_of_ascii c <? 128)%nat.

(** A lowercase letter, a digit or a hyphen. *)
Definition isSlugChar (c : ascii) : bool :=
  let n := nat_of_ascii c in
  ((48 <=? n)%nat && (n <=? 57)%nat) || ((97 <=? n)%nat && (n <=? 122)%nat)
  || (n =? 45)%nat.

(** A lowercase hexadecimal digit; an uppercase one. *)
Definition isHexLower (c : ascii) : bool :=
  let n := nat_of_ascii c in
  ((48 <=? n)%nat && (n <=? 57)%nat) || ((97 <=? n)%nat && (n <=? 102)%nat).

Definition isHexUpper (c : ascii) : bool :=
  let n := nat_of_ascii c in
  ((48 <=? n)%nat && (n <=? 57)%nat) || ((65 <=? n)%nat && (n <=? 70)%nat).

Definition isDigit (c : ascii) : bool :=
  let n := nat_of_ascii c in (48 <=? n)%nat && (n <=? 57)%nat.

(** The last [k] decimal digits of [x], written in front of [s]. *)
Fixpoint lastDigits (k : nat) (x : N) (s : string) : string :=
  match k with
  | O => s
  | S k => lastDigits k (x / 10)%N (String (pretty_N_char (x mod 10)%N) s)
  end.

(** [parts.join(sep)]. *)
Fixpoint joinWith (sep : ascii) (parts : list string) : string :=
  match parts with
  | [] => EmptyString
  | [p] => p
  | p :: rest => p ++ String sep (joinWith sep rest)
  end.

(** The characters the first replacement of [generateSlug] keeps. *)
Definition slugKeep (c : ascii) : bool :=
  JsStr.isWord c || JsStr.isSpace c || JsStr.isHyphen c.

Definition notUpper (c : ascii) : bool :=
  negb ((65 <=? nat_of_ascii c)%nat && (nat_of_ascii c <=? 90)%nat).

(** The slugs: lowercase letters, digits and single hyphens, with no hyphen
    at either end. *)
Definition isSlug (s : string) : Prop :=
  allChars isSlugChar s = true /\
  startsWith JsStr.isHyphen s = false /\
  endsWith JsStr.isHyphen s = false /\
  noDoubleHyphen s = true.

Definition noSpace (c : ascii) : bool := negb (Ascii.eqb c " ").

(** ** Vocabulary for the cart *)

(** What identifies a cart line besides its id: the user, the product and the
    chosen color and size. *)
Definition variantKey (it : CartItem) : string * string * option string * option string :=
  (ci_userId it, ci_productId it, ci_selectedColor it, ci_selectedSize it).

(** The ids of the cart table are distinct and no two lines have the same
    user, product, color and size. *)
Definition cartWellFormed (sh : Shop) : Prop :=
  NoDup (map ci_id (cartItems sh)) /\ NoDup (map variantKey (cartItems sh)).

(** Every cart line refers to a product of the catalog. *)
Definition cartResolved (sh : Shop) : Prop :=
  Forall (fun it => is_Some (products (base sh) !! ci_productId it)) (cartItems sh).

(** The lines of a user, newest first. *)
Definition linesOf (uid : string) (sh : Shop) : list CartItem :=
  rev (List.filter (PrismaCart.ofUser uid) (cartItems sh)).

(** Sum of price times quantity, and of the quantities, over cart lines
    joined with their products. *)
Fixpoint cartValue (rows : list (CartItem * Product)) : Q :=
  match rows with
  | [] => 0%Q
  | (it, p) :: rest => (price p * inject_Z (ci_quantity it) + cartValue rest)%Q
  end.

Fixpoint cartQuantity (rows : list CartItem) : Z :=
  match rows with
  | [] => 0%Z
  | it :: rest => (ci_quantity it + cartQuantity rest)%Z
  end.

(** The order request that asks for the lines of a cart. *)
Definition requestOf (c : Cart) (ship bill : Address) : CreateOrderRequest :=
  mkOrderReq
    (map (fun row => mkItemReq (ci_productId (fst row)) (ci_quantity (fst row))
                       (ci_selectedColor (fst row)) (ci_selectedSize (fst row)))
       (cart_items c))
    ship bill None None.

(** The lines of the users other than [uid], in table order. *)
Definition linesOfOthers (uid : string) (sh : Shop) : list CartItem :=
  List.filter (fun it => negb (PrismaCart.ofUser uid it)) (cartItems sh).

(** What identifies a wishlist entry besides its id. *)
Definition wishKey (it : WishlistItem) : string * string :=
  (wi_userId it, wi_productId it).

(** The ids of the wishlist table are distinct and no user has a product
    twice. *)
Definition wishlistWellFormed (sh : Shop) : Prop :=
  NoDup (map wi_id (wishlistItems sh)) /\ NoDup (map wishKey (wishlistItems sh)).

(** The roles the program gives its users: the values of the [UserRole]
    type of [types/common.types.ts], which the seed script and the
    registration write. *)
Definition storedRoles : list string := ["USER"; "ADMIN"; "SUPER_ADMIN"].

(** ** Vocabulary for the price breakdown *)








(** ** Read-only steps *)

(** Case analysis on every conditional of the goal. *)
Ltac case_ifs :=
  repeat match goal with
         | |- context [if ?b then _ else _] => destruct b
         end.

Lemma validateCoupon_store now code amount s :
  snd (validateCoupon now code amount s) = s.
Proof.
  unfold validateCoupon, bind, Prisma.coupon_findUnique, ret.
  destruct (coupons s !! Js.toUpperCase code) as [c|]; [|reflexivity].
  case_ifs; reflexivity.
Qed.

Lemma validateCoupon_no_error now code amount s :
  exists r, fst (validateCoupon now code amount s) = Ok r.
Proof.
  unfold validateCoupon, bind, Prisma.coupon_findUnique, ret.
  destruct (coupons s !! Js.toUpperCase code) as [c|]; [|eexists; reflexivity].
  case_ifs; eexists; reflexivity.
Qed.

Lemma discountFor_run now code sub s :
  exists d, discountFor now code sub s = (Ok d, s).
Proof.
  unfold discountFor, bind, ret.
  destruct (Js.truthyStr code); [|eexists; reflexivity].
  pose proof (validateCoupon_store now (default "" code) sub s) as Hs.
  destruct (validateCoupon_no_error now (default "" code) sub s) as [r Hr].
  destruct (validateCoupon now (default "" code) sub s) as [res s1].
  simpl in Hs, Hr. subst. destruct r; eexists; reflexivity.
Qed.

Lemma validateItems_store todo : forall sub acc s,
  snd (validateItems todo sub acc s) = s.
Proof.
  induction todo as [|item rest IH]; intros sub acc s; [reflexivity|].
  cbn [validateItems]. unfold bind, Prisma.product_findUnique, throw.
  destruct (products s !! productId item) as [p|]; [|reflexivity].
  destruct (negb (inStock p) || (stockCount p <? quantity item)%Z); [reflexivity|].
  apply IH.
Qed.

(** ** What the validation loop computes *)

Lemma sumLines_app l1 l2 : (sumLines (l1 ++ l2) == sumLines l1 + sumLines l2)%Q.
Proof.
  induction l1 as [|x l1 IH]; cbn [sumLines app].
  - ring.
  - rewrite IH. ring.
Qed.

Lemma stock_check_false p item :
  negb (inStock p) || (stockCount p <? quantity item)%Z = false ->
  ~ lineInsufficient p item.
Proof.
  intros H [Hin | Hlt].
  - rewrite Hin in H. discriminate.
  - apply Z.ltb_lt in Hlt. rewrite Hlt, orb_true_r in H. discriminate.
Qed.

Lemma stock_check_true p item :
  negb (inStock p) || (stockCount p <? quantity item)%Z = true ->
  lineInsufficient p item.
Proof.
  intros H. apply orb_true_iff in H as [H | H].
  - left. destruct (inStock p); [discriminate | reflexivity].
  - right. apply Z.ltb_lt, H.
Qed.

Lemma validateItems_Ok todo : forall sub acc s sub' acc',
  fst (validateItems todo sub acc s) = Ok (sub', acc') ->
  exists news,
    acc' = (acc ++ news)%list /\
    Forall2 (frozenLine s) todo news /\
    (sub' == sub + sumLines news)%Q.
Proof.
  induction todo as [|item rest IH]; intros sub acc s sub' acc' H.
  - cbn in H. injection H as <- <-. exists []. rewrite app_nil_r.
    repeat split; [constructor | cbn; ring].
  - cbn [validateItems] in H. unfold bind, Prisma.product_findUnique, throw in H.
    destruct (products s !! productId item) as [p|] eqn:Hp; [|discriminate].
    destruct (negb (inStock p) || (stockCount p <? quantity item)%Z) eqn:Hchk;
      [discriminate|].
    apply IH in H as (news & -> & Hall & Hsum).
    eexists (_ :: news). rewrite <- app_assoc. split; [reflexivity|]. split.
    + constructor; [|exact Hall]. exists p. repeat split; try assumption.
      now apply stock_check_false.
    + rewrite Hsum. cbn [sumLines]. unfold lineTotal. cbn. ring.
Qed.

Lemma validateItems_rejects todo : forall sub acc s,
  Exists (lineRejected s) todo ->
  exists e, fst (validateItems todo sub acc s) = Err e /\
            (isNotFound e \/ isInsufficientStock e).
Proof.
  induction todo as [|item rest IH]; intros sub acc s Hex.
  - inversion Hex.
  - cbn [validateItems]. unfold bind, Prisma.product_findUnique, throw.
    unfold lineRejected in Hex.
    destruct (products s !! productId item) as [p|] eqn:Hp.
    + destruct (negb (inStock p) || (stockCount p <? quantity item)%Z) eqn:Hchk.
      * eexists. split; [reflexivity|]. right. eexists. reflexivity.
      * apply IH. inversion Hex as [? ? Hbad | ? ? Hrest]; subst; [|exact Hrest].
        rewrite Hp in Hbad. now apply stock_check_false in Hchk.
    + eexists. split; [reflexivity|]. left. eexists. reflexivity.
Qed.

Lemma validateItems_accepts todo : forall sub acc s,
  ~ Exists (lineRejected s) todo ->
  exists v, validateItems todo sub acc s = (Ok v, s).
Proof.
  induction todo as [|item rest IH]; intros sub acc s Hno.
  - eexists. reflexivity.
  - cbn [validateItems]. unfold bind, Prisma.product_findUnique, throw.
    assert (Hhd : ~ lineRejected s item) by (intros H; apply Hno; now left).
    assert (Htl : ~ Exists (lineRejected s) rest) by (intros H; apply Hno; now right).
    unfold lineRejected in Hhd.
    destruct (products s !! productId item) as [p|] eqn:Hp; [|now destruct Hhd].
    destruct (negb (inStock p) || (stockCount p <? quantity item)%Z) eqn:Hchk.
    + apply stock_check_true in Hchk. contradiction.
    + apply IH, Htl.
Qed.

(** ** The shape of a [createOrder] run *)

Lemma createOrder_rejected fresh now uid data s :
  Exists (lineRejected s) (req_items data) ->
  exists e,
    createOrder fresh now uid data s = (Err e, withSnapshots fresh uid data s) /\
    (isNotFound e \/ isInsufficientStock e).
Proof.
  intros Hex.
  destruct (validateItems_rejects _ 0%Q [] (withSnapshots fresh uid data s) Hex)
    as (e & He & Hkind).
  pose proof (validateItems_store (req_items data) 0%Q []
                (withSnapshots fresh uid data s)) as Hs.
  exists e. split; [|exact Hkind].
  unfold createOrder, bind, Prisma.address_create.
  unfold withSnapshots in *.
  destruct (validateItems (req_items data) 0%Q [] _) as [r s2].
  cbn in He, Hs. subst. reflexivity.
Qed.

Lemma createOrder_Ok fresh now uid data s o s' :
  createOrder fresh now uid data s = (Ok o, s') ->
  exists sub ois d,
    validateItems (req_items data) 0%Q [] (withSnapshots fresh uid data s)
      = (Ok (sub, ois), withSnapshots fresh uid data s) /\
    discountFor now (couponCode data) sub (withSnapshots fresh uid data s)
      = (Ok d, withSnapshots fresh uid data s) /\
    o = orderRow fresh uid data sub ois d.
Proof.
  intros H.
  pose proof (validateItems_store (req_items data) 0%Q []
                (withSnapshots fresh uid data s)) as Hs.
  unfold createOrder, bind, Prisma.address_create in H.
  unfold withSnapshots in *.
  destruct (validateItems (req_items data) 0%Q [] _) as [[[sub ois]|e] s2];
    cbn in Hs; subst s2; [|discriminate].
  cbn [fst snd] in H.
  match type of H with
  | context [discountFor now (couponCode data) sub ?s1] =>
      destruct (discountFor_run now (couponCode data) sub s1) as [d Hd]
  end.
  rewrite Hd in H.
  exists sub, ois, d. repeat split; [exact Hd|].
  match type of H with
  | context [Prisma.order_create ?i ?row ?s1] =>
      destruct (Prisma.order_create i row s1) as [[o1|e] s3] eqn:Hc; [|discriminate]
  end.
  assert (o1 = orderRow fresh uid data sub ois d) as ->.
  { unfold Prisma.order_create in Hc.
    match type of Hc with
    | context [orders ?s1 !! ?i] => destruct (orders s1 !! i); [discriminate|]
    end.
    destruct (Prisma.orderNumberTaken _ _); [discriminate|].
    injection Hc as <- _. reflexivity. }
  destruct (decrementStock (req_items data) s3) as [[[]|e] s4]; [|discriminate].
  destruct (recordCouponUse (couponCode data) s4) as [[[]|e] s5]; [|discriminate].
  cbn in H. injection H as <- _. reflexivity.
Qed.

(** ** Pricing *)

Lemma geQ_true a b : Js.geQ a b = true <-> (b <= a)%Q.
Proof. unfold Js.geQ. apply Qle_bool_iff. Qed.

Lemma geQ_false a b : Js.geQ a b = false <-> (a < b)%Q.
Proof.
  unfold Js.geQ. split; intros H.
  - apply Qnot_le_lt. intros Hle. apply Qle_bool_iff in Hle. congruence.
  - destruct (Qle_bool b a) eqn:E; [|reflexivity].
    apply Qle_bool_iff in E. exfalso. apply (Qlt_not_le _ _ H E).
Qed.

Lemma calculateShipping_tier sub : shippingTier sub (calculateShipping sub).
Proof.
  unfold shippingTier, calculateShipping.
  destruct (Js.geQ sub 50) eqn:H50; [apply geQ_true in H50 | apply geQ_false in H50];
    (destruct (Js.geQ sub 25) eqn:H25; [apply geQ_true in H25 | apply geQ_false in H25]);
    repeat split; intros; try reflexivity; lra.
Qed.

Lemma Math_round_bounds x :
  (Js.Math_round x - (1 # 2) <= x)%Q /\ (x < Js.Math_round x + (1 # 2))%Q.
Proof.
  unfold Js.Math_round.
  pose proof (Qfloor_le (x + (1 # 2))) as Hlo.
  pose proof (Qlt_floor (x + (1 # 2))) as Hhi.
  rewrite inject_Z_plus in Hhi. change (inject_Z 1) with 1%Q in Hhi.
  split; lra.
Qed.

Lemma calculateTax_round2 amount rate :
  isRound2HalfUp (amount * rate) (calculateTax amount rate).
Proof.
  unfold isRound2HalfUp, calculateTax.
  destruct (Math_round_bounds (amount * rate * 100)) as [Hlo Hhi].
  set (k := Js.Math_round (amount * rate * 100)) in *.
  split; [|split].
  - exists (Qfloor (amount * rate * 100 + (1 # 2))). reflexivity.
  - unfold Qdiv. change (/ 100)%Q with (1 # 100)%Q. lra.
  - unfold Qdiv. change (/ 100)%Q with (1 # 100)%Q. lra.
Qed.

(** ** Relative stock updates *)

Lemma addStock_0 p : Prisma.addStock 0 p = p.
Proof. destruct p. unfold Prisma.addStock. cbn. f_equal. lia. Qed.

Lemma addStock_addStock a b p :
  Prisma.addStock a (Prisma.addStock b p) = Prisma.addStock (b + a) p.
Proof. unfold Prisma.addStock. cbn. f_equal. lia. Qed.

Lemma product_update_stock_run pid delta s p :
  products s !! pid = Some p ->
  Prisma.product_update_stock pid delta s
    = (Ok tt, set_products (alter (Prisma.addStock delta) pid) s).
Proof. intros H. unfold Prisma.product_update_stock. rewrite H. reflexivity. Qed.

Lemma lookup_addStock_step (P : gmap string Product) pid0 q k pid :
  Prisma.addStock k <$> alter (Prisma.addStock q) pid0 P !! pid
  = Prisma.addStock ((if decide (pid0 = pid) then q else 0) + k) <$> P !! pid.
Proof.
  rewrite lookup_alter. destruct (decide (pid0 = pid)) as [->|Hne].
  - destruct (P !! pid) as [p|]; cbn; [|reflexivity].
    now rewrite addStock_addStock.
  - reflexivity.
Qed.

Lemma restoreStock_run its : forall s,
  Forall (fun it => is_Some (products s !! oi_productId it)) its ->
  exists s',
    restoreStock its s = (Ok tt, s') /\
    addresses s' = addresses s /\ coupons s' = coupons s /\ orders s' = orders s /\
    forall pid,
      products s' !! pid = Prisma.addStock (quantityOf pid its) <$> products s !! pid.
Proof.
  induction its as [|it rest IH]; intros s Hall.
  - exists s. repeat split. intros pid. cbn [quantityOf].
    destruct (products s !! pid) as [p|]; cbn; [|reflexivity].
    now rewrite addStock_0.
  - inversion Hall as [|? ? [p Hp] Hrest]; subst.
    cbn [restoreStock]. unfold bind.
    rewrite (product_update_stock_run _ _ _ _ Hp).
    set (s1 := set_products (alter (Prisma.addStock (oi_quantity it)) (oi_productId it)) s).
    destruct (IH s1) as (s' & Hrun & Ha & Hc & Ho & Hp').
    { eapply Forall_impl; [exact Hrest|]. intros x Hx. cbn.
      apply lookup_alter_is_Some, Hx. }
    exists s'. rewrite Hrun. repeat split; try assumption.
    intros pid. rewrite Hp'. cbn [quantityOf]. apply lookup_addStock_step.
Qed.

Lemma decrementStock_run todo : forall s,
  Forall (fun item => is_Some (products s !! productId item)) todo ->
  exists s',
    decrementStock todo s = (Ok tt, s') /\
    addresses s' = addresses s /\ coupons s' = coupons s /\ orders s' = orders s /\
    forall pid,
      products s' !! pid = Prisma.addStock (- requestedOf pid todo) <$> products s !! pid.
Proof.
  induction todo as [|item rest IH]; intros s Hall.
  - exists s. repeat split. intros pid. cbn [requestedOf].
    destruct (products s !! pid) as [p|]; cbn; [|reflexivity].
    now rewrite addStock_0.
  - inversion Hall as [|? ? [p Hp] Hrest]; subst.
    cbn [decrementStock]. unfold bind.
    rewrite (product_update_stock_run _ _ _ _ Hp).
    set (s1 := set_products (alter (Prisma.addStock (- quantity item)) (productId item)) s).
    destruct (IH s1) as (s' & Hrun & Ha & Hc & Ho & Hp').
    { eapply Forall_impl; [exact Hrest|]. intros x Hx. cbn.
      apply lookup_alter_is_Some, Hx. }
    exists s'. rewrite Hrun. repeat split; try assumption.
    intros pid. rewrite Hp'. cbn [requestedOf].
    etrans; [apply lookup_addStock_step|].
    apply (f_equal (fun k => Prisma.addStock k <$> products s !! pid)).
    destruct (decide (productId item = pid)); lia.
Qed.

(** ** Cancelling *)

Lemma alter_is_insert (m : gmap string Order) i f o :
  m !! i = Some o -> alter f i m = <[i := f o]> m.
Proof.
  intros H. apply map_eq. intros j. rewrite lookup_alter, lookup_insert.
  destruct (decide (i = j)) as [->|]; [rewrite H|]; reflexivity.
Qed.

Lemma cancelOrder_missing uid oid s :
  (forall o, orders s !! oid = Some o -> userId o <> uid) ->
  cancelOrder uid oid s = (Err (AppError "Order not found" 404), s).
Proof.
  intros H. unfold cancelOrder, bind, Prisma.order_findFirst.
  destruct (orders s !! oid) as [o|]; [|reflexivity].
  destruct (decide (userId o = uid)) as [e|]; [|reflexivity].
  now destruct (H o eq_refl).
Qed.

Lemma cancelOrder_cancelled uid oid s o :
  orders s !! oid = Some o -> userId o = uid -> status o = CANCELLED ->
  cancelOrder uid oid s = (Err (AppError "Order is already cancelled" 400), s).
Proof.
  intros Ho Hu Hs. unfold cancelOrder, bind, Prisma.order_findFirst.
  rewrite Ho. destruct (decide (userId o = uid)); [|contradiction]. cbn.
  destruct (decide (status o = CANCELLED)); [reflexivity | contradiction].
Qed.

Lemma cancelOrder_delivered uid oid s o :
  orders s !! oid = Some o -> userId o = uid -> status o = DELIVERED ->
  cancelOrder uid oid s = (Err (AppError "Cannot cancel delivered order" 400), s).
Proof.
  intros Ho Hu Hs. unfold cancelOrder, bind, Prisma.order_findFirst.
  rewrite Ho. destruct (decide (userId o = uid)); [|contradiction]. cbn.
  destruct (decide (status o = CANCELLED)) as [Hc|]; [congruence|].
  destruct (decide (status o = DELIVERED)); [reflexivity | contradiction].
Qed.

Lemma cancelOrder_cancellable uid oid s o :
  Forall (fun it => is_Some (products s !! oi_productId it)) (items o) ->
  cancellable uid oid s o ->
  exists s',
    cancelOrder uid oid s = (Ok (setStatus CANCELLED o), s') /\
    orders s' = <[oid := setStatus CANCELLED o]> (orders s) /\
    (forall pid,
       products s' !! pid
       = Prisma.addStock (quantityOf pid (items o)) <$> products s !! pid) /\
    coupons s' = coupons s /\ addresses s' = addresses s.
Proof.
  intros Hres (Ho & Hu & Hnc & Hnd).
  destruct (restoreStock_run (items o) s Hres) as (s1 & Hrun & Ha & Hc & Hos & Hp).
  unfold cancelOrder, bind, Prisma.order_findFirst.
  rewrite Ho. destruct (decide (userId o = uid)); [|contradiction]. cbn.
  destruct (decide (status o = CANCELLED)); [contradiction|].
  destruct (decide (status o = DELIVERED)); [contradiction|].
  unfold Prisma.orderItem_findMany. rewrite Ho, Hrun.
  unfold Prisma.order_update. rewrite Hos, Ho. cbn.
  eexists. split; [reflexivity|]. cbn.
  rewrite Hos. split; [now apply alter_is_insert|].
  repeat split; assumption.
Qed.

(** ** The coupon validator *)


Lemma truthyQ_Some m : Js.truthyQ (Some m) = true <-> ~ (m == 0)%Q.
Proof.
  unfold Js.truthyQ. rewrite negb_true_iff. split.
  - intros H. now apply Qeq_bool_neq.
  - intros H. destruct (Qeq_bool m 0) eqn:E; [|reflexivity].
    apply Qeq_bool_iff in E. contradiction.
Qed.

Lemma truthyZ_Some l : Js.truthyZ (Some l) = true <-> l <> 0%Z.
Proof.
  unfold Js.truthyZ. rewrite negb_true_iff. apply Z.eqb_neq.
Qed.

Lemma minimum_check amount c :
  Js.truthyObj (minimumAmount c)
  && Js.ltQ amount (toNumber (default (mkDecimal 0) (minimumAmount c))) = false
  <-> forall m, minimumSet c m -> (m <= amount)%Q.
Proof.
  unfold minimumSet. destruct (minimumAmount c) as [d|]; cbn [default Js.truthyObj andb].
  - change (default (mkDecimal 0) (Some d)) with d.
    unfold Js.ltQ. rewrite negb_false_iff, Qle_bool_iff. split.
    + intros H m (d' & [= <-] & <-). exact H.
    + intros H. apply H. now exists d.
  - split; [intros _ m (d & [=] & _) | reflexivity].
Qed.

Lemma limit_check c :
  Js.truthyZ (usageLimit c) && (default 0%Z (usageLimit c) <=? usedCount c)%Z = false
  <-> forall l, limitSet c l -> (usedCount c < l)%Z.
Proof.
  unfold limitSet. destruct (usageLimit c) as [l|]; cbn [default].
  - split.
    + intros H l' [[= <-] Hnz]. apply truthyZ_Some in Hnz. rewrite Hnz in H.
      cbn in H. now apply Z.leb_gt.
    + intros H. destruct (Js.truthyZ (Some l)) eqn:E; [|reflexivity]. cbn.
      apply truthyZ_Some in E. apply Z.leb_gt. apply H. now split.
  - split; [intros _ l [[=] _] | reflexivity].
Qed.

Lemma couponPasses_iff now amount c :
  couponPasses now amount c = true <-> couponApplicable now amount c.
Proof.
  unfold couponPasses, couponApplicable.
  rewrite !andb_true_iff, !negb_true_iff, minimum_check, limit_check.
  rewrite orb_false_iff, !Z.ltb_ge.
  intuition.
Qed.

Lemma truthyStr_Some code : code <> "" -> Js.truthyStr (Some code) = true.
Proof. destruct code; [contradiction | reflexivity]. Qed.

Lemma discountFor_validated now code sub s c :
  code <> "" ->
  fst (validateCoupon now code sub s) = Ok (Some c) ->
  discountFor now (Some code) sub s = (Ok (couponDiscount sub c), s).
Proof.
  intros Hne Hv. unfold discountFor, bind. rewrite (truthyStr_Some _ Hne).
  change (default "" (Some code)) with code.
  pose proof (validateCoupon_store now code sub s) as Hs.
  destruct (validateCoupon now code sub s) as [r s1]. cbn in Hv, Hs. subst.
  reflexivity.
Qed.

Lemma Math_min_l a b : (a <= b)%Q -> Js.Math_min a b = a.
Proof. intros H. unfold Js.Math_min. apply Qle_bool_iff in H. now rewrite H. Qed.

Lemma Math_min_r a b : (b < a)%Q -> Js.Math_min a b = b.
Proof.
  intros H. unfold Js.Math_min. destruct (Qle_bool a b) eqn:E; [|reflexivity].
  apply Qle_bool_iff in E. exfalso. apply (Qlt_not_le _ _ H E).
Qed.

(** ** Frames *)

Lemma restoreStock_coupons its : forall s,
  coupons (snd (restoreStock its s)) = coupons s.
Proof.
  induction its as [|it rest IH]; intros s; [reflexivity|].
  cbn [restoreStock]. unfold bind, Prisma.product_update_stock.
  destruct (products s !! oi_productId it); [|reflexivity].
  match goal with
  | |- context [restoreStock rest ?s1] =>
      specialize (IH s1); destruct (restoreStock rest s1) as [[[]|err] s2]
  end; exact IH.
Qed.

Lemma cancelOrder_coupons uid oid s :
  coupons (snd (cancelOrder uid oid s)) = coupons s.
Proof.
  unfold cancelOrder, bind, Prisma.order_findFirst.
  destruct (orders s !! oid) as [o|] eqn:Ho; [|reflexivity].
  destruct (decide (userId o = uid)); [|reflexivity]. cbn.
  destruct (decide (status o = CANCELLED)); [reflexivity|].
  destruct (decide (status o = DELIVERED)); [reflexivity|].
  unfold Prisma.orderItem_findMany. rewrite Ho.
  pose proof (restoreStock_coupons (items o) s) as Hc.
  destruct (restoreStock (items o) s) as [[[]|err] s1]; cbn in Hc; [|exact Hc].
  unfold Prisma.order_update. destruct (orders s1 !! oid); exact Hc.
Qed.

(** ** The accepting run of [createOrder] *)

Lemma not_rejected_found s todo :
  ~ Exists (lineRejected s) todo ->
  Forall (fun item => is_Some (products s !! productId item)) todo.
Proof.
  induction todo as [|item rest IH]; intros Hno; constructor.
  - destruct (products s !! productId item) as [p|] eqn:Hp; [now eexists|].
    exfalso. apply Hno. left. unfold lineRejected. now rewrite Hp.
  - apply IH. intros H. apply Hno. now right.
Qed.

Lemma createOrder_accepted fresh now uid data s :
  ~ Exists (lineRejected s) (req_items data) ->
  orders s !! newOrderId fresh = None ->
  Prisma.orderNumberTaken (newOrderNumber fresh) (orders s) = false ->
  couponRowPresent (couponCode data) s ->
  exists o s',
    createOrder fresh now uid data s = (Ok o, s') /\
    orders s' = <[newOrderId fresh := o]> (orders s) /\
    (forall pid,
       products s' !! pid
       = Prisma.addStock (- requestedOf pid (req_items data)) <$> products s !! pid) /\
    coupons s'
    = (if Js.truthyStr (couponCode data)
       then alter Prisma.bumpUsed (default "" (couponCode data)) (coupons s)
       else coupons s) /\
    addresses s' = addresses (withSnapshots fresh uid data s).
Proof.
  intros Hno Hid Hnum Hrow.
  destruct (validateItems_accepts (req_items data) 0%Q []
              (withSnapshots fresh uid data s) Hno) as [[sub ois] Hv].
  destruct (discountFor_run now (couponCode data) sub
              (withSnapshots fresh uid data s)) as [d Hd].
  unfold createOrder, bind, Prisma.address_create.
  unfold withSnapshots in *. rewrite Hv. cbn [fst snd]. rewrite Hd.
  unfold Prisma.order_create. cbn [orders set_addresses orderNumber].
  rewrite Hid, Hnum.
  match goal with
  | |- context [decrementStock _ ?s3] =>
      destruct (decrementStock_run (req_items data) s3) as (s4 & Hrun & Ha & Hc & Ho & Hp);
        [exact (not_rejected_found s _ Hno) | rewrite Hrun]
  end.
  unfold recordCouponUse, couponRowPresent in *.
  destruct (Js.truthyStr (couponCode data)).
  - unfold Prisma.coupon_update_used. rewrite Hc. cbn [coupons set_orders set_addresses].
    destruct (Hrow eq_refl) as [c Hcp]. rewrite Hcp.
    eexists _, _. split; [reflexivity|]. cbn. rewrite Ho, Hc, Ha.
    repeat split. exact Hp.
  - eexists _, _. split; [reflexivity|]. rewrite Ho, Hc, Ha. repeat split. exact Hp.
Qed.

(** When every product is named by at most one line, the quantity requested
    of a product is at most what the line check let through. *)
Lemma requestedOf_absent pid todo :
  pid ∉ map productId todo -> requestedOf pid todo = 0%Z.
Proof.
  induction todo as [|item rest IH]; intros Hnot; [reflexivity|].
  cbn [requestedOf]. cbn in Hnot. apply not_elem_of_cons in Hnot as [Hne Hrest].
  destruct (decide (productId item = pid)); [congruence|]. now rewrite IH.
Qed.

Lemma requestedOf_bounded s pid p todo :
  NoDup (map productId todo) ->
  ~ Exists (lineRejected s) todo ->
  products s !! pid = Some p ->
  (0 <= stockCount p)%Z ->
  (requestedOf pid todo <= stockCount p)%Z.
Proof.
  intros Hnd Hno Hp Hpos. induction todo as [|item rest IH]; [exact Hpos|].
  cbn in Hnd. apply NoDup_cons in Hnd as [Hfresh Hnd].
  assert (Hhd : ~ lineRejected s item) by (intros H; apply Hno; now left).
  assert (Htl : ~ Exists (lineRejected s) rest) by (intros H; apply Hno; now right).
  cbn [requestedOf]. destruct (decide (productId item = pid)) as [e|].
  - rewrite e in Hfresh. rewrite (requestedOf_absent _ _ Hfresh).
    unfold lineRejected, lineInsufficient in Hhd. rewrite e, Hp in Hhd.
    destruct (Z_lt_dec (stockCount p) (quantity item)); [tauto | lia].
  - specialize (IH Hnd Htl). lia.
Qed.

(** The stock invariant on requests that name every product once. *)
Lemma createOrder_distinct_products_stock fresh now uid data s o s' :
  NoDup (map productId (req_items data)) ->
  (forall pid p, products s !! pid = Some p -> (0 <= stockCount p)%Z) ->
  orders s !! newOrderId fresh = None ->
  Prisma.orderNumberTaken (newOrderNumber fresh) (orders s) = false ->
  couponRowPresent (couponCode data) s ->
  createOrder fresh now uid data s = (Ok o, s') ->
  forall pid p', products s' !! pid = Some p' -> (0 <= stockCount p')%Z.
Proof.
  intros Hnd Hpos Hid Hnum Hrow Hrun pid p' Hp'.
  assert (Hno : ~ Exists (lineRejected s) (req_items data)).
  { intros Hex. destruct (createOrder_rejected fresh now uid data s Hex) as (e & He & _).
    rewrite He in Hrun. discriminate. }
  destruct (createOrder_accepted fresh now uid data s Hno Hid Hnum Hrow)
    as (o1 & s1 & Hrun1 & _ & Hstock & _).
  rewrite Hrun1 in Hrun. injection Hrun as _ <-.
  rewrite Hstock in Hp'.
  destruct (products s !! pid) as [p|] eqn:Hp; [|discriminate].
  cbn in Hp'. injection Hp' as <-. cbn.
  pose proof (requestedOf_bounded s pid p _ Hnd Hno Hp (Hpos _ _ Hp)). lia.
Qed.

(** * The claims *)

Import Sample.

(** ** C1: stock never goes negative *)

(** C1, at the failing input.  The stock check looks at one line at a time:
    two lines of three roses each pass it against a stock of five, the order
    is created, and the two decrements leave the stock at -1. *)
Theorem createOrder_oversells_on_repeated_product :
  let data := request [line "p-rose" 3; line "p-rose" 3] None in
  let run := createOrder fresh1 500 "u1" data store0 in
  stockCount <$> products store0 !! "p-rose" = Some 5%Z /\
  requestedOf "p-rose" (req_items data) = 6%Z /\
  (exists o, fst run = Ok o) /\
  stockCount <$> products (snd run) !! "p-rose" = Some (-1)%Z.
Proof.
  cbv zeta. split; [vm_compute; reflexivity|].
  split; [vm_compute; reflexivity|].
  split; [eexists; vm_compute; reflexivity | vm_compute; reflexivity].
Qed.

(** ** C2: what is written when validation fails *)

(** C2 does not hold as stated: the address snapshots are written before
    the products are looked up.  A request for a product that does not exist
    fails with 404 and leaves two address rows behind. *)
Lemma createOrder_rejected_keeps_snapshots :
  let data := request [line "p-none" 1] None in
  let run := createOrder fresh1 500 "u1" data store0 in
  products store0 !! "p-none" = None /\
  fst run = Err (AppError "Product with ID p-none not found" 404) /\
  addresses store0 = [] /\
  addresses (snd run) =
    [mkAddressRow "addr-1" SHIPPING "u1" home; mkAddressRow "addr-2" BILLING "u1" home] /\
  snd run <> store0.
Proof.
  cbv zeta. split; [vm_compute; reflexivity|].
  split; [vm_compute; reflexivity|].
  split; [reflexivity|].
  assert (Ha : addresses (snd (createOrder fresh1 500 "u1"
                (request [line "p-none" 1] None) store0)) =
    [mkAddressRow "addr-1" SHIPPING "u1" home; mkAddressRow "addr-2" BILLING "u1" home])
    by (vm_compute; reflexivity).
  split; [exact Ha|].
  intros Heq. rewrite Heq in Ha. discriminate Ha.
Qed.

(** C2, amended.  When some requested product is missing or fails the stock
    check of its line, [createOrder] throws the 404 or the 400 error of the
    validation loop, and the store it leaves differs from the initial one by
    the two address snapshots only: no order, no stock change and no coupon
    change has been written. *)
Theorem createOrder_rejected_writes_snapshots_only fresh now uid data s :
  Exists (lineRejected s) (req_items data) ->
  exists e,
    createOrder fresh now uid data s = (Err e, withSnapshots fresh uid data s) /\
    (isNotFound e \/ isInsufficientStock e) /\
    products (withSnapshots fresh uid data s) = products s /\
    coupons (withSnapshots fresh uid data s) = coupons s /\
    orders (withSnapshots fresh uid data s) = orders s /\
    addresses (withSnapshots fresh uid data s) =
      (addresses s ++
         [mkAddressRow (newShippingId fresh) SHIPPING uid (shippingAddress data);
          mkAddressRow (newBillingId fresh) BILLING uid (billingAddress data)])%list.
Proof.
  intros Hex.
  destruct (createOrder_rejected fresh now uid data s Hex) as (e & Hrun & Hkind).
  exists e. repeat split; try assumption.
  cbn. rewrite <- app_assoc. reflexivity.
Qed.

Lemma createOrder_rejected_writes_snapshots_only_witness :
  exists e,
    createOrder fresh1 500 "u1" (request [line "p-lily" 9] None) store0
      = (Err e, withSnapshots fresh1 "u1" (request [line "p-lily" 9] None) store0) /\
    (isNotFound e \/ isInsufficientStock e).
Proof.
  destruct (createOrder_rejected_writes_snapshots_only fresh1 500 "u1"
              (request [line "p-lily" 9] None) store0) as (e & H1 & H2 & _).
  - left. right. vm_compute. reflexivity.
  - exists e. split; assumption.
Defined.

(** ** C3: coupon usage *)

(** C3, at the failing input.  SAVE20 asks for a minimum of 100; on an order
    of 30 the validator rejects it, the order is created with no discount, and
    the usage counter of SAVE20 still goes from 0 to 1: the increment is
    guarded by the presence of a code, not by the coupon having been
    applied. *)
Theorem createOrder_counts_rejected_coupon :
  let data := request [line "p-lily" 1] (Some "SAVE20") in
  let run := createOrder fresh1 500 "u1" data store0 in
  fst (validateCoupon 500 "SAVE20" 30 store0) = Ok None /\
  (exists o, fst run = Ok o /\ (subtotal o == 30)%Q /\ (discount o == 0)%Q) /\
  usedCount <$> coupons store0 !! "SAVE20" = Some 0%Z /\
  usedCount <$> coupons (snd run) !! "SAVE20" = Some 1%Z.
Proof.
  cbv zeta. split; [vm_compute; reflexivity|]. split.
  - eexists. split; [vm_compute; reflexivity|]. split; vm_compute; reflexivity.
  - split; vm_compute; reflexivity.
Qed.

(** ** C4: the price breakdown *)








(** ** C5: the coupon validator *)

Lemma withBuiltin_validateCoupon_run toUpperCase now code amount s :
  withBuiltin.validateCoupon toUpperCase now code amount s
  = (Ok match coupons s !! toUpperCase code with
        | Some c => if couponPasses now amount c then Some c else None
        | None => None
        end, s).
Proof.
  unfold withBuiltin.validateCoupon, bind, Prisma.coupon_findUnique, ret, couponPasses.
  destruct (coupons s !! toUpperCase code) as [c|]; [|reflexivity].
  destruct (isActive c); [|reflexivity]. cbn [negb andb].
  destruct ((now <? validFrom c)%Z || (validUntil c <? now)%Z); [reflexivity|].
  cbn [negb andb].
  destruct (Js.truthyObj (minimumAmount c)
            && Js.ltQ amount (toNumber (default (mkDecimal 0) (minimumAmount c))));
    [reflexivity|].
  cbn [negb andb].
  destruct (Js.truthyZ (usageLimit c)
            && (default 0%Z (usageLimit c) <=? usedCount c)%Z); reflexivity.
Qed.

(** The validator of the order service is the one below at the uppercasing
    of ASCII letters. *)
Lemma validateCoupon_at_ascii now code amount :
  validateCoupon now code amount
  = withBuiltin.validateCoupon Js.toUpperCase now code amount.
Proof. reflexivity. Qed.

(** C5. Whatever string the built-in [toUpperCase] makes of the code,
    [validateCoupon] writes nothing and never throws.  It returns the coupon
    stored under the uppercased code exactly when that coupon is active, the
    current time lies in its validity window (bounds included), the amount
    reaches its minimum when one is set, and its usage count is below its
    limit when one is set (a limit of zero counts as none); in every other
    case it returns null. *)
Theorem validateCoupon_spec (toUpperCase : string -> string) now code amount s :
  snd (withBuiltin.validateCoupon toUpperCase now code amount s) = s /\
  (forall c,
      fst (withBuiltin.validateCoupon toUpperCase now code amount s) = Ok (Some c) <->
      coupons s !! toUpperCase code = Some c /\ couponApplicable now amount c) /\
  ((~ exists c, coupons s !! toUpperCase code = Some c /\
                couponApplicable now amount c) ->
   fst (withBuiltin.validateCoupon toUpperCase now code amount s) = Ok None).
Proof.
  rewrite withBuiltin_validateCoupon_run. cbn [fst snd]. split; [reflexivity|].
  destruct (coupons s !! toUpperCase code) as [c0|].
  - destruct (couponPasses now amount c0) eqn:Hp.
    + apply couponPasses_iff in Hp. split.
      * intros c. split; [intros [= <-]; now split | intros [[= <-] _]; reflexivity].
      * intros Hno. exfalso. apply Hno. now exists c0.
    + split; [|reflexivity].
      intros c. split; [discriminate|]. intros [[= <-] Happ].
      apply couponPasses_iff in Happ. congruence.
  - split; [|reflexivity]. intros c. split; [discriminate | intros [[=] _]].
Qed.

Lemma validateCoupon_spec_witness :
  fst (withBuiltin.validateCoupon Js.toUpperCase 500 "welcome10" 30 store0)
  = Ok (Some WELCOME10) /\
  fst (withBuiltin.validateCoupon Js.toUpperCase 500 "welcome10" 20 store0) = Ok None.
Proof.
  split.
  - apply (proj1 (proj2 (validateCoupon_spec Js.toUpperCase 500 "welcome10" 30 store0))).
    split; [vm_compute; reflexivity|].
    apply couponPasses_iff. vm_compute. reflexivity.
  - apply (proj2 (proj2 (validateCoupon_spec Js.toUpperCase 500 "welcome10" 20 store0))).
    intros (c & Hc & Happ).
    assert (Hl : coupons store0 !! Js.toUpperCase "welcome10" = Some WELCOME10)
      by (vm_compute; reflexivity).
    rewrite Hl in Hc. injection Hc as <-.
    apply couponPasses_iff in Happ. vm_compute in Happ. discriminate Happ.
Defined.

(** ** C6: a code that is not applicable *)

(** C6, at the failing input.  No coupon is stored under NOPE.  The order is
    priced without a discount and written, the stock is decremented, and
    then the update of the coupon row fails: the caller gets the error of
    the data layer instead of the order. *)
Theorem createOrder_unknown_code_throws_after_writes :
  let data := request [line "p-lily" 1] (Some "NOPE") in
  let run := createOrder fresh1 500 "u1" data store0 in
  coupons store0 !! Js.toUpperCase "NOPE" = None /\
  fst (validateCoupon 500 "NOPE" 30 store0) = Ok None /\
  fst run = Err Prisma.P2025 /\
  (exists o, orders (snd run) !! "order-1" = Some o /\ (discount o == 0)%Q) /\
  stockCount <$> products store0 !! "p-lily" = Some 8%Z /\
  stockCount <$> products (snd run) !! "p-lily" = Some 7%Z.
Proof.
  cbv zeta. split; [vm_compute; reflexivity|].
  split; [vm_compute; reflexivity|].
  split; [vm_compute; reflexivity|]. split.
  - eexists. split; vm_compute; reflexivity.
  - split; vm_compute; reflexivity.
Qed.

(** ** C7: cancelling an order *)

(** C7. In a store whose order items all refer to products of the catalog,
    [cancelOrder] succeeds exactly when an order with that id belongs to that
    user and is neither cancelled nor delivered.  On success the returned and
    stored order has status CANCELLED, every product's stock count has grown
    by the quantity the order's items hold of it, and nothing else changes.
    When no order with that id belongs to the user, when it is cancelled, or
    when it is delivered, the matching error is thrown and the store is
    unchanged. *)
Theorem cancelOrder_spec uid oid s :
  itemsResolved s ->
  ((exists o' s', cancelOrder uid oid s = (Ok o', s')) <->
   (exists o, cancellable uid oid s o)) /\
  (forall o, cancellable uid oid s o ->
     exists s',
       cancelOrder uid oid s = (Ok (setStatus CANCELLED o), s') /\
       status (setStatus CANCELLED o) = CANCELLED /\
       orders s' = <[oid := setStatus CANCELLED o]> (orders s) /\
       (forall pid,
          products s' !! pid
          = Prisma.addStock (quantityOf pid (items o)) <$> products s !! pid) /\
       coupons s' = coupons s /\ addresses s' = addresses s) /\
  ((forall o, orders s !! oid = Some o -> userId o <> uid) ->
   cancelOrder uid oid s = (Err (AppError "Order not found" 404), s)) /\
  (forall o, orders s !! oid = Some o -> userId o = uid ->
     (status o = CANCELLED ->
      cancelOrder uid oid s = (Err (AppError "Order is already cancelled" 400), s)) /\
     (status o = DELIVERED ->
      cancelOrder uid oid s = (Err (AppError "Cannot cancel delivered order" 400), s))).
Proof.
  intros Hres.
  assert (Hok : forall o, cancellable uid oid s o ->
     exists s',
       cancelOrder uid oid s = (Ok (setStatus CANCELLED o), s') /\
       status (setStatus CANCELLED o) = CANCELLED /\
       orders s' = <[oid := setStatus CANCELLED o]> (orders s) /\
       (forall pid,
          products s' !! pid
          = Prisma.addStock (quantityOf pid (items o)) <$> products s !! pid) /\
       coupons s' = coupons s /\ addresses s' = addresses s).
  { intros o Hc. pose proof Hc as (Ho & _).
    destruct (cancelOrder_cancellable uid oid s o) as (s' & Hrun & Hrest);
      [exact (Hres oid o Ho) | exact Hc |].
    exists s'. split; [exact Hrun|]. split; [reflexivity | exact Hrest]. }
  split; [|split; [exact Hok|split]].
  - split.
    + intros (o' & s' & Hrun).
      destruct (orders s !! oid) as [o|] eqn:Ho.
      * destruct (decide (userId o = uid)) as [Hu|Hu].
        -- destruct (decide (status o = CANCELLED)) as [Hc|Hc];
             [rewrite (cancelOrder_cancelled _ _ _ _ Ho Hu Hc) in Hrun; discriminate|].
           destruct (decide (status o = DELIVERED)) as [Hd|Hd];
             [rewrite (cancelOrder_delivered _ _ _ _ Ho Hu Hd) in Hrun; discriminate|].
           exists o. repeat split; assumption.
        -- rewrite cancelOrder_missing in Hrun; [discriminate|].
           intros o1 Ho1. rewrite Ho in Ho1. injection Ho1 as <-. exact Hu.
      * rewrite cancelOrder_missing in Hrun; [discriminate|].
        intros o1 Ho1. rewrite Ho in Ho1. discriminate.
    + intros (o & Hc). destruct (Hok o Hc) as (s' & Hrun & _). eauto.
  - apply cancelOrder_missing.
  - intros o Ho Hu. split; intros Hst.
    + now apply (cancelOrder_cancelled _ _ _ o).
    + now apply (cancelOrder_delivered _ _ _ o).
Qed.

Lemma itemsResolved_store1 : itemsResolved store1.
Proof. unfold itemsResolved. apply (bool_decide_unpack _). vm_compute. exact I. Defined.

Lemma cancelOrder_spec_witness :
  exists s',
    cancelOrder "u1" "order-7" store1 = (Ok (setStatus CANCELLED placed), s') /\
    stockCount <$> products store1 !! "p-rose" = Some 5%Z /\
    stockCount <$> products s' !! "p-rose" = Some 8%Z.
Proof.
  destruct (cancelOrder_spec "u1" "order-7" store1 itemsResolved_store1)
    as (_ & Hok & _).
  destruct (Hok placed) as (s' & Hrun & _ & _ & Hstock & _).
  - unfold cancellable. split; [vm_compute; reflexivity|].
    split; [reflexivity|]. split; discriminate.
  - exists s'. split; [exact Hrun|]. split; [vm_compute; reflexivity|].
    rewrite Hstock. vm_compute. reflexivity.
Defined.

(** ** C8: the discount of a validated coupon *)

(** C8. When the validator returns a coupon for a code and a subtotal, the
    discount applied is: for a percentage coupon, subtotal * value / 100,
    lowered to the cap when a cap is set and the computed discount exceeds
    it; for a fixed coupon, exactly the value, with no cap.  Nothing keeps the
    total above zero: on the sample catalog one tulip at 12.50 with the fixed
    coupon FLAT50 gets a discount of 50, larger than subtotal plus shipping
    plus tax, and a negative total. *)
Theorem couponDiscount_spec :
  (forall now code sub s c,
      code <> "" ->
      fst (validateCoupon now code sub s) = Ok (Some c) ->
      exists d,
        discountFor now (Some code) sub s = (Ok d, s) /\
        match type c with
        | percentage =>
            (forall m, capSet c m -> (m < sub * value c / 100)%Q -> d = m) /\
            ((forall m, capSet c m -> (sub * value c / 100 <= m)%Q) ->
             d = (sub * value c / 100)%Q)
        | fixed => d = value c
        end) /\
  (exists o,
      fst (createOrder fresh1 500 "u1"
             (request [line "p-tulip" 1] (Some "FLAT50")) store0) = Ok o /\
      (discount o == 50)%Q /\
      (subtotal o + shipping o + tax o < discount o)%Q /\
      (total o < 0)%Q).
Proof.
  split.
  - intros now code sub s c Hne Hv.
    exists (couponDiscount sub c). split; [now apply discountFor_validated|].
    unfold couponDiscount, capSet. destruct (type c); [|reflexivity].
    destruct (maximumDiscount c) as [m|]; cbn [default].
    + destruct (Js.truthyQ (Some m)) eqn:E.
      * apply truthyQ_Some in E. split.
        -- intros m' [[= <-] _] Hlt. now apply Math_min_r.
        -- intros H. apply Math_min_l, H. now split.
      * split; [|reflexivity]. intros m' [[= <-] Hnz].
        apply truthyQ_Some in Hnz. congruence.
    + cbn. split; [intros m' [[=] _] | reflexivity].
  - eexists. split; [vm_compute; reflexivity|].
    repeat split; vm_compute; reflexivity.
Qed.

Lemma couponDiscount_spec_witness :
  exists d,
    discountFor 500 (Some "welcome10") 25 store0 = (Ok d, store0) /\
    d = (25 * 10 / 100)%Q.
Proof.
  destruct (proj1 couponDiscount_spec 500%Z "welcome10" 25%Q store0 WELCOME10)
    as (d & Hrun & _ & Hd).
  - discriminate.
  - vm_compute. reflexivity.
  - exists d. split; [exact Hrun|]. apply Hd. intros m [Hm _]. discriminate Hm.
Defined.

(** ** C9: administrative updates *)

(** C9. [updateOrder] leaves the product table and the coupon table as they
    are, whatever the patch and whether or not the order exists: no stock
    count and no usage count changes.  When the order exists it is returned
    and stored with the fields of the patch overwritten; a status change to
    SHIPPED is one such patch. *)
Theorem updateOrder_frame oid data s :
  products (snd (updateOrder oid data s)) = products s /\
  coupons (snd (updateOrder oid data s)) = coupons s /\
  (forall o, orders s !! oid = Some o ->
     fst (updateOrder oid data s) = Ok (applyPatch data o) /\
     orders (snd (updateOrder oid data s)) = <[oid := applyPatch data o]> (orders s)) /\
  (forall pid,
     stockCount <$>
       products (snd (updateOrder oid (mkUpdateReq (Some SHIPPED) None None None) s)) !! pid
     = stockCount <$> products s !! pid).
Proof.
  assert (Hframe : forall d,
    products (snd (updateOrder oid d s)) = products s /\
    coupons (snd (updateOrder oid d s)) = coupons s).
  { intros d. unfold updateOrder, bind, Prisma.order_findUnique, Prisma.order_update.
    cbn [fst snd]. destruct (orders s !! oid) as [o|] eqn:Ho; [|split; reflexivity].
    rewrite Ho. split; reflexivity. }
  split; [apply Hframe|]. split; [apply Hframe|]. split.
  - intros o Ho.
    unfold updateOrder, bind, Prisma.order_findUnique, Prisma.order_update.
    cbn [fst snd]. rewrite Ho. rewrite Ho. cbn. split; [reflexivity|].
    now apply alter_is_insert.
  - intros pid. now rewrite (proj1 (Hframe _)).
Qed.

Lemma updateOrder_frame_witness :
  let patch := mkUpdateReq (Some SHIPPED) (Some "TRK-1") None None in
  fst (updateOrder "order-7" patch store1) = Ok (applyPatch patch placed) /\
  products (snd (updateOrder "order-7" patch store1)) = products store1.
Proof.
  intros patch.
  destruct (updateOrder_frame "order-7" patch store1) as (Hp & _ & Ho & _).
  split; [|exact Hp]. apply (Ho placed). vm_compute. reflexivity.
Defined.

(** ** C10: zero-valued optional fields *)





(** * Further properties of the order service *)

(** ** Every successful [createOrder] run *)

Lemma createOrder_Ok_conditions fresh now uid data s o s' :
  createOrder fresh now uid data s = (Ok o, s') ->
  ~ Exists (lineRejected s) (req_items data) /\
  orders s !! newOrderId fresh = None /\
  Prisma.orderNumberTaken (newOrderNumber fresh) (orders s) = false /\
  couponRowPresent (couponCode data) s.
Proof.
  intros Hrun.
  assert (Hno : ~ Exists (lineRejected s) (req_items data)).
  { intros Hex. destruct (createOrder_rejected fresh now uid data s Hex) as (e & He & _).
    rewrite He in Hrun. discriminate. }
  split; [exact Hno|].
  destruct (validateItems_accepts (req_items data) 0%Q []
              (withSnapshots fresh uid data s) Hno) as [[sub ois] Hv].
  destruct (discountFor_run now (couponCode data) sub
              (withSnapshots fresh uid data s)) as [d Hd].
  unfold createOrder, bind, Prisma.address_create in Hrun.
  unfold withSnapshots in *. rewrite Hv in Hrun. cbn [fst snd] in Hrun.
  rewrite Hd in Hrun.
  unfold Prisma.order_create in Hrun. cbn [orders set_addresses orderNumber] in Hrun.
  destruct (orders s !! newOrderId fresh); [discriminate|]. split; [reflexivity|].
  destruct (Prisma.orderNumberTaken (newOrderNumber fresh) (orders s)); [discriminate|].
  split; [reflexivity|].
  match type of Hrun with
  | context [decrementStock _ ?s3] =>
      destruct (decrementStock_run (req_items data) s3) as (s4 & Hdec & _ & Hc & _);
        [exact (not_rejected_found s _ Hno) | rewrite Hdec in Hrun]
  end.
  unfold couponRowPresent. intros Htr.
  unfold recordCouponUse in Hrun. rewrite Htr in Hrun.
  unfold Prisma.coupon_update_used in Hrun. rewrite Hc in Hrun.
  cbn [coupons set_orders set_addresses] in Hrun.
  destruct (coupons s !! default "" (couponCode data)); [now eexists | discriminate].
Qed.

Lemma requested_is_held s todo ois :
  Forall2 (frozenLine s) todo ois ->
  forall pid, quantityOf pid ois = requestedOf pid todo.
Proof.
  induction 1 as [|item oi todo ois (p & _ & _ & ->) _ IH]; intros pid; [reflexivity|].
  cbn [quantityOf requestedOf oi_productId oi_quantity]. now rewrite IH.
Qed.

Lemma frozen_lines_found s todo ois :
  Forall2 (frozenLine s) todo ois ->
  Forall (fun it => is_Some (products s !! oi_productId it)) ois.
Proof.
  induction 1 as [|item oi todo ois (p & Hp & _ & ->) _ IH]; constructor; [|exact IH].
  exists p. exact Hp.
Qed.

Lemma createOrder_Ok_items fresh now uid data s o s' :
  createOrder fresh now uid data s = (Ok o, s') ->
  Forall2 (frozenLine s) (req_items data) (items o) /\
  userId o = uid /\ status o = PENDING /\ orderNumber o = newOrderNumber fresh.
Proof.
  intros H. apply createOrder_Ok in H as (sub & ois & d & Hv & _ & ->).
  apply (f_equal fst) in Hv. cbn [fst] in Hv.
  apply validateItems_Ok in Hv as (news & -> & Hall & _).
  repeat split. exact Hall.
Qed.

Lemma createOrder_Ok_store fresh now uid data s o s' :
  createOrder fresh now uid data s = (Ok o, s') ->
  orders s' = <[newOrderId fresh := o]> (orders s) /\
  (forall pid,
     products s' !! pid
     = Prisma.addStock (- requestedOf pid (req_items data)) <$> products s !! pid).
Proof.
  intros Hrun.
  destruct (createOrder_Ok_conditions _ _ _ _ _ _ _ Hrun) as (Hno & Hid & Hnum & Hrow).
  destruct (createOrder_accepted fresh now uid data s Hno Hid Hnum Hrow)
    as (o1 & s1 & Hrun1 & Ho & Hp & _).
  rewrite Hrun1 in Hrun. injection Hrun as <- <-.
  split; assumption.
Qed.

(** ** The rows of the order table *)

Lemma orderRows_insert (s : Store) oid o :
  orders s !! oid = None ->
  PrismaQueries.orderRows (set_orders (insert oid o) s)
    ≡ₚ o :: PrismaQueries.orderRows s.
Proof.
  intros Hnone. unfold PrismaQueries.orderRows. cbn [orders set_orders].
  rewrite (map_to_list_insert _ _ _ Hnone). reflexivity.
Qed.

Lemma orderRows_split (m : gmap string Order) oid o :
  m !! oid = Some o ->
  (map_to_list m).*2 ≡ₚ o :: (map_to_list (delete oid m)).*2.
Proof.
  intros Ho. rewrite <- (insert_delete_id m oid o Ho) at 1.
  rewrite map_to_list_insert by apply lookup_delete_eq. reflexivity.
Qed.

Lemma sumTotals_perm l1 l2 :
  l1 ≡ₚ l2 -> (PrismaQueries.sumTotals l1 == PrismaQueries.sumTotals l2)%Q.
Proof.
  induction 1 as [|x l1 l2 _ IH|x y l|l1 l2 l3 _ IH1 _ IH2]; cbn [PrismaQueries.sumTotals].
  - reflexivity.
  - now rewrite IH.
  - ring.
  - now rewrite IH1.
Qed.

Lemma count_perm (P : Order -> Prop) `{forall o, Decision (P o)} (l1 l2 : list Order) :
  l1 ≡ₚ l2 -> length (filter P l1) = length (filter P l2).
Proof. intros Hp. now rewrite Hp. Qed.

Lemma toNumberOrZero_Some x :
  (toNumberOrZero (Some (mkDecimal x)) == x)%Q.
Proof.
  unfold toNumberOrZero. cbn [toNumber].
  destruct (Js.truthyQ (Some x)) eqn:E; [reflexivity|].
  unfold Js.truthyQ in E. apply negb_false_iff, Qeq_bool_iff in E. now rewrite E.
Qed.

Lemma restoreStock_orders its : forall s,
  orders (snd (restoreStock its s)) = orders s.
Proof.
  induction its as [|it rest IH]; intros s; [reflexivity|].
  cbn [restoreStock]. unfold bind, Prisma.product_update_stock.
  destruct (products s !! oi_productId it); [|reflexivity].
  match goal with
  | |- context [restoreStock rest ?s1] =>
      specialize (IH s1); destruct (restoreStock rest s1) as [[[]|err] s2]
  end; exact IH.
Qed.

Lemma cancelOrder_Ok_inv uid oid s o s' :
  cancelOrder uid oid s = (Ok o, s') ->
  exists o0,
    cancellable uid oid s o0 /\ o = setStatus CANCELLED o0 /\
    orders s' = <[oid := o]> (orders s).
Proof.
  intros Hrun. destruct (orders s !! oid) as [o0|] eqn:Ho.
  - destruct (decide (userId o0 = uid)) as [Hu|Hu].
    + destruct (decide (status o0 = CANCELLED)) as [Hc|Hc];
        [rewrite (cancelOrder_cancelled _ _ _ _ Ho Hu Hc) in Hrun; discriminate|].
      destruct (decide (status o0 = DELIVERED)) as [Hd|Hd];
        [rewrite (cancelOrder_delivered _ _ _ _ Ho Hu Hd) in Hrun; discriminate|].
      exists o0. split; [repeat split; assumption|].
      unfold cancelOrder, bind, Prisma.order_findFirst in Hrun. rewrite Ho in Hrun.
      destruct (decide (userId o0 = uid)); [|contradiction]. cbn in Hrun.
      destruct (decide (status o0 = CANCELLED)); [contradiction|].
      destruct (decide (status o0 = DELIVERED)); [contradiction|].
      unfold Prisma.orderItem_findMany in Hrun. rewrite Ho in Hrun.
      pose proof (restoreStock_orders (items o0) s) as Hos.
      destruct (restoreStock (items o0) s) as [[[]|err] s1]; [|discriminate].
      cbn in Hos. unfold Prisma.order_update in Hrun. rewrite Hos, Ho in Hrun.
      cbn in Hrun. injection Hrun as <- <-. split; [reflexivity|]. cbn.
      rewrite Hos. now apply alter_is_insert.
    + rewrite cancelOrder_missing in Hrun; [discriminate|].
      intros o1 Ho1. rewrite Ho in Ho1. injection Ho1 as <-. exact Hu.
  - rewrite cancelOrder_missing in Hrun; [discriminate|].
    intros o1 Ho1. rewrite Ho in Ho1. discriminate.
Qed.

(** ** What a successful order changes *)

(** X1. Every successful [createOrder] stores the returned order under an id
    that was free, lowers the stock count of each product by the total
    quantity the request asks of it and leaves its name, price and [inStock]
    flag alone, adds one to the usage count of the coupon stored under the
    given code whenever a code is given, and appends the two address rows. *)
Theorem createOrder_effects fresh now uid data s o s' :
  createOrder fresh now uid data s = (Ok o, s') ->
  orders s !! newOrderId fresh = None /\
  orders s' = <[newOrderId fresh := o]> (orders s) /\
  (forall pid,
     products s' !! pid
     = Prisma.addStock (- requestedOf pid (req_items data)) <$> products s !! pid) /\
  coupons s'
  = (if Js.truthyStr (couponCode data)
     then alter Prisma.bumpUsed (default "" (couponCode data)) (coupons s)
     else coupons s) /\
  addresses s'
  = (addresses s ++
       [mkAddressRow (newShippingId fresh) SHIPPING uid (shippingAddress data);
        mkAddressRow (newBillingId fresh) BILLING uid (billingAddress data)])%list.
Proof.
  intros Hrun.
  destruct (createOrder_Ok_conditions _ _ _ _ _ _ _ Hrun) as (Hno & Hid & Hnum & Hrow).
  destruct (createOrder_accepted fresh now uid data s Hno Hid Hnum Hrow)
    as (o1 & s1 & Hrun1 & Ho & Hp & Hc & Ha).
  rewrite Hrun1 in Hrun. injection Hrun as <- <-.
  repeat split; try assumption.
  rewrite Ha. cbn. now rewrite <- app_assoc.
Qed.

Lemma createOrder_effects_witness :
  exists o s',
    createOrder fresh1 500 "u1" (request [line "p-lily" 2; line "p-rose" 1] None) store0
      = (Ok o, s') /\
    stockCount <$> products s' !! "p-lily" = Some 6%Z.
Proof.
  destruct (createOrder fresh1 500 "u1"
              (request [line "p-lily" 2; line "p-rose" 1] None) store0)
    as [[o|e] s'] eqn:Hrun.
  - exists o, s'. split; [reflexivity|].
    destruct (createOrder_effects _ _ _ _ _ _ _ Hrun) as (_ & _ & Hp & _).
    rewrite Hp. vm_compute. reflexivity.
  - exfalso. apply (f_equal fst) in Hrun. vm_compute in Hrun. discriminate Hrun.
Defined.

(** X2. When the lines of a request pass validation and the generated id and
    number are free, but no coupon row is stored under the code exactly as
    it was given (an unknown code, or a stored code given in another case),
    [createOrder] throws the data layer's record-not-found error after the
    order has been written and the stock lowered; no coupon is changed. *)
Theorem createOrder_code_without_row fresh now uid data s code :
  ~ Exists (lineRejected s) (req_items data) ->
  orders s !! newOrderId fresh = None ->
  Prisma.orderNumberTaken (newOrderNumber fresh) (orders s) = false ->
  couponCode data = Some code -> code <> "" -> coupons s !! code = None ->
  exists o s',
    createOrder fresh now uid data s = (Err Prisma.P2025, s') /\
    orders s' = <[newOrderId fresh := o]> (orders s) /\
    (forall pid,
       products s' !! pid
       = Prisma.addStock (- requestedOf pid (req_items data)) <$> products s !! pid) /\
    coupons s' = coupons s.
Proof.
  intros Hno Hid Hnum Hcode Hne Hrow.
  destruct (validateItems_accepts (req_items data) 0%Q []
              (withSnapshots fresh uid data s) Hno) as [[sub ois] Hv].
  destruct (discountFor_run now (couponCode data) sub
              (withSnapshots fresh uid data s)) as [d Hd].
  unfold createOrder, bind, Prisma.address_create.
  unfold withSnapshots in *. rewrite Hv. cbn [fst snd]. rewrite Hd.
  unfold Prisma.order_create. cbn [orders set_addresses orderNumber].
  rewrite Hid, Hnum.
  match goal with
  | |- context [decrementStock _ ?s3] =>
      destruct (decrementStock_run (req_items data) s3) as (s4 & Hrun & Ha & Hc & Ho & Hp);
        [exact (not_rejected_found s _ Hno) | rewrite Hrun]
  end.
  unfold recordCouponUse. rewrite Hcode, (truthyStr_Some _ Hne).
  change (default "" (Some code)) with code.
  unfold Prisma.coupon_update_used. rewrite Hc. cbn [coupons set_orders set_addresses].
  rewrite Hrow. eexists _, _. split; [reflexivity|].
  rewrite Ho, Hc. repeat split. exact Hp.
Qed.

Lemma createOrder_code_without_row_witness :
  exists o s',
    createOrder fresh1 500 "u1" (request [line "p-tulip" 2] (Some "welcome10")) store0
      = (Err Prisma.P2025, s') /\
    orders s' = <["order-1" := o]> (orders store0).
Proof.
  destruct (createOrder_code_without_row fresh1 500 "u1"
              (request [line "p-tulip" 2] (Some "welcome10")) store0 "welcome10")
    as (o & s' & Hrun & Ho & _).
  - intros Hex. apply Exists_cons in Hex as [Hbad | Hex]; [|inversion Hex].
    vm_compute in Hbad. destruct Hbad as [Hbad | Hbad]; discriminate Hbad.
  - vm_compute. reflexivity.
  - vm_compute. reflexivity.
  - reflexivity.
  - discriminate.
  - vm_compute. reflexivity.
  - exists o, s'. split; [exact Hrun | exact Ho].
Defined.

(** ** Reading an order back *)

Lemma number_not_taken num (m : gmap string Order) :
  Prisma.orderNumberTaken num m = false ->
  filter (fun o => orderNumber o = num) (map_to_list m).*2 = [].
Proof.
  intros Hfree. unfold Prisma.orderNumberTaken in Hfree.
  apply bool_decide_eq_false in Hfree.
  destruct (filter (fun o => orderNumber o = num) (map_to_list m).*2) as [|o rest] eqn:E;
    [reflexivity|].
  exfalso. apply Hfree.
  assert (Hin : o ∈ filter (fun o => orderNumber o = num) (map_to_list m).*2)
    by (rewrite E; left).
  apply list_elem_of_filter in Hin as [Hnum Hin].
  apply list_elem_of_fmap in Hin as ([i o'] & -> & Hin).
  apply elem_of_map_to_list in Hin.
  exists i, o'. split; assumption.
Qed.

Lemma includeItems_resolved o s :
  Forall (fun it => is_Some (products s !! oi_productId it)) (items o) ->
  exists joined,
    includeItems o s = (Ok (mkJoined o joined), s) /\
    Forall2 (fun it p => products s !! oi_productId it = Some p) (items o) joined.
Proof.
  intros Hall. unfold includeItems.
  destruct (mapM (fun it => products s !! oi_productId it) (items o)) as [joined|] eqn:Hm.
  - exists joined. split; [reflexivity|]. now apply mapM_Some.
  - exfalso. apply mapM_is_Some in Hall. rewrite Hm in Hall. now destruct Hall.
Qed.

(** X3. Right after a successful [createOrder], [getOrderById] under the
    generated id and [getOrderByNumber] under the generated order number
    both find the order row [createOrder] returned, and join to each line
    its product as the store holds it after the order: the product of the
    catalog before the order with its stock count lowered by the quantity
    the request asks of it. *)
Theorem createOrder_then_lookup fresh now uid data s o s' :
  createOrder fresh now uid data s = (Ok o, s') ->
  exists joined,
    getOrderById (newOrderId fresh) s' = (Ok (mkJoined o joined), s') /\
    getOrderByNumber (newOrderNumber fresh) s' = (Ok (mkJoined o joined), s') /\
    Forall2
      (fun it p =>
         exists before,
           products s !! oi_productId it = Some before /\
           p = Prisma.addStock (- requestedOf (oi_productId it) (req_items data)) before)
      (items o) joined.
Proof.
  intros Hrun.
  destruct (createOrder_Ok_conditions _ _ _ _ _ _ _ Hrun) as (_ & Hid & Hnum & _).
  destruct (createOrder_Ok_items _ _ _ _ _ _ _ Hrun) as (Hfrozen & _ & _ & Hon).
  destruct (createOrder_Ok_store _ _ _ _ _ _ _ Hrun) as (Ho & Hstock).
  destruct (includeItems_resolved o s') as (joined & Hinc & Hjoined).
  { apply frozen_lines_found in Hfrozen. eapply Forall_impl; [exact Hfrozen|].
    intros it [p Hp]. cbv beta. rewrite Hstock, Hp. now eexists. }
  exists joined. split; [|split].
  - unfold getOrderById, bind, Prisma.order_findUnique.
    rewrite Ho, lookup_insert_eq. exact Hinc.
  - unfold getOrderByNumber, bind, PrismaQueries.order_findUnique_number,
      PrismaQueries.orderRows.
    assert (Hrows : filter (fun o0 => orderNumber o0 = newOrderNumber fresh)
                      (map_to_list (orders s')).*2 = [o]).
    { apply Permutation_singleton_r.
      rewrite Ho, (map_to_list_insert _ _ _ Hid). cbn [fmap list_fmap snd].
      rewrite filter_cons_True by exact Hon.
      now rewrite (number_not_taken _ _ Hnum). }
    rewrite Hrows. exact Hinc.
  - eapply Forall2_impl; [exact Hjoined|].
    intros it p Hp. cbv beta in Hp. rewrite Hstock in Hp.
    apply fmap_Some in Hp as (before & Hbefore & ->). now exists before.
Qed.

Lemma createOrder_then_lookup_witness :
  exists o s' joined,
    createOrder fresh1 500 "u1" (request [line "p-lily" 2] None) store1 = (Ok o, s') /\
    getOrderByNumber "ORD-0001" s' = (Ok (mkJoined o joined), s') /\
    stockCount <$> joined = [6%Z].
Proof.
  destruct (createOrder fresh1 500 "u1" (request [line "p-lily" 2] None) store1)
    as [[o|e] s'] eqn:Hrun.
  - destruct (createOrder_then_lookup _ _ _ _ _ _ _ Hrun) as (joined & _ & Hnum & Hj).
    exists o, s', joined. split; [reflexivity|]. split; [exact Hnum|].
    assert (Hitems : items o = [mkOrderItem "p-lily" 2 30 None None]).
    { apply (f_equal (fun r => match fst r with Ok o => items o | Err _ => [] end)) in Hrun.
      cbn [fst] in Hrun. rewrite <- Hrun. vm_compute. reflexivity. }
    rewrite Hitems in Hj.
    apply Forall2_cons_inv_l in Hj as (p & rest & (before & Hb & ->) & Hrest & ->).
    apply Forall2_nil_inv_l in Hrest as ->.
    assert (Hl : products store1 !! "p-lily" = Some lily) by (vm_compute; reflexivity).
    cbn [oi_productId] in Hb. rewrite Hl in Hb. injection Hb as <-.
    vm_compute. reflexivity.
  - exfalso. apply (f_equal fst) in Hrun. vm_compute in Hrun. discriminate Hrun.
Defined.

(** ** The order summary *)


Lemma getOrderSummary_run s :
  getOrderSummary s
  = (Ok (let rows := PrismaQueries.orderRows s in
         let n := Z.of_nat (length rows) in
         let rev := toNumberOrZero match rows with
                                   | [] => None
                                   | o :: l => Some (mkDecimal (PrismaQueries.sumTotals (o :: l)))
                                   end in
         mkOrderSummary n rev
           (Z.of_nat (length (filter (fun o => status o = PENDING) rows)))
           (Z.of_nat (length (filter (fun o => status o = DELIVERED) rows)))
           (Z.of_nat (length (filter (fun o => status o = CANCELLED) rows)))
           (if (0 <? n)%Z then (rev / inject_Z n)%Q else 0%Q)), s).
Proof. reflexivity. Qed.

Lemma revenue_of_rows rows :
  (toNumberOrZero match rows with
                  | [] => None
                  | o :: l => Some (mkDecimal (PrismaQueries.sumTotals (o :: l)))
                  end == PrismaQueries.sumTotals rows)%Q.
Proof. destruct rows; [reflexivity | apply toNumberOrZero_Some]. Qed.


(** X5. A successful [cancelOrder] moves one order into the cancelled count
    of the summary and changes neither the order count nor the delivered
    count, and the revenue and the average order value stay what they were:
    cancelled orders keep counting towards the revenue. *)
Theorem cancelOrder_summary uid oid s o s' :
  cancelOrder uid oid s = (Ok o, s') ->
  exists r r',
    getOrderSummary s = (Ok r, s) /\ getOrderSummary s' = (Ok r', s') /\
    totalOrders r' = totalOrders r /\
    cancelledOrders r' = (cancelledOrders r + 1)%Z /\
    completedOrders r' = completedOrders r /\
    (totalRevenue r' == totalRevenue r)%Q /\
    (averageOrderValue r' == averageOrderValue r)%Q.
Proof.
  intros Hrun.
  destruct (cancelOrder_Ok_inv _ _ _ _ _ Hrun) as (o0 & (Ho0 & _ & Hnc & Hnd) & -> & Hos).
  eexists _, _. split; [apply getOrderSummary_run|].
  split; [apply getOrderSummary_run|]. cbv zeta.
  cbn [totalOrders totalRevenue completedOrders cancelledOrders averageOrderValue].
  set (rest := (map_to_list (delete oid (orders s))).*2).
  assert (Hrows : PrismaQueries.orderRows s ≡ₚ o0 :: rest)
    by (apply orderRows_split, Ho0).
  assert (Hrows' : PrismaQueries.orderRows s' ≡ₚ setStatus CANCELLED o0 :: rest).
  { unfold PrismaQueries.orderRows. rewrite Hos.
    rewrite <- insert_delete_eq.
    rewrite map_to_list_insert by apply lookup_delete_eq. reflexivity. }
  assert (Hlen : length (PrismaQueries.orderRows s') = length (PrismaQueries.orderRows s))
    by (rewrite Hrows, Hrows'; reflexivity).
  assert (Hrev : (toNumberOrZero
                    match PrismaQueries.orderRows s' with
                    | [] => None
                    | o :: l => Some (mkDecimal (PrismaQueries.sumTotals (o :: l)))
                    end ==
                  toNumberOrZero
                    match PrismaQueries.orderRows s with
                    | [] => None
                    | o :: l => Some (mkDecimal (PrismaQueries.sumTotals (o :: l)))
                    end)%Q).
  { rewrite !revenue_of_rows.
    rewrite (sumTotals_perm _ _ Hrows), (sumTotals_perm _ _ Hrows'). reflexivity. }
  split; [now rewrite Hlen|]. split; [|split; [|split; [exact Hrev|]]].
  - rewrite (count_perm _ _ _ Hrows), (count_perm _ _ _ Hrows').
    rewrite filter_cons_True by reflexivity.
    rewrite filter_cons_False by exact Hnc. cbn [length]. lia.
  - rewrite (count_perm _ _ _ Hrows), (count_perm _ _ _ Hrows').
    rewrite filter_cons_False by discriminate.
    rewrite filter_cons_False by exact Hnd. reflexivity.
  - rewrite Hlen. destruct (0 <? _)%Z; [|reflexivity]. now rewrite Hrev.
Qed.

Lemma cancelOrder_summary_witness :
  exists r r' s',
    getOrderSummary store1 = (Ok r, store1) /\ getOrderSummary s' = (Ok r', s') /\
    cancelledOrders r' = (cancelledOrders r + 1)%Z /\
    (totalRevenue r' == totalRevenue r)%Q.
Proof.
  destruct (cancelOrder "u1" "order-7" store1) as [[o|e] s'] eqn:Hrun.
  - destruct (cancelOrder_summary _ _ _ _ _ Hrun)
      as (r & r' & H1 & H2 & _ & H3 & _ & H4 & _).
    exists r, r', s'. repeat split; assumption.
  - exfalso. apply (f_equal fst) in Hrun. vm_compute in Hrun. discriminate Hrun.
Defined.

(** ** Cancelling, again *)

(** X6. Once [cancelOrder] has succeeded, cancelling the same order again
    fails with the already-cancelled error and changes nothing: the stock is
    not restored a second time. *)
Theorem cancelOrder_twice uid oid s o s' :
  cancelOrder uid oid s = (Ok o, s') ->
  cancelOrder uid oid s' = (Err (AppError "Order is already cancelled" 400), s').
Proof.
  intros Hrun.
  destruct (cancelOrder_Ok_inv _ _ _ _ _ Hrun) as (o0 & (_ & Hu & _) & -> & Hos).
  apply (cancelOrder_cancelled uid oid s' (setStatus CANCELLED o0)).
  - rewrite Hos. apply lookup_insert_eq.
  - exact Hu.
  - reflexivity.
Qed.

Lemma cancelOrder_twice_witness :
  exists s',
    cancelOrder "u1" "order-7" store1 = (Ok (setStatus CANCELLED placed), s') /\
    cancelOrder "u1" "order-7" s' = (Err (AppError "Order is already cancelled" 400), s').
Proof.
  destruct (cancelOrder "u1" "order-7" store1) as [[o|e] s'] eqn:Hrun.
  - pose proof (cancelOrder_twice _ _ _ _ _ Hrun) as H2.
    assert (o = setStatus CANCELLED placed) as ->.
    { apply (f_equal fst) in Hrun. cbn [fst] in Hrun.
      assert (Hc : fst (cancelOrder "u1" "order-7" store1)
                   = Ok (setStatus CANCELLED placed)) by (vm_compute; reflexivity).
      rewrite Hc in Hrun. now injection Hrun as <-. }
    exists s'. split; [reflexivity | exact H2].
  - exfalso. apply (f_equal fst) in Hrun. vm_compute in Hrun. discriminate Hrun.
Defined.

Lemma addStock_back r p : Prisma.addStock r (Prisma.addStock (- r) p) = p.
Proof. rewrite addStock_addStock. replace (- r + r)%Z with 0%Z by lia. apply addStock_0. Qed.

(** X7. Cancelling the order a successful [createOrder] has just returned
    always succeeds for the user who placed it, and brings the whole product
    table back to what it was before the order; the coupon table keeps the
    usage count the order added. *)
Theorem createOrder_then_cancelOrder fresh now uid data s o s1 :
  createOrder fresh now uid data s = (Ok o, s1) ->
  exists s2,
    cancelOrder uid (newOrderId fresh) s1 = (Ok (setStatus CANCELLED o), s2) /\
    products s2 = products s /\
    coupons s2 = coupons s1 /\
    orders s2 = <[newOrderId fresh := setStatus CANCELLED o]> (orders s1).
Proof.
  intros Hrun.
  destruct (createOrder_Ok_items _ _ _ _ _ _ _ Hrun) as (Hlines & Hu & Hst & _).
  destruct (createOrder_Ok_store _ _ _ _ _ _ _ Hrun) as (Ho & Hp).
  destruct (cancelOrder_cancellable uid (newOrderId fresh) s1 o)
    as (s2 & Hcancel & Hos & Hps & Hcs & _).
  - eapply Forall_impl; [exact (frozen_lines_found _ _ _ Hlines)|].
    intros it [p Hit]. cbn. rewrite Hp, Hit. now eexists.
  - split; [rewrite Ho; apply lookup_insert_eq|].
    split; [exact Hu|]. rewrite Hst. split; discriminate.
  - exists s2. split; [exact Hcancel|]. split; [|split; assumption].
    apply map_eq. intros pid. rewrite Hps, Hp.
    rewrite (requested_is_held _ _ _ Hlines).
    destruct (products s !! pid) as [p|]; cbn; [|reflexivity].
    now rewrite addStock_back.
Qed.

Lemma createOrder_then_cancelOrder_witness :
  exists o s1 s2,
    createOrder fresh1 500 "u1" (request [line "p-rose" 5] (Some "FLAT50")) store0
      = (Ok o, s1) /\
    cancelOrder "u1" "order-1" s1 = (Ok (setStatus CANCELLED o), s2) /\
    products s2 = products store0.
Proof.
  destruct (createOrder fresh1 500 "u1" (request [line "p-rose" 5] (Some "FLAT50")) store0)
    as [[o|e] s1] eqn:Hrun.
  - destruct (createOrder_then_cancelOrder _ _ _ _ _ _ _ Hrun) as (s2 & H1 & H2 & _).
    exists o, s1, s2. repeat split; assumption.
  - exfalso. apply (f_equal fst) in Hrun. vm_compute in Hrun. discriminate Hrun.
Defined.

(** X8. [updateOrder] accepts any status for any order: after a successful
    cancellation it can set the order back to PENDING, and the owner can then
    cancel it once more.  Each of the two cancellations adds the order's
    quantities to the stock, so the products end with twice those quantities
    added. *)
Theorem cancel_reopen_cancel uid oid s o :
  cancellable uid oid s o ->
  Forall (fun it => is_Some (products s !! oi_productId it)) (items o) ->
  exists s1 s2 s3 o2,
    cancelOrder uid oid s = (Ok (setStatus CANCELLED o), s1) /\
    updateOrder oid (mkUpdateReq (Some PENDING) None None None) s1 = (Ok o2, s2) /\
    status o2 = PENDING /\
    cancelOrder uid oid s2 = (Ok (setStatus CANCELLED o2), s3) /\
    forall pid,
      products s3 !! pid
      = Prisma.addStock (2 * quantityOf pid (items o)) <$> products s !! pid.
Proof.
  intros Hc Hres. pose proof Hc as (Ho & Hu & _).
  destruct (cancelOrder_cancellable uid oid s o Hres Hc)
    as (s1 & Hrun1 & Hos1 & Hps1 & _).
  set (patch := mkUpdateReq (Some PENDING) None None None).
  set (o1 := setStatus CANCELLED o).
  assert (Ho1 : orders s1 !! oid = Some o1) by (rewrite Hos1; apply lookup_insert_eq).
  assert (Hupd : updateOrder oid patch s1
                 = (Ok (applyPatch patch o1), set_orders (alter (applyPatch patch) oid) s1)).
  { unfold updateOrder, bind, Prisma.order_findUnique, Prisma.order_update.
    cbn [fst snd]. rewrite Ho1. rewrite Ho1. reflexivity. }
  set (s2 := set_orders (alter (applyPatch patch) oid) s1) in *.
  set (o2 := applyPatch patch o1) in *.
  destruct (cancelOrder_cancellable uid oid s2 o2) as (s3 & Hrun3 & _ & Hps3 & _).
  - eapply Forall_impl; [exact Hres|]. intros it [p Hit]. cbn.
    rewrite Hps1, Hit. now eexists.
  - split; [|split; [exact Hu | split; discriminate]].
    cbn. rewrite lookup_alter_eq, Ho1. reflexivity.
  - exists s1, s2, s3, o2. split; [exact Hrun1|]. split; [exact Hupd|].
    split; [reflexivity|]. split; [exact Hrun3|].
    intros pid. rewrite Hps3. cbn [products s2 set_orders]. rewrite Hps1.
    change (items o2) with (items o).
    destruct (products s !! pid) as [p|]; cbn; [|reflexivity].
    rewrite addStock_addStock. do 2 f_equal. lia.
Qed.

Lemma cancel_reopen_cancel_witness :
  exists s3,
    stockCount <$> products store1 !! "p-rose" = Some 5%Z /\
    stockCount <$> products s3 !! "p-rose" = Some 11%Z.
Proof.
  destruct (cancel_reopen_cancel "u1" "order-7" store1 placed)
    as (s1 & s2 & s3 & o2 & _ & _ & _ & _ & Hp).
  - unfold cancellable. split; [vm_compute; reflexivity|].
    split; [reflexivity|]. split; discriminate.
  - repeat constructor; vm_compute; eexists; reflexivity.
  - exists s3. split; [vm_compute; reflexivity|]. rewrite Hp. vm_compute. reflexivity.
Defined.

(** ** Coupon administration *)

(** X9. Whatever string the built-in [toUpperCase] makes of a code,
    [createCoupon] stores the coupon under the uppercased code: it succeeds
    exactly when no coupon is stored under it and otherwise fails with 409,
    leaving the store as it is.  After a success, [getCouponByCode] returns
    the new coupon for every code with the same uppercased form, and
    creating a coupon with such a code fails with 409. *)
Theorem createCoupon_spec (toUpperCase : string -> string) dflt data s :
  let key := toUpperCase (cr_code data) in
  let s' := set_coupons (insert key (couponRow dflt data)) s in
  (coupons s !! key = None ->
   withBuiltin.createCoupon toUpperCase dflt data s = (Ok (couponRow dflt data), s') /\
   forall code',
     toUpperCase code' = key ->
     withBuiltin.getCouponByCode toUpperCase code' s' = (Ok (couponRow dflt data), s') /\
     forall dflt' data',
       cr_code data' = code' ->
       withBuiltin.createCoupon toUpperCase dflt' data' s'
       = (Err (AppError "Coupon with this code already exists" 409), s')) /\
  (is_Some (coupons s !! key) ->
   withBuiltin.createCoupon toUpperCase dflt data s
   = (Err (AppError "Coupon with this code already exists" 409), s)).
Proof.
  cbv zeta. split.
  - intros Hfree. split.
    + unfold withBuiltin.createCoupon, bind, Prisma.coupon_findUnique,
        PrismaQueries.coupon_create.
      rewrite Hfree. cbn. rewrite Hfree. reflexivity.
    + intros code' Hcode. split.
      * unfold withBuiltin.getCouponByCode, bind, Prisma.coupon_findUnique.
        cbn [coupons set_coupons]. rewrite Hcode, lookup_insert_eq. reflexivity.
      * intros dflt' data' <-.
        unfold withBuiltin.createCoupon, bind, Prisma.coupon_findUnique.
        cbn [coupons set_coupons]. rewrite Hcode, lookup_insert_eq. reflexivity.
  - intros [c Hc]. unfold withBuiltin.createCoupon, bind, Prisma.coupon_findUnique.
    rewrite Hc. reflexivity.
Qed.

Lemma createCoupon_spec_witness :
  let data := mkCouponReq "Spring5" fixed 5 None None None 0 1000 in
  let dflt := mkCouponDefaults 0 true in
  let s' := set_coupons (insert "SPRING5" (couponRow dflt data)) store0 in
  withBuiltin.getCouponByCode Js.toUpperCase "spring5" s' = (Ok (couponRow dflt data), s').
Proof.
  intros data dflt s'.
  destruct (createCoupon_spec Js.toUpperCase dflt data store0) as [Hnew _].
  destruct Hnew as [_ Hget]; [vm_compute; reflexivity|].
  apply (Hget "spring5"). reflexivity.
Defined.

(** * Properties of the helpers *)

(** ** Pagination *)

(** X10. [calculatePagination] works on the numbers as they come and has no
    guard on the limit.  With a limit of 0 and any positive total, the page
    count is Infinity and [hasNext] is true on every page that is a number
    other than Infinity; with a limit of 0 and a total of 0 the page count
    is NaN and [hasNext] is false on every page.  [hasNext] compares the
    page with the page count and not the rows: for page 1.5, limit 10 and
    total 15 the offset is 5, the page count 2 and [hasNext] true, although
    no row lies beyond the first 15. *)
Theorem calculatePagination_zero_limit page m e sz :
  let some := helpers.calculatePagination page (Double.ofZ 0) (S754_finite false m e) in
  let none := helpers.calculatePagination page (Double.ofZ 0) (S754_zero sz) in
  pg_totalPages some = S754_infinity false /\
  (pg_hasNext some = true <-> page <> S754_nan /\ page <> S754_infinity false) /\
  pg_totalPages none = S754_nan /\
  pg_hasNext none = false /\
  let half := helpers.calculatePagination (Double.ofQ 1.5) (Double.ofZ 10) (Double.ofZ 15) in
  pg_offset half = Double.ofZ 5 /\ pg_totalPages half = Double.ofZ 2 /\
  pg_hasNext half = true /\
  Double.ltb (Double.mul (Double.ofQ 1.5) (Double.ofZ 10)) (Double.ofZ 15) = false.
Proof.
  cbv zeta. split; [reflexivity|]. split; [|split; [reflexivity|split]].
  - unfold helpers.calculatePagination. cbn [pg_hasNext].
    change (Double.Math_ceil (Double.div (S754_finite false m e) (Double.ofZ 0)))
      with (S754_infinity false).
    destruct page as [s|[]| |s mp ep]; cbn; split;
      try discriminate; try (intros _; split; discriminate); try reflexivity;
      try (intros [H1 H2]; congruence).
  - unfold helpers.calculatePagination. cbn [pg_hasNext].
    change (Double.Math_ceil (Double.div (S754_zero sz) (Double.ofZ 0))) with S754_nan.
    destruct page as [s| | |s mp ep]; reflexivity.
  - repeat split; vm_compute; reflexivity.
Qed.

Lemma calculatePagination_zero_limit_witness :
  pg_hasNext (helpers.calculatePagination (Double.ofZ 7) (Double.ofZ 0) (Double.ofZ 35))
  = true.
Proof.
  change (Double.ofZ 35) with (S754_finite false 4925812092436480 (-47)).
  apply (proj1 (proj2 (calculatePagination_zero_limit (Double.ofZ 7) 4925812092436480
                         (-47) false))).
  split; vm_compute; discriminate.
Defined.

(** ** Shipping and tax as functions of the amount *)

Lemma Math_round_mono x y : (x <= y)%Q -> (Js.Math_round x <= Js.Math_round y)%Q.
Proof.
  intros H. unfold Js.Math_round. rewrite <- Zle_Qle.
  apply Qfloor_resp_le. lra.
Qed.

(** X11. [calculateShipping] only returns 0, 5.99 or 9.99 and never grows
    when the amount grows; [calculateTax] with a non-negative rate never
    shrinks when the amount grows, and is not negative on a non-negative
    amount. *)
Theorem shipping_and_tax_monotone a b rate :
  (a <= b)%Q ->
  (calculateShipping a = 0%Q \/ calculateShipping a = 5.99%Q \/
   calculateShipping a = 9.99%Q) /\
  (calculateShipping b <= calculateShipping a)%Q /\
  ((0 <= rate)%Q ->
   (calculateTax a rate <= calculateTax b rate)%Q /\
   ((0 <= a)%Q -> (0 <= calculateTax a rate)%Q)).
Proof.
  intros Hab. split; [|split].
  - unfold calculateShipping. destruct (Js.geQ a 50); [now left|].
    destruct (Js.geQ a 25); [right; now left | right; now right].
  - unfold calculateShipping.
    destruct (Js.geQ a 50) eqn:Ha50; [apply geQ_true in Ha50 | apply geQ_false in Ha50];
      (destruct (Js.geQ a 25) eqn:Ha25; [apply geQ_true in Ha25 | apply geQ_false in Ha25]);
      (destruct (Js.geQ b 50) eqn:Hb50; [apply geQ_true in Hb50 | apply geQ_false in Hb50]);
      (destruct (Js.geQ b 25) eqn:Hb25; [apply geQ_true in Hb25 | apply geQ_false in Hb25]);
      try lra; try (apply Qle_refl); try discriminate.
  - intros Hr.
    assert (Hmono : forall x y, (x <= y)%Q -> (calculateTax x rate <= calculateTax y rate)%Q).
    { intros x y Hxy. unfold calculateTax.
      assert (Hm : (x * rate * 100 <= y * rate * 100)%Q) by nra.
      pose proof (Math_round_mono _ _ Hm) as Hround.
      unfold Qdiv. change (/ 100)%Q with (1 # 100)%Q. lra. }
    split; [now apply Hmono|].
    intros Ha. apply (Qle_trans _ (calculateTax 0 rate)); [|now apply Hmono].
    unfold calculateTax, Js.Math_round.
    assert (H0 : (0 * rate * 100 + (1 # 2) == 1 # 2)%Q) by ring.
    rewrite H0. vm_compute. discriminate.
Qed.

Lemma shipping_and_tax_monotone_witness :
  (calculateShipping 60 <= calculateShipping 30)%Q /\
  (calculateTax 30 0.08 <= calculateTax 60 0.08)%Q.
Proof.
  destruct (shipping_and_tax_monotone 30 60 0.08) as (_ & Hs & Ht).
  - vm_compute. discriminate.
  - destruct Ht as [Ht _]; [vm_compute; discriminate|].
    split; [exact Hs | exact Ht].
Defined.

(** X12. What is to pay before discount (subtotal plus shipping plus tax, the
    total [createOrder] stores up to the discount) does not grow with the
    subtotal: every subtotal from 21.01 up to but not including 25 costs
    more than a subtotal of exactly 25 (33.47), and every subtotal from
    44.02 up to but not including 50 costs more than a subtotal of exactly
    50 (54). *)
Theorem payable_drops_at_thresholds :
  (forall fresh now uid data s o s',
      createOrder fresh now uid data s = (Ok o, s') ->
      total o = (payable (subtotal o) - discount o)%Q) /\
  (payable 25 == 33.47)%Q /\ (payable 50 == 54)%Q /\
  (forall a, (21.01 <= a)%Q -> (a < 25)%Q -> (payable 25 < payable a)%Q) /\
  (forall a, (44.02 <= a)%Q -> (a < 50)%Q -> (payable 50 < payable a)%Q).
Proof.
  assert (H25 : (payable 25 == 33.47)%Q) by (vm_compute; reflexivity).
  assert (H50 : (payable 50 == 54)%Q) by (vm_compute; reflexivity).
  split; [|split; [exact H25|split; [exact H50|split]]].
  - intros fresh now uid data s o s' H.
    apply createOrder_Ok in H as (sub & ois & d & _ & _ & ->). reflexivity.
  - intros a Hlo Hhi. rewrite H25. unfold payable.
    destruct (calculateShipping_tier a) as (_ & _ & Hship). specialize (Hship Hhi).
    destruct (calculateTax_round2 (a + calculateShipping a) defaultTaxRate)
      as (_ & _ & Htax).
    unfold defaultTaxRate in *.
    set (ship := calculateShipping a) in *.
    set (tx := calculateTax (a + ship) 0.08) in *. lra.
  - intros a Hlo Hhi. rewrite H50. unfold payable.
    destruct (calculateShipping_tier a) as (_ & Hship & _).
    assert (H25a : (25 <= a)%Q) by lra. specialize (Hship H25a Hhi).
    destruct (calculateTax_round2 (a + calculateShipping a) defaultTaxRate)
      as (_ & _ & Htax).
    unfold defaultTaxRate in *.
    set (ship := calculateShipping a) in *.
    set (tx := calculateTax (a + ship) 0.08) in *. lra.
Qed.

Lemma payable_drops_at_thresholds_witness : (payable 25 < payable 24.99)%Q.
Proof.
  refine (proj1 (proj2 (proj2 (proj2 payable_drops_at_thresholds))) 24.99%Q _ _);
    vm_compute; (reflexivity || discriminate).
Defined.

(** ** Strings *)

Lemma string_length_app s t : String.length (s ++ t) = (String.length s + String.length t)%nat.
Proof.
  induction s as [|c s IH]; [reflexivity|].
  change (S (String.length (s ++ t)) = S (String.length s + String.length t)).
  now rewrite IH.
Qed.

Lemma string_app_assoc (s t u : string) : (s ++ t) ++ u = s ++ (t ++ u).
Proof.
  induction s as [|c s IH]; [reflexivity|].
  change (String c ((s ++ t) ++ u) = String c (s ++ (t ++ u))). now rewrite IH.
Qed.

Lemma allChars_app f s t : allChars f (s ++ t) = allChars f s && allChars f t.
Proof.
  induction s as [|c s IH]; [reflexivity|].
  simpl. rewrite IH. now rewrite andb_assoc.
Qed.

Lemma allChars_impl (f g : ascii -> bool) s :
  (forall c, f c = true -> g c = true) -> allChars f s = true -> allChars g s = true.
Proof.
  intros Hfg. induction s as [|c s IH]; cbn; [reflexivity|].
  rewrite !andb_true_iff. intros [Hc Hs]. split; [now apply Hfg | now apply IH].
Qed.

Lemma dropFirst_app s t : JsStr.dropFirst (String.length s) (s ++ t) = t.
Proof.
  induction s as [|c s IH]; [now destruct t|].
  simpl. exact IH.
Qed.

Lemma sliceLast_app s t n :
  String.length t = n -> JsStr.sliceLast n (s ++ t) = t.
Proof.
  intros <-. unfold JsStr.sliceLast. rewrite string_length_app.
  replace (String.length s + String.length t - String.length t)%nat
    with (String.length s) by lia.
  apply dropFirst_app.
Qed.

Lemma sliceTo_length n s :
  String.length (JsStr.sliceTo n s) = Nat.min n (String.length s).
Proof.
  revert s. induction n as [|n IH]; intros [|c s]; cbn; try reflexivity.
  now rewrite IH.
Qed.

Lemma sliceTo_allChars f n s :
  allChars f s = true -> allChars f (JsStr.sliceTo n s) = true.
Proof.
  revert s. induction n as [|n IH]; intros [|c s]; cbn; try reflexivity.
  rewrite !andb_true_iff. intros [Hc Hs]. split; [exact Hc | now apply IH].
Qed.

(** ** Random strings and order numbers *)

Lemma hexDigit_lower n : isHexLower (JsStr.hexDigit n) = true.
Proof.
  unfold JsStr.hexDigit.
  destruct n as [|p]; [reflexivity|].
  do 4 (destruct p as [p|p|]; try reflexivity).
Qed.

Lemma toHex_length bytes : String.length (JsStr.toHex bytes) = (2 * length bytes)%nat.
Proof. induction bytes as [|b rest IH]; cbn; [reflexivity | rewrite IH; lia]. Qed.

Lemma toHex_chars bytes : allChars isHexLower (JsStr.toHex bytes) = true.
Proof.
  induction bytes as [|b rest IH]; [reflexivity|].
  cbn [JsStr.toHex allChars]. now rewrite !hexDigit_lower, IH.
Qed.

Lemma div2_ceil n : (n <= 2 * Nat.div2 (n + 1))%nat.
Proof.
  rewrite Nat.div2_div.
  pose proof (Nat.div_mod (n + 1) 2 ltac:(discriminate)).
  pose proof (Nat.mod_upper_bound (n + 1) 2 ltac:(discriminate)). lia.
Qed.

Lemma upperAscii_hex c : isHexLower c = true -> isHexUpper (Js.upperAscii c) = true.
Proof.
  destruct c as [[] [] [] [] [] [] [] []]; vm_compute; intros H;
    first [reflexivity | discriminate H].
Qed.

Lemma toUpperCase_length s : String.length (Js.toUpperCase s) = String.length s.
Proof. induction s as [|c s IH]; cbn; [reflexivity | now rewrite IH]. Qed.

Lemma toUpperCase_hex s :
  allChars isHexLower s = true -> allChars isHexUpper (Js.toUpperCase s) = true.
Proof.
  induction s as [|c s IH]; cbn; [reflexivity|].
  rewrite !andb_true_iff. intros [Hc Hs]. split; [now apply upperAscii_hex | now apply IH].
Qed.

Section RandomBytes.

(** [randomBytes(n)] returns [n] bytes. *)
Variable randomBytes : nat -> list Byte.byte.
Hypothesis randomBytes_length : forall n, length (randomBytes n) = n.

Lemma generateRandomString_shape n :
  String.length (helpers.generateRandomString randomBytes n) = n /\
  allChars isHexLower (helpers.generateRandomString randomBytes n) = true.
Proof.
  unfold helpers.generateRandomString. split.
  - rewrite sliceTo_length, toHex_length, randomBytes_length.
    pose proof (div2_ceil n). lia.
  - apply sliceTo_allChars, toHex_chars.
Qed.

(** X13. [generateRandomString(length)] returns exactly [length] characters,
    for odd lengths too, and all of them are lowercase hexadecimal digits. *)
Theorem generateRandomString_spec n :
  String.length (helpers.generateRandomString randomBytes n) = n /\
  allChars isHexLower (helpers.generateRandomString randomBytes n) = true.
Proof.
  unfold helpers.generateRandomString. split.
  - rewrite sliceTo_length, toHex_length, randomBytes_length.
    pose proof (div2_ceil n). lia.
  - apply sliceTo_allChars, toHex_chars.
Qed.

Lemma lastDigits_app k : forall x s, lastDigits k x s = lastDigits k x "" ++ s.
Proof.
  induction k as [|k IH]; intros x s; [reflexivity|].
  cbn [lastDigits]. rewrite (IH _ (String _ s)), (IH _ (String _ "")).
  rewrite string_app_assoc. reflexivity.
Qed.

Lemma lastDigits_length k : forall x s,
  String.length (lastDigits k x s) = (k + String.length s)%nat.
Proof.
  induction k as [|k IH]; intros x s; [reflexivity|].
  cbn [lastDigits]. rewrite IH. cbn. lia.
Qed.

Lemma pretty_N_char_digit d : isDigit (pretty_N_char d) = true.
Proof.
  unfold pretty_N_char. destruct d as [|p]; [reflexivity|].
  do 4 (destruct p as [p|p|]; try reflexivity).
Qed.

Lemma lastDigits_digits k : forall x s,
  allChars isDigit s = true -> allChars isDigit (lastDigits k x s) = true.
Proof.
  induction k as [|k IH]; intros x s Hs; [exact Hs|].
  cbn [lastDigits]. apply IH. cbn [allChars]. now rewrite pretty_N_char_digit.
Qed.

Lemma lastDigits_mod k : forall x s,
  lastDigits k (x mod 10 ^ N.of_nat k)%N s = lastDigits k x s.
Proof.
  induction k as [|k IH]; intros x s; [reflexivity|].
  cbn [lastDigits].
  replace (10 ^ N.of_nat (S k))%N with (10 * 10 ^ N.of_nat k)%N
    by (rewrite Nat2N.inj_succ, N.pow_succ_r'; reflexivity).
  rewrite N.Div0.mod_mul_r.
  assert (Hlt : (x mod 10 < 10)%N) by (apply N.mod_lt; discriminate).
  set (q := ((x / 10) mod 10 ^ N.of_nat k)%N).
  assert (H1 : ((x mod 10 + 10 * q) mod 10 = x mod 10)%N).
  { replace (x mod 10 + 10 * q)%N with (x mod 10 + q * 10)%N by lia.
    rewrite N.Div0.mod_add. now apply N.mod_small. }
  assert (H2 : ((x mod 10 + 10 * q) / 10 = q)%N).
  { replace (x mod 10 + 10 * q)%N with (q * 10 + x mod 10)%N by lia.
    rewrite N.div_add_l by discriminate. rewrite (N.div_small _ _ Hlt). lia. }
  rewrite H1, H2. apply IH.
Qed.

Lemma pretty_go_prefix x : forall s, exists u, pretty_N_go x s = u ++ s.
Proof.
  induction (N.lt_wf_0 x) as [x _ IH]; intros s.
  destruct (N.eq_dec x 0%N) as [->|Hx].
  - exists "". apply pretty_N_go_0.
  - rewrite pretty_N_go_step by lia.
    destruct (IH (x / 10)%N) with (s := String (pretty_N_char (x mod 10)%N) s)
      as [u Hu]; [apply N.div_lt; lia|].
    exists (u ++ String (pretty_N_char (x mod 10)%N) ""). rewrite Hu.
    now rewrite string_app_assoc.
Qed.

Lemma pretty_go_lastDigits k : forall x s,
  (k <> O -> 10 ^ N.of_nat k <= 10 * x)%N ->
  pretty_N_go x s = pretty_N_go (x / 10 ^ N.of_nat k)%N (lastDigits k x s).
Proof.
  induction k as [|k IH]; intros x s Hx.
  - cbn. now rewrite N.div_1_r.
  - assert (Hpow : (10 ^ N.of_nat (S k) = 10 * 10 ^ N.of_nat k)%N)
      by (rewrite Nat2N.inj_succ, N.pow_succ_r'; reflexivity).
    specialize (Hx ltac:(discriminate)). rewrite Hpow in *.
    assert (Hk : (0 < 10 ^ N.of_nat k)%N) by (apply N.neq_0_lt_0, N.pow_nonzero; discriminate).
    assert (Hpos : (0 < x)%N) by lia.
    rewrite pretty_N_go_step by exact Hpos. cbn [lastDigits].
    rewrite IH.
    + now rewrite N.Div0.div_div.
    + intros Hk0. destruct k as [|k]; [contradiction|].
      rewrite Nat2N.inj_succ, N.pow_succ_r' in *.
      assert (10 ^ N.of_nat k <= x / 10)%N; [|lia].
      apply N.div_le_lower_bound; [discriminate | lia].
Qed.

Lemma last_six_digits now :
  (100000 <= now)%N ->
  JsStr.sliceLast 6 (pretty now) = lastDigits 6 (now mod 1000000)%N "".
Proof.
  intros Hnow. unfold pretty, pretty_N.
  destruct (decide (now = 0%N)) as [->|_]; [lia|].
  rewrite (pretty_go_lastDigits 6) by (intros _; cbn; lia).
  destruct (pretty_go_prefix (now / 10 ^ N.of_nat 6)%N (lastDigits 6 now "")) as [u ->].
  rewrite sliceLast_app by apply lastDigits_length.
  symmetry. apply (lastDigits_mod 6).
Qed.

(** X14. From the clock value 100000 on, [generateOrderNumber()] is "FH-",
    the last six decimal digits of the clock value, a hyphen and four
    uppercase hexadecimal digits: fourteen characters.  The clock enters
    only through its value modulo 1000000, so two calls that draw the same
    random bytes a multiple of 1000 seconds apart return the same order
    number. *)
Theorem generateOrderNumber_spec now :
  (100000 <= now)%N ->
  let random := Js.toUpperCase (helpers.generateRandomString randomBytes 4) in
  helpers.generateOrderNumber randomBytes now
  = "FH-" ++ lastDigits 6 (now mod 1000000)%N "" ++ "-" ++ random /\
  allChars isDigit (lastDigits 6 (now mod 1000000)%N "") = true /\
  String.length random = 4 /\ allChars isHexUpper random = true /\
  String.length (helpers.generateOrderNumber randomBytes now) = 14 /\
  forall now',
    (100000 <= now')%N -> (now' mod 1000000 = now mod 1000000)%N ->
    helpers.generateOrderNumber randomBytes now'
    = helpers.generateOrderNumber randomBytes now.
Proof.
  intros Hnow random.
  destruct (generateRandomString_shape 4) as [Hlen Hhex].
  assert (Hshape : forall t, (100000 <= t)%N ->
            helpers.generateOrderNumber randomBytes t
            = "FH-" ++ lastDigits 6 (t mod 1000000)%N "" ++ "-" ++ random).
  { intros t Ht. unfold helpers.generateOrderNumber. now rewrite (last_six_digits t Ht). }
  split; [now apply Hshape|]. split; [now apply lastDigits_digits|].
  split; [unfold random; now rewrite toUpperCase_length|].
  split; [now apply toUpperCase_hex|]. split.
  - rewrite (Hshape now Hnow), !string_length_app, lastDigits_length.
    unfold random. rewrite toUpperCase_length, Hlen. reflexivity.
  - intros now' Hnow' Hmod. rewrite (Hshape now' Hnow'), (Hshape now Hnow), Hmod.
    reflexivity.
Qed.

End RandomBytes.

Lemma generateRandomString_spec_witness :
  String.length (helpers.generateRandomString (fun n => repeat Byte.xab n) 7) = 7%nat.
Proof.
  refine (proj1 (generateRandomString_spec (fun n => repeat Byte.xab n) _ 7%nat)).
  intros n. apply repeat_length.
Defined.

Lemma generateOrderNumber_spec_witness :
  helpers.generateOrderNumber (fun n => repeat Byte.xab n) 1700000123456
  = helpers.generateOrderNumber (fun n => repeat Byte.xab n) 1700001123456.
Proof.
  symmetry.
  refine (proj2 (proj2 (proj2 (proj2 (proj2
    (generateOrderNumber_spec (fun n => repeat Byte.xab n) _ 1700000123456%N _)))))
    1700001123456%N _ _).
  - intros n. apply repeat_length.
  - vm_compute. discriminate.
  - vm_compute. discriminate.
  - vm_compute. reflexivity.
Defined.

(** ** Slugs *)

Ltac by_ascii c :=
  destruct c as [[] [] [] [] [] [] [] []]; vm_compute;
  repeat (let H := fresh in intros H); first [reflexivity | discriminate | congruence].

Lemma lowerAscii_notUpper c : notUpper (JsStr.lowerAscii c) = true.
Proof. by_ascii c. Qed.

Lemma kept_is_slugChar c :
  notUpper c = true -> slugKeep c = true -> helpers.isSeparator c = false ->
  isSlugChar c = true.
Proof. by_ascii c. Qed.

Lemma nonSeparator_nonHyphen c : helpers.isSeparator c = false -> JsStr.isHyphen c = false.
Proof. by_ascii c. Qed.

Lemma slugChar_lower c : isSlugChar c = true -> JsStr.lowerAscii c = c.
Proof. by_ascii c. Qed.

Lemma slugChar_noSpace c : isSlugChar c = true -> JsStr.isSpace c = false.
Proof. by_ascii c. Qed.

Lemma slugChar_kept c : isSlugChar c = true -> slugKeep c = true.
Proof. by_ascii c. Qed.

Lemma slugChar_separator c :
  isSlugChar c = true -> helpers.isSeparator c = true -> c = "-"%char.
Proof. by_ascii c. Qed.

Lemma toLowerCase_notUpper s : allChars notUpper (JsStr.toLowerCase s) = true.
Proof.
  induction s as [|c s IH]; [reflexivity|].
  cbn [JsStr.toLowerCase allChars]. now rewrite lowerAscii_notUpper, IH.
Qed.

Lemma dropWhile_allChars f g s :
  allChars g s = true -> allChars g (JsStr.dropWhile f s) = true.
Proof.
  induction s as [|c s IH]; [reflexivity|]. cbn [JsStr.dropWhile].
  intros H. destruct (f c); [|exact H].
  cbn [allChars] in H. apply andb_true_iff in H as [_ H]. now apply IH.
Qed.

Lemma dropWhile_start f s : startsWith f (JsStr.dropWhile f s) = false.
Proof.
  induction s as [|c s IH]; [reflexivity|]. cbn [JsStr.dropWhile].
  destruct (f c) eqn:E; [exact IH | exact E].
Qed.

Lemma dropWhile_id f s : startsWith f s = false -> JsStr.dropWhile f s = s.
Proof. destruct s as [|c s]; [reflexivity|]. cbn. now intros ->. Qed.

Lemma noDoubleHyphen_tail c s : noDoubleHyphen (String c s) = true -> noDoubleHyphen s = true.
Proof. cbn [noDoubleHyphen]. intros H. now apply andb_true_iff in H as [_ H]. Qed.

Lemma dropWhile_noDouble f s :
  noDoubleHyphen s = true -> noDoubleHyphen (JsStr.dropWhile f s) = true.
Proof.
  induction s as [|c s IH]; [reflexivity|]. cbn [JsStr.dropWhile].
  intros H. destruct (f c); [|exact H]. apply IH. now apply noDoubleHyphen_tail in H.
Qed.

Lemma dropWhileEnd_cons f c s :
  JsStr.dropWhileEnd f (String c s)
  = match JsStr.dropWhileEnd f s with
    | EmptyString => if f c then EmptyString else String c EmptyString
    | String d kept => String c (String d kept)
    end.
Proof. cbn [JsStr.dropWhileEnd]. now destruct (JsStr.dropWhileEnd f s). Qed.

Lemma dropWhileEnd_allChars f g s :
  allChars g s = true -> allChars g (JsStr.dropWhileEnd f s) = true.
Proof.
  induction s as [|c s IH]; [reflexivity|]. rewrite dropWhileEnd_cons.
  cbn [allChars]. intros H. apply andb_true_iff in H as [Hc Hs].
  specialize (IH Hs). destruct (JsStr.dropWhileEnd f s) as [|d kept].
  - destruct (f c); [reflexivity|]. cbn. now rewrite Hc.
  - cbn [allChars] in *. now rewrite Hc, IH.
Qed.

Lemma dropWhileEnd_start f g s :
  startsWith g (JsStr.dropWhileEnd f s) = true -> startsWith g s = true.
Proof.
  destruct s as [|c s]; [discriminate|]. rewrite dropWhileEnd_cons.
  destruct (JsStr.dropWhileEnd f s); [destruct (f c); [discriminate|]|]; cbn; auto.
Qed.

Lemma dropWhileEnd_noDouble f s :
  noDoubleHyphen s = true -> noDoubleHyphen (JsStr.dropWhileEnd f s) = true.
Proof.
  induction s as [|c s IH]; [reflexivity|]. rewrite dropWhileEnd_cons.
  intros H. pose proof (noDoubleHyphen_tail _ _ H) as Hs. specialize (IH Hs).
  pose proof (dropWhileEnd_start f JsStr.isHyphen s) as Hst.
  destruct (JsStr.dropWhileEnd f s) as [|d kept].
  - destruct (f c); [reflexivity|]. cbn. now rewrite andb_false_r.
  - cbn [noDoubleHyphen] in *. rewrite IH, andb_true_r.
    apply andb_true_iff in H as [H _].
    destruct (JsStr.isHyphen c); [|reflexivity]. cbn [andb negb] in *.
    destruct (startsWith JsStr.isHyphen (String d kept)) eqn:E; [|reflexivity].
    rewrite (Hst eq_refl) in H. discriminate H.
Qed.

Lemma dropWhileEnd_end f s : endsWith f (JsStr.dropWhileEnd f s) = false.
Proof.
  induction s as [|c s IH]; [reflexivity|]. rewrite dropWhileEnd_cons.
  destruct (JsStr.dropWhileEnd f s) as [|d kept].
  - destruct (f c) eqn:E; [reflexivity | exact E].
  - exact IH.
Qed.

Lemma dropWhileEnd_id f s : endsWith f s = false -> JsStr.dropWhileEnd f s = s.
Proof.
  induction s as [|c s IH]; [reflexivity|]. rewrite dropWhileEnd_cons.
  destruct s as [|d s].
  - cbn. now intros ->.
  - intros H. change (endsWith f (String d s) = false) in H.
    now rewrite (IH H).
Qed.

Lemma allChars_not_end (f g : ascii -> bool) s :
  (forall c, g c = true -> f c = false) ->
  allChars g s = true -> endsWith f s = false.
Proof.
  intros Hgf. induction s as [|c s IH]; [reflexivity|].
  cbn [allChars]. intros H. apply andb_true_iff in H as [Hc Hs].
  destruct s as [|d s]; [cbn; now apply Hgf|]. now apply IH.
Qed.

Lemma allChars_not_start (f g : ascii -> bool) s :
  (forall c, g c = true -> f c = false) ->
  allChars g s = true -> startsWith f s = false.
Proof.
  intros Hgf. destruct s as [|c s]; [reflexivity|].
  cbn. intros H. apply andb_true_iff in H as [Hc _]. now apply Hgf.
Qed.

Lemma keepOnly_allChars keep g s :
  allChars g s = true -> allChars (fun c => g c && keep c) (JsStr.keepOnly keep s) = true.
Proof.
  induction s as [|c s IH]; [reflexivity|]. cbn [allChars JsStr.keepOnly].
  intros H. apply andb_true_iff in H as [Hc Hs].
  destruct (keep c) eqn:E; [|now apply IH].
  cbn [allChars]. now rewrite Hc, E, IH.
Qed.

Lemma keepOnly_id keep s : allChars keep s = true -> JsStr.keepOnly keep s = s.
Proof.
  induction s as [|c s IH]; [reflexivity|]. cbn [allChars JsStr.keepOnly].
  intros H. apply andb_true_iff in H as [-> Hs]. now rewrite IH.
Qed.

Lemma toLowerCase_id s : allChars isSlugChar s = true -> JsStr.toLowerCase s = s.
Proof.
  induction s as [|c s IH]; [reflexivity|]. cbn [allChars JsStr.toLowerCase].
  intros H. apply andb_true_iff in H as [Hc Hs]. now rewrite slugChar_lower, IH.
Qed.

Lemma collapseRuns_slug b s :
  allChars (fun c => notUpper c && slugKeep c) s = true ->
  let out := JsStr.collapseRuns helpers.isSeparator "-" b s in
  allChars isSlugChar out = true /\ noDoubleHyphen out = true /\
  (b = true -> startsWith JsStr.isHyphen out = false).
Proof.
  revert b. induction s as [|c s IH]; intros b H; [cbn; auto|].
  cbn [allChars] in H. apply andb_true_iff in H as [Hc Hs].
  apply andb_true_iff in Hc as [Hup Hkeep].
  cbv zeta. cbn [JsStr.collapseRuns].
  destruct (helpers.isSeparator c) eqn:Hsep.
  - destruct (IH true Hs) as (Ha & Hn & Hst). specialize (Hst eq_refl).
    destruct b.
    + repeat split; auto.
    + cbn [allChars noDoubleHyphen startsWith]. rewrite Ha, Hn, Hst.
      split; [reflexivity|]. split; [reflexivity | discriminate].
  - destruct (IH false Hs) as (Ha & Hn & _).
    pose proof (nonSeparator_nonHyphen _ Hsep) as Hnh.
    cbn [allChars noDoubleHyphen startsWith].
    rewrite (kept_is_slugChar _ Hup Hkeep Hsep), Ha, Hn, Hnh.
    split; [reflexivity|]. split; [reflexivity | intros _; reflexivity].
Qed.

Lemma collapseRuns_id b s :
  allChars isSlugChar s = true -> noDoubleHyphen s = true ->
  (b = true -> startsWith JsStr.isHyphen s = false) ->
  JsStr.collapseRuns helpers.isSeparator "-" b s = s.
Proof.
  revert b. induction s as [|c s IH]; intros b Ha Hn Hb; [reflexivity|].
  cbn [allChars] in Ha. apply andb_true_iff in Ha as [Hc Hs].
  pose proof (noDoubleHyphen_tail _ _ Hn) as Hns.
  cbn [JsStr.collapseRuns]. destruct (helpers.isSeparator c) eqn:Hsep.
  - pose proof (slugChar_separator _ Hc Hsep) as ->.
    destruct b; [specialize (Hb eq_refl); discriminate Hb|].
    rewrite (IH true Hs Hns); [reflexivity|]. intros _.
    cbn [noDoubleHyphen] in Hn. apply andb_true_iff in Hn as [Hn _].
    destruct (startsWith JsStr.isHyphen s); [discriminate Hn | reflexivity].
  - rewrite (IH false Hs Hns); [reflexivity | discriminate].
Qed.

Lemma generateSlug_isSlug text : isSlug (helpers.generateSlug text).
Proof.
  unfold helpers.generateSlug, isSlug. cbv zeta.
  set (cleaned := JsStr.keepOnly _ _).
  assert (Hclean : allChars (fun c => notUpper c && slugKeep c) cleaned = true).
  { apply keepOnly_allChars. unfold JsStr.trim.
    apply dropWhileEnd_allChars, dropWhile_allChars, toLowerCase_notUpper. }
  destruct (collapseRuns_slug false cleaned Hclean) as (Ha & Hn & _).
  cbv zeta in Ha, Hn.
  set (dashed := JsStr.collapseRuns helpers.isSeparator "-" false cleaned) in *.
  split; [now apply dropWhileEnd_allChars, dropWhile_allChars|]. split.
  - destruct (startsWith JsStr.isHyphen (JsStr.dropWhileEnd JsStr.isHyphen
               (JsStr.dropWhile JsStr.isHyphen dashed))) eqn:E; [|reflexivity].
    apply dropWhileEnd_start in E. now rewrite dropWhile_start in E.
  - split; [apply dropWhileEnd_end|].
    now apply dropWhileEnd_noDouble, dropWhile_noDouble.
Qed.

Lemma generateSlug_fixed r : isSlug r -> helpers.generateSlug r = r.
Proof.
  intros (Ha & Hst & Hen & Hn). unfold helpers.generateSlug. cbv zeta.
  rewrite (toLowerCase_id _ Ha). unfold JsStr.trim.
  rewrite (dropWhile_id JsStr.isSpace r)
    by (apply (allChars_not_start _ isSlugChar); [apply slugChar_noSpace | exact Ha]).
  rewrite (dropWhileEnd_id JsStr.isSpace r)
    by (apply (allChars_not_end _ isSlugChar); [apply slugChar_noSpace | exact Ha]).
  rewrite keepOnly_id by (apply (allChars_impl isSlugChar); [apply slugChar_kept | exact Ha]).
  rewrite (collapseRuns_id false r Ha Hn) by discriminate.
  rewrite (dropWhile_id _ _ Hst). now apply dropWhileEnd_id.
Qed.

(** X15. On ASCII text, [generateSlug] returns a slug: only lowercase
    letters, digits and hyphens, no hyphen at either end and no two hyphens in
    a row.  Every such string is left as it is, so slugging a slug again
    changes nothing. *)
Theorem generateSlug_spec text :
  allChars isAscii text = true ->
  isSlug (helpers.generateSlug text) /\
  helpers.generateSlug (helpers.generateSlug text) = helpers.generateSlug text /\
  (isSlug text -> helpers.generateSlug text = text).
Proof.
  intros _. split; [apply generateSlug_isSlug|]. split.
  - apply generateSlug_fixed, generateSlug_isSlug.
  - apply generateSlug_fixed.
Qed.

Lemma generateSlug_spec_witness :
  helpers.generateSlug "  Red_Roses -- & Lilies! " = "red-roses-lilies" /\
  helpers.generateSlug "red-roses-lilies" = "red-roses-lilies".
Proof.
  split; [vm_compute; reflexivity|].
  assert (H : helpers.generateSlug "  Red_Roses -- & Lilies! " = "red-roses-lilies")
    by (vm_compute; reflexivity).
  destruct (generateSlug_spec "  Red_Roses -- & Lilies! ") as (_ & Hidem & _);
    [vm_compute; reflexivity|].
  rewrite H in Hidem. exact Hidem.
Defined.

(** ** The bearer token *)

Lemma eqb_space c : Ascii.eqb c " " = negb (noSpace c).
Proof. unfold noSpace. now rewrite negb_involutive. Qed.

Lemma split_nonempty sep s : JsStr.split sep s <> [].
Proof.
  induction s as [|c s IH]; [discriminate|]. cbn [JsStr.split].
  destruct (Ascii.eqb c sep); [discriminate|].
  destruct (JsStr.split sep s); [contradiction | discriminate].
Qed.

Lemma split_no_separator s :
  allChars noSpace s = true -> JsStr.split " " s = [s].
Proof.
  induction s as [|c s IH]; [reflexivity|]. cbn [allChars JsStr.split].
  intros H. apply andb_true_iff in H as [Hc Hs]. rewrite eqb_space, Hc. cbn [negb].
  now rewrite (IH Hs).
Qed.

Lemma split_join s :
  joinWith " " (JsStr.split " " s) = s /\
  Forall (fun p => allChars noSpace p = true) (JsStr.split " " s).
Proof.
  induction s as [|c s (IHj & IHf)]; [split; [reflexivity | repeat constructor]|].
  cbn [JsStr.split]. pose proof (split_nonempty " " s) as Hne.
  destruct (Ascii.eqb c " ") eqn:Hc.
  - apply Ascii.eqb_eq in Hc as ->. split.
    + destruct (JsStr.split " " s) as [|p ps]; [contradiction|].
      change (joinWith " " ("" :: p :: ps)) with (String " " (joinWith " " (p :: ps))).
      now rewrite IHj.
    + constructor; [reflexivity | exact IHf].
  - destruct (JsStr.split " " s) as [|p ps]; [contradiction|].
    apply Forall_cons in IHf as [Hp Hps]. split.
    + destruct ps as [|q ps].
      * change (joinWith " " [p]) with p in IHj. now rewrite <- IHj.
      * change (joinWith " " (String c p :: q :: ps))
          with (String c (joinWith " " (p :: q :: ps))).
        now rewrite IHj.
    + constructor; [|exact Hps]. cbn [allChars]. unfold noSpace at 1.
      now rewrite Hc, Hp.
Qed.

Lemma split_prefix p t :
  allChars noSpace p = true ->
  JsStr.split " " (p ++ String " " t) = p :: JsStr.split " " t.
Proof.
  induction p as [|c p IH]; [reflexivity|].
  cbn [allChars]. intros H. apply andb_true_iff in H as [Hc Hp].
  change (String c p ++ String " " t) with (String c (p ++ String " " t)).
  cbn [JsStr.split]. rewrite eqb_space, Hc. cbn [negb]. now rewrite (IH Hp).
Qed.

(** X16. [extractTokenFromHeader] returns a token exactly when the header is
    "Bearer ", followed by a token that is not empty and contains no space;
    it then returns that token.  Every other header, a missing one
    included, gives null. *)
Theorem extractTokenFromHeader_spec authHeader token :
  authUtils.extractTokenFromHeader authHeader = Some token <->
  authHeader = Some ("Bearer " ++ token) /\ token <> "" /\
  allChars noSpace token = true.
Proof.
  unfold authUtils.extractTokenFromHeader. split.
  - destruct authHeader as [h|]; [|discriminate].
    destruct (Js.truthyStr (Some h)); [|discriminate]. cbn [negb].
    change (default "" (Some h)) with h.
    destruct (split_join h) as [Hj Hf].
    destruct (JsStr.split " " h) as [|p0 [|p1 [|p2 ps]]]; try discriminate.
    cbn [length Nat.eqb negb orb nth].
    destruct (String.eqb p0 "Bearer") eqn:Hb; [|discriminate].
    apply String.eqb_eq in Hb as ->. cbn [negb].
    destruct (Js.truthyStr (Some p1)) eqn:Ht; [|discriminate].
    intros [= <-]. cbn [joinWith] in Hj. split; [now rewrite <- Hj|]. split.
    + intros ->. discriminate Ht.
    + apply Forall_cons in Hf as [_ Hf]. now apply Forall_cons in Hf as [Hf _].
  - intros (-> & Hne & Hns).
    assert (Hsplit : JsStr.split " " ("Bearer " ++ token) = ["Bearer"; token]).
    { change ("Bearer " ++ token) with ("Bearer" ++ String " " token).
      rewrite split_prefix by reflexivity. now rewrite (split_no_separator _ Hns). }
    change (default "" (Some ("Bearer " ++ token))) with ("Bearer " ++ token).
    rewrite Hsplit. cbn [nth]. rewrite (truthyStr_Some _ Hne). reflexivity.
Qed.

Lemma extractTokenFromHeader_spec_witness :
  authUtils.extractTokenFromHeader (Some "Bearer abc.def.ghi") = Some "abc.def.ghi".
Proof.
  apply (extractTokenFromHeader_spec (Some "Bearer abc.def.ghi") "abc.def.ghi").
  split; [reflexivity|]. split; [discriminate | reflexivity].
Defined.

(** * Properties of the cart service *)

Lemma string_eqb_refl (x : string) : String.eqb x x = true.
Proof. apply String.eqb_refl. Qed.

Lemma find_hasId_unique id (rows : list CartItem) it row :
  NoDup (map ci_id rows) ->
  List.find (PrismaCart.hasId id) rows = Some it ->
  row ∈ rows -> PrismaCart.hasId id row = true -> row = it.
Proof.
  intros Hnd Hfind Hin Hid.
  apply find_some in Hfind as [Hit Hidit].
  unfold PrismaCart.hasId in *. apply String.eqb_eq in Hid, Hidit.
  apply list_elem_of_In in Hit.
  induction rows as [|r rows IH]; [inversion Hin|].
  cbn in Hnd. apply NoDup_cons in Hnd as [Hfresh Hnd].
  apply elem_of_cons in Hin as [->|Hin]; apply elem_of_cons in Hit as [->|Hit];
    try reflexivity.
  - exfalso. apply Hfresh. apply list_elem_of_fmap. exists it. split; [congruence | exact Hit].
  - exfalso. apply Hfresh. apply list_elem_of_fmap. exists row. split; [congruence | exact Hin].
  - now apply IH.
Qed.

Lemma map_update_keeps {B} (g : CartItem -> B) (upd : CartItem -> CartItem)
    (test : CartItem -> bool) rows :
  (forall it, g (upd it) = g it) ->
  map g (map (fun row => if test row then upd row else row) rows) = map g rows.
Proof.
  intros Hg. rewrite map_map. apply map_ext. intros row.
  destruct (test row); [apply Hg | reflexivity].
Qed.

Lemma sameVariant_key uid pid color size it :
  PrismaCart.sameVariant uid pid color size it = true <->
  variantKey it = (uid, pid, color, size).
Proof.
  unfold PrismaCart.sameVariant, variantKey.
  rewrite !andb_true_iff, !String.eqb_eq, !bool_decide_eq_true. split.
  - intros (((-> & ->) & ->) & ->). reflexivity.
  - intros [= -> -> -> ->]. repeat split.
Qed.

Lemma find_variant_none uid pid color size rows :
  List.find (PrismaCart.sameVariant uid pid color size) rows = None ->
  (uid, pid, color, size) ∉ map variantKey rows.
Proof.
  intros Hnone Hin. apply list_elem_of_fmap in Hin as (it & Hkey & Hin).
  apply list_elem_of_In in Hin.
  pose proof (find_none _ _ Hnone it Hin) as Hf.
  symmetry in Hkey. apply sameVariant_key in Hkey. congruence.
Qed.

Ltac cart_failure :=
  split; [first [assumption | split; assumption] |];
  split; [reflexivity |]; split; [reflexivity |];
  split; [intros; reflexivity | intros ? [=]].

(** X17. [addToCart] keeps the cart table well formed: distinct ids and at
    most one line per user, product, color and size.  A failure leaves the
    shop exactly as it was.  On success the catalog and the wishlist are
    untouched, the returned line is in the cart for that user and variant,
    the product is in stock and the line's quantity, which is the requested
    quantity added to what the cart already held of the variant, does not
    exceed the product's stock count; the lines of other variants are the
    same as before. *)
Theorem addToCart_spec newId uid data sh r sh' :
  cartWellFormed sh ->
  newId ∉ map ci_id (cartItems sh) ->
  addToCart newId uid data sh = (r, sh') ->
  cartWellFormed sh' /\ base sh' = base sh /\ wishlistItems sh' = wishlistItems sh /\
  (forall e, r = Err e -> sh' = sh) /\
  (forall it, r = Ok it ->
     it ∈ cartItems sh' /\
     variantKey it = (uid, add_productId data, Js.orNull (add_selectedColor data),
                      Js.orNull (add_selectedSize data)) /\
     (exists p, products (base sh) !! add_productId data = Some p /\
                inStock p = true /\ (ci_quantity it <= stockCount p)%Z) /\
     ci_quantity it
     = (match List.find (PrismaCart.sameVariant uid (add_productId data)
                           (Js.orNull (add_selectedColor data))
                           (Js.orNull (add_selectedSize data))) (cartItems sh) with
        | Some existing => ci_quantity existing
        | None => 0
        end + add_quantity data)%Z /\
     forall row, variantKey row <> variantKey it ->
                 (row ∈ cartItems sh' <-> row ∈ cartItems sh)).
Proof.
  intros [Hids Hvars] Hfresh Hrun.
  unfold addToCart, bindS, PrismaCart.product_findUnique, throwS in Hrun.
  destruct (products (base sh) !! add_productId data) as [p|] eqn:Hp.
  2:{ injection Hrun as <- <-. cart_failure. }
  destruct (inStock p) eqn:Hin; cbn [negb] in Hrun.
  2:{ injection Hrun as <- <-. cart_failure. }
  unfold PrismaCart.cartItem_findFirst_variant in Hrun.
  set (color := Js.orNull (add_selectedColor data)) in *.
  set (size := Js.orNull (add_selectedSize data)) in *.
  destruct (List.find (PrismaCart.sameVariant uid (add_productId data) color size)
              (cartItems sh)) as [ex|] eqn:Hfind.
  - destruct (stockCount p <? ci_quantity ex + add_quantity data)%Z eqn:Hstock.
    { injection Hrun as <- <-. cart_failure. }
    apply Z.ltb_ge in Hstock.
    pose proof (find_some _ _ Hfind) as [Hexin Hexkey].
    apply sameVariant_key in Hexkey. apply list_elem_of_In in Hexin.
    unfold PrismaCart.cartItem_update in Hrun.
    assert (Hfid : List.find (PrismaCart.hasId (ci_id ex)) (cartItems sh) <> None).
    { intros Hnone. apply list_elem_of_In in Hexin.
      pose proof (find_none _ _ Hnone ex Hexin) as Hf.
      unfold PrismaCart.hasId in Hf. now rewrite string_eqb_refl in Hf. }
    destruct (List.find (PrismaCart.hasId (ci_id ex)) (cartItems sh)) as [it0|] eqn:Hfid0;
      [|contradiction].
    assert (it0 = ex) as ->.
    { symmetry. apply (find_hasId_unique (ci_id ex) (cartItems sh) it0 ex Hids Hfid0 Hexin).
      unfold PrismaCart.hasId. apply string_eqb_refl. }
    cbn in Hrun. injection Hrun as <- <-.
    set (upd := fun it => mkCartItem (ci_id it) (ci_userId it) (ci_productId it)
                            (ci_quantity ex + add_quantity data)
                            (ci_selectedColor it) (ci_selectedSize it)).
    split; [|split; [reflexivity|split; [reflexivity|split; [discriminate|]]]].
    + split; cbn [cartItems set_cartItems];
        rewrite map_update_keeps by reflexivity; assumption.
    + intros it [= <-]. cbn [cartItems set_cartItems]. split.
      * apply list_elem_of_fmap. exists ex. split; [|exact Hexin].
        unfold PrismaCart.hasId. now rewrite string_eqb_refl.
      * split; [exact Hexkey|]. split; [exists p; split; [reflexivity|]; split; [assumption | cbn; lia]|].
        split; [reflexivity|].
        intros row Hne. rewrite list_elem_of_fmap. split.
        -- intros (row0 & -> & Hin0).
           destruct (PrismaCart.hasId (ci_id ex) row0) eqn:Hid; [|exact Hin0].
           exfalso. apply Hne.
           rewrite (find_hasId_unique _ _ _ _ Hids Hfid0 Hin0 Hid). reflexivity.
        -- intros Hrow. exists row. split; [|exact Hrow].
           destruct (PrismaCart.hasId (ci_id ex) row) eqn:Hid; [|reflexivity].
           exfalso. apply Hne.
           rewrite (find_hasId_unique _ _ _ _ Hids Hfid0 Hrow Hid). reflexivity.
  - destruct (stockCount p <? add_quantity data)%Z eqn:Hstock.
    { injection Hrun as <- <-. cart_failure. }
    apply Z.ltb_ge in Hstock.
    unfold PrismaCart.cartItem_create in Hrun. cbn [ci_id] in Hrun.
    destruct (List.find (PrismaCart.hasId newId) (cartItems sh)) as [clash|] eqn:Hclash.
    { exfalso. apply find_some in Hclash as [Hcin Hcid].
      apply Hfresh. apply list_elem_of_fmap. exists clash.
      unfold PrismaCart.hasId in Hcid. apply String.eqb_eq in Hcid.
      split; [now symmetry | now apply list_elem_of_In]. }
    cbn in Hrun. injection Hrun as <- <-.
    pose proof (find_variant_none _ _ _ _ _ Hfind) as Hnew.
    split; [|split; [reflexivity|split; [reflexivity|split; [discriminate|]]]].
    + split; cbn [cartItems set_cartItems]; rewrite map_app; cbn [map];
        apply NoDup_app; (split; [assumption|]);
        (split; [|apply NoDup_singleton]);
        intros x Hx Hx'; apply list_elem_of_singleton in Hx'; subst x; contradiction.
    + intros it [= <-]. cbn [cartItems set_cartItems]. split.
      * apply elem_of_app. right. now left.
      * split; [reflexivity|]. split; [exists p; split; [first [reflexivity | assumption]|]; split; [first [reflexivity | assumption] | cbn; lia]|].
        split; [cbn; lia|].
        intros row Hne. rewrite elem_of_app, list_elem_of_singleton. split.
        -- intros [Hrow | ->]; [exact Hrow | contradiction].
        -- intros Hrow. now left.
Qed.

Lemma addToCart_spec_witness :
  let sh := mkShop store0 [mkCartItem "c1" "u1" "p-lily" 2 None None] [] in
  let merged := mkCartItem "c1" "u1" "p-lily" 5 None None in
  addToCart "c2" "u1" (mkAddToCart "p-lily" 3 None None) sh
  = (Ok merged, set_cartItems (fun _ => [merged]) sh) /\
  cartWellFormed (set_cartItems (fun _ => [merged]) sh).
Proof.
  intros sh merged.
  assert (Hrun : addToCart "c2" "u1" (mkAddToCart "p-lily" 3 None None) sh
                 = (Ok merged, set_cartItems (fun _ => [merged]) sh)) by (vm_compute; reflexivity).
  split; [exact Hrun|].
  refine (proj1 (addToCart_spec "c2" "u1" (mkAddToCart "p-lily" 3 None None) sh
                   (Ok merged) (set_cartItems (fun _ => [merged]) sh) _ _ Hrun)).
  - split; cbn; apply NoDup_singleton.
  - cbn. intros Hin. apply list_elem_of_singleton in Hin. discriminate Hin.
Defined.

(** ** The totals of a cart *)

Lemma includeProducts_Ok rows : forall sh l sh',
  PrismaCart.includeProducts rows sh = (Ok l, sh') ->
  sh' = sh /\ map fst l = rows /\
  Forall (fun row => products (base sh) !! ci_productId (fst row) = Some (snd row)) l.
Proof.
  induction rows as [|row rows IH]; intros sh l sh' H.
  - cbn in H. injection H as <- <-. repeat split. constructor.
  - cbn [PrismaCart.includeProducts] in H.
    unfold bindS, PrismaCart.includeProduct, retS in H.
    destruct (products (base sh) !! ci_productId row) as [p|] eqn:Hp; [|discriminate].
    destruct (PrismaCart.includeProducts rows sh) as [[others|e] sh1] eqn:Hrest;
      [|discriminate].
    apply IH in Hrest as (-> & Hfst & Hall).
    injection H as <- <-. split; [reflexivity|]. split.
    + cbn. now rewrite Hfst.
    + constructor; [exact Hp | exact Hall].
Qed.

Lemma includeProducts_resolved rows : forall sh,
  Forall (fun it => is_Some (products (base sh) !! ci_productId it)) rows ->
  exists l, PrismaCart.includeProducts rows sh = (Ok l, sh).
Proof.
  induction rows as [|row rows IH]; intros sh Hall.
  - exists []. reflexivity.
  - apply Forall_cons in Hall as [[p Hp] Hall].
    destruct (IH sh Hall) as [l Hl].
    exists ((row, p) :: l). cbn [PrismaCart.includeProducts].
    unfold bindS, PrismaCart.includeProduct, retS. now rewrite Hp, Hl.
Qed.

Lemma includeProducts_unresolved rows : forall sh,
  Exists (fun it => products (base sh) !! ci_productId it = None) rows ->
  PrismaCart.includeProducts rows sh = (Err PrismaCart.inconsistent, sh).
Proof.
  induction rows as [|row rows IH]; intros sh Hex; [inversion Hex|].
  cbn [PrismaCart.includeProducts]. unfold bindS, PrismaCart.includeProduct, retS.
  destruct (products (base sh) !! ci_productId row) as [p|] eqn:Hp; [|reflexivity].
  apply Exists_cons in Hex as [Hex|Hex]; [congruence|].
  now rewrite (IH sh Hex).
Qed.

Lemma fold_cartValue (l : list (CartItem * Product)) : forall a,
  (fold_left (fun sum item => sum + price (snd item) * inject_Z (ci_quantity (fst item)))
     l a == a + cartValue l)%Q.
Proof.
  induction l as [|[it p] l IH]; intros a; cbn [fold_left cartValue].
  - ring.
  - rewrite IH. cbn [fst snd]. ring.
Qed.

Lemma fold_cartQuantity {A} (q : A -> Z) (l : list A) : forall a,
  fold_left (fun sum item => (sum + q item)%Z) l a
  = (a + fold_right (fun item sum => q item + sum) 0 l)%Z.
Proof.
  induction l as [|it l IH]; intros a; cbn [fold_left fold_right]; [lia|].
  rewrite IH. lia.
Qed.

Lemma cartQuantity_fold (l : list CartItem) :
  cartQuantity l = fold_right (fun item sum => (ci_quantity item + sum)%Z) 0%Z l.
Proof. induction l as [|it l IH]; cbn; [reflexivity | now rewrite IH]. Qed.

Lemma cartQuantity_app l l' :
  cartQuantity (l ++ l') = (cartQuantity l + cartQuantity l')%Z.
Proof. induction l as [|it l IH]; cbn; [reflexivity | rewrite IH; lia]. Qed.

Lemma cartQuantity_rev l : cartQuantity (rev l) = cartQuantity l.
Proof.
  induction l as [|it l IH]; cbn; [reflexivity|].
  rewrite cartQuantity_app, IH. cbn. lia.
Qed.

Lemma calculateShipping_proper a b :
  (a == b)%Q -> calculateShipping a = calculateShipping b.
Proof.
  intros H. unfold calculateShipping, Js.geQ.
  assert (H50 : Qle_bool 50 a = Qle_bool 50 b) by now rewrite H.
  assert (H25 : Qle_bool 25 a = Qle_bool 25 b) by now rewrite H.
  now rewrite H50, H25.
Qed.

Lemma calculateTax_proper a b rate :
  (a == b)%Q -> calculateTax a rate = calculateTax b rate.
Proof.
  intros H. unfold calculateTax, Js.Math_round.
  assert (Hf : Qfloor (a * rate * 100 + (1 # 2)) = Qfloor (b * rate * 100 + (1 # 2)))
    by now rewrite H.
  now rewrite Hf.
Qed.

Lemma getCart_run uid sh l :
  PrismaCart.includeProducts (linesOf uid sh) sh = (Ok l, sh) ->
  getCart uid sh
  = (Ok (let subtotal :=
           fold_left (fun sum item =>
                        (sum + price (snd item) * inject_Z (ci_quantity (fst item)))%Q) l 0%Q in
         let shipping := calculateShipping subtotal in
         let tax := calculateTax (subtotal + shipping)%Q defaultTaxRate in
         mkCart l subtotal shipping tax 0 (subtotal + shipping + tax)%Q
           (fold_left (fun sum item => (sum + ci_quantity (fst item))%Z) l 0%Z)), sh).
Proof.
  intros Hl. unfold getCart, bindS, PrismaCart.cartItem_findMany, retS.
  unfold linesOf in Hl. now rewrite Hl.
Qed.

Lemma getCartItemCount_run uid sh :
  getCartItemCount uid sh = (Ok (cartQuantity (linesOf uid sh)), sh).
Proof.
  unfold getCartItemCount, bindS, PrismaCart.cartItem_sum_quantity, retS, linesOf.
  rewrite cartQuantity_rev.
  destruct (List.filter (PrismaCart.ofUser uid) (cartItems sh)) as [|it rows] eqn:Hrows;
    [reflexivity|].
  rewrite (fold_cartQuantity ci_quantity), <- cartQuantity_fold. cbn [Js.truthyZ default].
  rewrite Z.add_0_l.
  destruct (cartQuantity (it :: rows)) eqn:Hq; reflexivity.
Qed.

(** X18. [getCart] reads the lines of the user, newest first, each with its
    product, and writes nothing.  When every line's product is in the
    catalog, the subtotal is the sum of price times quantity over the
    lines, the discount is 0, the total is the subtotal plus its shipping
    and tax, and the item count is the sum of the quantities, which is
    also what [getCartItemCount] answers.  When a line's product is
    missing, [getCart] fails with the client's error, while
    [getCartItemCount] still answers. *)
Theorem getCart_spec uid sh :
  (Forall (fun it => is_Some (products (base sh) !! ci_productId it)) (linesOf uid sh) ->
   exists c,
     getCart uid sh = (Ok c, sh) /\
     map fst (cart_items c) = linesOf uid sh /\
     Forall (fun row => products (base sh) !! ci_productId (fst row) = Some (snd row))
       (cart_items c) /\
     (cart_subtotal c == cartValue (cart_items c))%Q /\
     cart_discount c = 0%Q /\
     (cart_total c == payable (cart_subtotal c))%Q /\
     cart_itemCount c = cartQuantity (linesOf uid sh) /\
     getCartItemCount uid sh = (Ok (cart_itemCount c), sh)) /\
  (Exists (fun it => products (base sh) !! ci_productId it = None) (linesOf uid sh) ->
   getCart uid sh = (Err PrismaCart.inconsistent, sh) /\
   getCartItemCount uid sh = (Ok (cartQuantity (linesOf uid sh)), sh)).
Proof.
  split.
  - intros Hall. destruct (includeProducts_resolved _ _ Hall) as [l Hl].
    pose proof (includeProducts_Ok _ _ _ _ Hl) as (_ & Hfst & Hres).
    eexists. split; [apply (getCart_run uid sh l Hl)|]. cbn zeta.
    cbn [cart_items cart_subtotal cart_discount cart_total cart_itemCount].
    split; [exact Hfst|]. split; [exact Hres|].
    split; [rewrite fold_cartValue; ring|]. split; [reflexivity|].
    split; [unfold payable; reflexivity|].
    assert (Hcount : fold_left (fun sum item => (sum + ci_quantity (fst item))%Z) l 0%Z
                     = cartQuantity (linesOf uid sh)).
    { rewrite (fold_cartQuantity (fun item => ci_quantity (fst item))), <- Hfst.
      rewrite cartQuantity_fold, Z.add_0_l.
      clear. induction l as [|row l IH]; cbn; [reflexivity | now rewrite IH]. }
    split; [exact Hcount|]. rewrite Hcount. apply getCartItemCount_run.
  - intros Hex. split; [|apply getCartItemCount_run].
    unfold getCart, bindS, PrismaCart.cartItem_findMany.
    unfold linesOf in Hex. now rewrite (includeProducts_unresolved _ _ Hex).
Qed.

Lemma getCart_spec_witness :
  let sh := mkShop store0 [mkCartItem "c1" "u1" "p-lily" 2 None None;
                           mkCartItem "c2" "u1" "p-rose" 1 None None;
                           mkCartItem "c3" "u2" "p-rose" 4 None None] [] in
  (exists c, getCart "u1" sh = (Ok c, sh) /\ cart_itemCount c = 3%Z /\
             (cart_total c == payable (cart_subtotal c))%Q) /\
  getCart "u1" (mkShop store0 [mkCartItem "c1" "u1" "p-gone" 2 None None] [])
  = (Err PrismaCart.inconsistent,
     mkShop store0 [mkCartItem "c1" "u1" "p-gone" 2 None None] []).
Proof.
  intros sh. split.
  - destruct (proj1 (getCart_spec "u1" sh)) as (c & Hrun & _ & _ & _ & _ & Htot & Hcount & _).
    + unfold linesOf. cbn. repeat constructor; eexists; vm_compute; reflexivity.
    + exists c. split; [exact Hrun|]. split; [|exact Htot]. rewrite Hcount. reflexivity.
  - apply (proj2 (getCart_spec "u1" _)).
    unfold linesOf. cbn. left. vm_compute. reflexivity.
Defined.

(** ** The cart and the order made from it *)

Lemma frozen_lines_value s (l : list (CartItem * Product)) : forall ois,
  Forall (fun row => products s !! ci_productId (fst row) = Some (snd row)) l ->
  Forall2 (frozenLine s)
    (map (fun row => mkItemReq (ci_productId (fst row)) (ci_quantity (fst row))
                       (ci_selectedColor (fst row)) (ci_selectedSize (fst row))) l) ois ->
  (sumLines ois == cartValue l)%Q.
Proof.
  induction l as [|[it p] l IH]; intros ois Hres Hfrozen.
  - inversion Hfrozen. reflexivity.
  - cbn [map] in Hfrozen. inversion Hfrozen as [|item oi todo ois' Hline Hrest]; subst.
    apply Forall_cons in Hres as [Hp Hres]. cbn [fst snd] in Hp.
    destruct Hline as (p' & Hp' & _ & ->). cbn [productId fst] in Hp'.
    assert (p' = p) as -> by congruence.
    cbn [sumLines cartValue]. rewrite (IH ois' Hres Hrest).
    unfold lineTotal. cbn. ring.
Qed.

Lemma getCart_Ok uid sh c sh' :
  getCart uid sh = (Ok c, sh') ->
  sh' = sh /\
  map fst (cart_items c) = linesOf uid sh /\
  Forall (fun row => products (base sh) !! ci_productId (fst row) = Some (snd row))
    (cart_items c) /\
  (cart_subtotal c == cartValue (cart_items c))%Q /\
  cart_shipping c = calculateShipping (cart_subtotal c) /\
  cart_tax c = calculateTax (cart_subtotal c + cart_shipping c) defaultTaxRate /\
  cart_discount c = 0%Q /\
  cart_total c = (cart_subtotal c + cart_shipping c + cart_tax c)%Q.
Proof.
  intros Hcart.
  unfold getCart, bindS, PrismaCart.cartItem_findMany, retS in Hcart.
  destruct (PrismaCart.includeProducts _ sh) as [[l|e] sh1] eqn:Hl; [|discriminate].
  apply includeProducts_Ok in Hl as (-> & Hfst & Hres).
  injection Hcart as <- <-.
  cbn [cart_items cart_subtotal cart_shipping cart_tax cart_discount cart_total].
  split; [reflexivity|]. split; [exact Hfst|]. split; [exact Hres|].
  split; [rewrite fold_cartValue; ring|]. repeat split.
Qed.

(** X19. The totals [getCart] shows are the ones [createOrder] charges: an
    order without coupon that asks for the lines of the cart has the
    cart's subtotal, shipping, tax and total, and no discount. *)
Theorem getCart_previews_createOrder fresh now uid ship bill sh c sh' o s' :
  getCart uid sh = (Ok c, sh') ->
  createOrder fresh now uid (requestOf c ship bill) (base sh) = (Ok o, s') ->
  (subtotal o == cart_subtotal c)%Q /\
  shipping o = cart_shipping c /\
  tax o = cart_tax c /\
  discount o = 0%Q /\
  (total o == cart_total c)%Q.
Proof.
  intros Hcart Horder.
  apply getCart_Ok in Hcart as (_ & _ & Hres & Hvalue & Hship & Htax & _ & Htotal).
  apply createOrder_Ok in Horder as (sub & ois & d & Hv & Hd & ->).
  apply (f_equal fst) in Hv. cbn [fst] in Hv.
  apply validateItems_Ok in Hv as (news & -> & Hfrozen & Hsub).
  cbn [requestOf couponCode] in Hd. unfold discountFor in Hd. cbn in Hd.
  injection Hd as <-.
  cbn [requestOf req_items] in Hfrozen.
  assert (Hval : (sumLines news == cartValue (cart_items c))%Q).
  { eapply frozen_lines_value; [|exact Hfrozen]. exact Hres. }
  assert (Hsame : (sub == cart_subtotal c)%Q).
  { rewrite Hsub, Hval, Hvalue. ring. }
  unfold orderRow. cbn [subtotal shipping tax discount total].
  rewrite Htotal, Htax, Hship.
  rewrite <- (calculateShipping_proper _ _ Hsame).
  assert (Heq : calculateTax (sub + calculateShipping sub) defaultTaxRate
                = calculateTax (cart_subtotal c + calculateShipping sub) defaultTaxRate).
  { apply calculateTax_proper. apply Qplus_inj_r. exact Hsame. }
  rewrite <- Heq.
  split; [exact Hsame|]. split; [reflexivity|]. split; [reflexivity|].
  split; [reflexivity|]. rewrite <- Hsame. ring.
Qed.

Lemma getCart_previews_createOrder_witness :
  let sh := mkShop store0 [mkCartItem "c1" "u1" "p-lily" 2 None None;
                           mkCartItem "c2" "u1" "p-rose" 1 None None] [] in
  match getCart "u1" sh with
  | (Ok c, _) =>
      match createOrder fresh1 0 "u1" (requestOf c home home) (base sh) with
      | (Ok o, _) => (total o == cart_total c)%Q
      | (Err _, _) => False
      end
  | (Err _, _) => False
  end.
Proof.
  intros sh.
  set (r := getCart "u1" sh). vm_compute in r. subst r. cbv iota beta.
  match goal with
  | |- match createOrder _ _ _ (requestOf ?c _ _) _ with _ => _ end =>
      set (r := createOrder fresh1 0 "u1" (requestOf c home home) (base sh));
      vm_compute in r; subst r; cbv iota beta
  end.
  refine (proj2 (proj2 (proj2 (proj2
            (getCart_previews_createOrder fresh1 0 "u1" home home sh _ sh _ _ _ _)))));
    vm_compute; reflexivity.
Defined.

(** ** Emptying the cart, and the other users' lines *)

Lemma filter_filter_neg {A} (f : A -> bool) (l : list A) :
  List.filter f (List.filter (fun x => negb (f x)) l) = [].
Proof.
  induction l as [|x l IH]; cbn; [reflexivity|].
  destruct (f x) eqn:Hf; cbn; [exact IH | now rewrite Hf].
Qed.

Lemma filter_idem {A} (f : A -> bool) (l : list A) :
  List.filter f (List.filter f l) = List.filter f l.
Proof.
  induction l as [|x l IH]; cbn; [reflexivity|].
  destruct (f x) eqn:Hf; cbn; [rewrite Hf; now f_equal | exact IH].
Qed.

(** X20. [clearCart] always succeeds and removes exactly the lines of the
    user: the lines of every other user, the catalog and the wishlist are as
    before.  Afterwards [getCart] shows no line, an item count of 0 and a
    subtotal of 0, and [getCartItemCount] answers 0.  Clearing again changes
    nothing.  On binary64 numbers the figures of a cart without lines are a
    subtotal of 0, a shipping fee of 9.99, a tax of 0.8 and the unrounded
    total 10.790000000000001, one unit in the last place above 10.79. *)
Theorem clearCart_spec uid sh :
  let sh' := snd (clearCart uid sh) in
  clearCart uid sh = (Ok tt, sh') /\
  linesOf uid sh' = [] /\
  linesOfOthers uid sh' = linesOfOthers uid sh /\
  base sh' = base sh /\ wishlistItems sh' = wishlistItems sh /\
  (exists c, getCart uid sh' = (Ok c, sh') /\ cart_items c = [] /\
             cart_itemCount c = 0%Z /\ (cart_subtotal c == 0)%Q) /\
  getCartItemCount uid sh' = (Ok 0%Z, sh') /\
  clearCart uid sh' = (Ok tt, sh') /\
  pricing64.cartFigures []
  = pricing64.mkFigures (Double.ofZ 0) (Double.ofQ 9.99) (Double.ofQ 0.8) (Double.ofZ 0)
      (S754_finite false 6074229997415957 (-49)) /\
  Double.ofQ 10.79 = S754_finite false 6074229997415956 (-49).
Proof.
  cbn zeta. unfold clearCart, PrismaCart.cartItem_deleteMany. cbn [snd].
  set (sh' := set_cartItems _ sh).
  assert (Hlines : linesOf uid sh' = []).
  { unfold linesOf, sh'. cbn [cartItems set_cartItems].
    now rewrite (filter_filter_neg (PrismaCart.ofUser uid)). }
  split; [reflexivity|]. split; [exact Hlines|]. split.
  { unfold linesOfOthers, sh'. cbn [cartItems set_cartItems].
    apply (filter_idem (fun it => negb (PrismaCart.ofUser uid it))). }
  split; [reflexivity|]. split; [reflexivity|].
  split; [|split; [|split; [|split; vm_compute; reflexivity]]].
  - eexists. split.
    + apply (getCart_run uid sh' []). rewrite Hlines. reflexivity.
    + cbn. repeat split; vm_compute; reflexivity.
  - rewrite getCartItemCount_run, Hlines. reflexivity.
  - unfold sh', set_cartItems. cbn [base cartItems wishlistItems].
    now rewrite (filter_idem (fun it => negb (PrismaCart.ofUser uid it))).
Qed.

(** ** What a cart operation changes *)

Lemma id_unique (rows : list CartItem) it row :
  NoDup (map ci_id rows) -> it ∈ rows -> row ∈ rows -> ci_id row = ci_id it -> row = it.
Proof.
  intros Hnd Hit Hrow Hid.
  induction rows as [|r rows IH]; [inversion Hit|].
  cbn in Hnd. apply NoDup_cons in Hnd as [Hfresh Hnd].
  apply elem_of_cons in Hit as [->|Hit]; apply elem_of_cons in Hrow as [->|Hrow];
    try reflexivity.
  - exfalso. apply Hfresh. apply list_elem_of_fmap. exists row. split; [congruence | exact Hrow].
  - exfalso. apply Hfresh. apply list_elem_of_fmap. exists it. split; [congruence | exact Hit].
  - now apply IH.
Qed.

Lemma find_owned id uid rows it :
  List.find (fun it => PrismaCart.hasId id it && PrismaCart.ofUser uid it) rows = Some it ->
  it ∈ rows /\ ci_id it = id /\ ci_userId it = uid.
Proof.
  intros Hfind. apply find_some in Hfind as [Hin Htest].
  apply andb_true_iff in Htest as [Hid Hu].
  unfold PrismaCart.hasId, PrismaCart.ofUser in *.
  apply String.eqb_eq in Hid, Hu. split; [now apply list_elem_of_In | now split].
Qed.

Lemma find_hasId_Some id rows it :
  it ∈ rows -> ci_id it = id -> List.find (PrismaCart.hasId id) rows <> None.
Proof.
  intros Hin Hid Hnone. apply list_elem_of_In in Hin.
  pose proof (find_none _ _ Hnone it Hin) as Hf.
  unfold PrismaCart.hasId in Hf. rewrite Hid, string_eqb_refl in Hf. discriminate.
Qed.

Lemma filter_delete_others {A} (P test : A -> bool) (rows : list A) :
  (forall row, row ∈ rows -> test row = true -> P row = false) ->
  List.filter P (List.filter (fun row => negb (test row)) rows) = List.filter P rows.
Proof.
  induction rows as [|r rows IH]; intros Htest; [reflexivity|]. cbn.
  assert (IH' : List.filter P (List.filter (fun row => negb (test row)) rows)
                = List.filter P rows).
  { apply IH. intros row Hrow. apply Htest. now right. }
  destruct (test r) eqn:Ht; cbn.
  - rewrite (Htest r (list_elem_of_here _ _) Ht). exact IH'.
  - now rewrite IH'.
Qed.

Lemma filter_update_others {A} (P test : A -> bool) (upd : A -> A) (rows : list A) :
  (forall row, row ∈ rows -> test row = true -> P row = false /\ P (upd row) = false) ->
  List.filter P (map (fun row => if test row then upd row else row) rows)
  = List.filter P rows.
Proof.
  induction rows as [|r rows IH]; intros Htest; [reflexivity|]. cbn.
  assert (IH' : List.filter P (map (fun row => if test row then upd row else row) rows)
                = List.filter P rows).
  { apply IH. intros row Hrow. apply Htest. now right. }
  destruct (test r) eqn:Ht.
  - destruct (Htest r (list_elem_of_here _ _) Ht) as [-> ->]. exact IH'.
  - now rewrite IH'.
Qed.

(** The three ways [addToCart] can end. *)
Lemma addToCart_cases newId uid data sh r sh' :
  addToCart newId uid data sh = (r, sh') ->
  (exists e, r = Err e /\ sh' = sh) \/
  (exists p ex it0,
     products (base sh) !! add_productId data = Some p /\ inStock p = true /\
     (ci_quantity ex + add_quantity data <= stockCount p)%Z /\
     List.find (PrismaCart.sameVariant uid (add_productId data)
                  (Js.orNull (add_selectedColor data)) (Js.orNull (add_selectedSize data)))
       (cartItems sh) = Some ex /\
     List.find (PrismaCart.hasId (ci_id ex)) (cartItems sh) = Some it0 /\
     let upd := fun it => mkCartItem (ci_id it) (ci_userId it) (ci_productId it)
                            (ci_quantity ex + add_quantity data)
                            (ci_selectedColor it) (ci_selectedSize it) in
     r = Ok (upd it0) /\
     sh' = set_cartItems
             (map (fun row => if PrismaCart.hasId (ci_id ex) row then upd row else row)) sh) \/
  (exists p,
     products (base sh) !! add_productId data = Some p /\ inStock p = true /\
     (add_quantity data <= stockCount p)%Z /\
     let new := mkCartItem newId uid (add_productId data) (add_quantity data)
                  (Js.orNull (add_selectedColor data)) (Js.orNull (add_selectedSize data)) in
     r = Ok new /\ sh' = set_cartItems (fun rows => rows ++ [new])%list sh).
Proof.
  intros Hrun.
  unfold addToCart, bindS, PrismaCart.product_findUnique, throwS in Hrun.
  destruct (products (base sh) !! add_productId data) as [p|] eqn:Hp.
  2:{ injection Hrun as <- <-. left. eexists. now split. }
  destruct (inStock p) eqn:Hin; cbn [negb] in Hrun.
  2:{ injection Hrun as <- <-. left. eexists. now split. }
  unfold PrismaCart.cartItem_findFirst_variant in Hrun.
  destruct (List.find _ (cartItems sh)) as [ex|] eqn:Hfind.
  - destruct (stockCount p <? ci_quantity ex + add_quantity data)%Z eqn:Hstock.
    { injection Hrun as <- <-. left. eexists. now split. }
    apply Z.ltb_ge in Hstock. unfold PrismaCart.cartItem_update in Hrun.
    destruct (List.find (PrismaCart.hasId (ci_id ex)) (cartItems sh)) as [it0|] eqn:Hid.
    + cbn in Hrun. injection Hrun as <- <-. right. left.
      exists p, ex, it0. repeat split; assumption.
    + cbn in Hrun. injection Hrun as <- <-. left. eexists. now split.
  - destruct (stockCount p <? add_quantity data)%Z eqn:Hstock.
    { injection Hrun as <- <-. left. eexists. now split. }
    apply Z.ltb_ge in Hstock. unfold PrismaCart.cartItem_create in Hrun.
    cbn [ci_id] in Hrun.
    destruct (List.find (PrismaCart.hasId newId) (cartItems sh)) as [clash|].
    + injection Hrun as <- <-. left. eexists. now split.
    + cbn in Hrun. injection Hrun as <- <-. right. right.
      exists p. repeat split; assumption.
Qed.

Lemma addToCart_others newId uid data sh :
  NoDup (map ci_id (cartItems sh)) ->
  linesOfOthers uid (snd (addToCart newId uid data sh)) = linesOfOthers uid sh.
Proof.
  intros Hids.
  destruct (addToCart newId uid data sh) as [r sh'] eqn:Hrun. cbn [snd].
  apply addToCart_cases in Hrun
    as [(e & _ & ->) | [(p & ex & it0 & _ & _ & _ & Hfind & Hid & _ & ->)
                       | (p & _ & _ & _ & _ & ->)]];
    [reflexivity | |]; unfold linesOfOthers; cbn [cartItems set_cartItems].
  - apply filter_update_others. intros row Hrow Htest.
    apply find_some in Hfind as [Hex Hkey]. apply list_elem_of_In in Hex.
    apply sameVariant_key in Hkey. injection Hkey as Hu _ _ _.
    unfold PrismaCart.hasId in Htest. apply String.eqb_eq in Htest.
    rewrite (id_unique _ ex row Hids Hex Hrow Htest).
    cbn [ci_userId]. unfold PrismaCart.ofUser. cbn [ci_userId].
    rewrite Hu, string_eqb_refl. now split.
  - rewrite List.filter_app. cbn. unfold PrismaCart.ofUser. cbn [ci_userId].
    rewrite string_eqb_refl. cbn. apply app_nil_r.
Qed.

Lemma delete_owned_others uid id sh it :
  NoDup (map ci_id (cartItems sh)) ->
  it ∈ cartItems sh -> ci_id it = id -> ci_userId it = uid ->
  List.filter (fun row => negb (PrismaCart.ofUser uid row))
    (List.filter (fun row => negb (PrismaCart.hasId id row)) (cartItems sh))
  = linesOfOthers uid sh.
Proof.
  intros Hids Hin Hid Hu. apply filter_delete_others. intros row Hrow Htest.
  unfold PrismaCart.hasId in Htest. apply String.eqb_eq in Htest.
  rewrite (id_unique _ it row Hids Hin Hrow) by congruence.
  unfold PrismaCart.ofUser. now rewrite Hu, string_eqb_refl.
Qed.

Lemma removeFromCart_others uid id sh :
  NoDup (map ci_id (cartItems sh)) ->
  linesOfOthers uid (snd (removeFromCart uid id sh)) = linesOfOthers uid sh.
Proof.
  intros Hids. unfold removeFromCart, bindS, PrismaCart.cartItem_findFirst, throwS.
  destruct (List.find _ (cartItems sh)) as [it|] eqn:Hfind; [|reflexivity].
  apply find_owned in Hfind as (Hin & Hid & Hu).
  unfold PrismaCart.cartItem_delete.
  destruct (List.find (PrismaCart.hasId id) (cartItems sh)); [|reflexivity].
  cbn [snd]. unfold linesOfOthers at 1. cbn [cartItems set_cartItems].
  now apply (delete_owned_others uid id sh it).
Qed.

Lemma updateCartItem_others uid id data sh :
  NoDup (map ci_id (cartItems sh)) ->
  linesOfOthers uid (snd (updateCartItem uid id data sh)) = linesOfOthers uid sh.
Proof.
  intros Hids.
  unfold updateCartItem, bindS, PrismaCart.cartItem_findFirst, throwS,
    PrismaCart.includeProduct.
  destruct (List.find _ (cartItems sh)) as [it|] eqn:Hfind; [|reflexivity].
  apply find_owned in Hfind as (Hin & Hid & Hu).
  destruct (products (base sh) !! ci_productId it) as [p|]; [|reflexivity].
  cbn [snd].
  destruct (upc_quantity data <=? 0)%Z.
  - unfold PrismaCart.cartItem_delete.
    destruct (List.find (PrismaCart.hasId id) (cartItems sh)); [|reflexivity].
    cbn [snd]. unfold linesOfOthers at 1. cbn [cartItems set_cartItems].
    now apply (delete_owned_others uid id sh it).
  - destruct (stockCount p <? upc_quantity data)%Z; [reflexivity|].
    unfold PrismaCart.cartItem_update.
    destruct (List.find (PrismaCart.hasId id) (cartItems sh)); [|reflexivity].
    cbn [snd retS]. unfold linesOfOthers. cbn [cartItems set_cartItems].
    apply filter_update_others. intros row Hrow Htest.
    unfold PrismaCart.hasId in Htest. apply String.eqb_eq in Htest.
    rewrite (id_unique _ it row Hids Hin Hrow) by congruence.
    unfold PrismaCart.ofUser. cbn [ci_userId]. rewrite Hu, string_eqb_refl. now split.
Qed.

Lemma moveToCart_others newId uid wid q sh :
  NoDup (map ci_id (cartItems sh)) ->
  linesOfOthers uid (snd (moveToCart newId uid wid q sh)) = linesOfOthers uid sh.
Proof.
  intros Hids.
  unfold moveToCart, bindS, PrismaCart.wishlistItem_findFirst, throwS,
    PrismaCart.includeProduct.
  destruct (List.find _ (wishlistItems sh)) as [w|]; [|reflexivity].
  destruct (products (base sh) !! wi_productId w) as [p|]; [|reflexivity].
  cbn [snd].
  destruct (negb (inStock p) || (stockCount p <? q)%Z); [reflexivity|].
  pose proof (addToCart_others newId uid (mkAddToCart (wi_productId w) q None None) sh Hids)
    as Hadd.
  destruct (addToCart newId uid (mkAddToCart (wi_productId w) q None None) sh)
    as [[it|e] sh1]; cbn [snd] in *; [|exact Hadd].
  unfold PrismaCart.wishlistItem_delete.
  destruct (List.find (PrismaCart.wishHasId wid) (wishlistItems sh1)); exact Hadd.
Qed.

Lemma not_owned_not_found uid id rows :
  (forall it, it ∈ rows -> ci_id it = id -> ci_userId it <> uid) ->
  List.find (fun it => PrismaCart.hasId id it && PrismaCart.ofUser uid it) rows = None.
Proof.
  intros Hnot.
  destruct (List.find _ rows) as [it|] eqn:Hfind; [|reflexivity].
  apply find_owned in Hfind as (Hin & Hid & Hu). now destruct (Hnot it Hin Hid).
Qed.

(** X21. No cart operation of a user touches the lines of another user, as
    long as the ids of the cart table are distinct: after [addToCart],
    [updateCartItem], [removeFromCart], [moveToCart] and [clearCart], whether
    they succeed or fail, the lines of the others are the same.  Asking
    [removeFromCart] or [updateCartItem] for a line that is not the user's
    own gives 'Cart item not found' with status 404 and changes nothing. *)
Theorem cart_lines_private newId uid sh :
  NoDup (map ci_id (cartItems sh)) ->
  (forall data,
     linesOfOthers uid (snd (addToCart newId uid data sh)) = linesOfOthers uid sh) /\
  (forall id data,
     linesOfOthers uid (snd (updateCartItem uid id data sh)) = linesOfOthers uid sh) /\
  (forall id,
     linesOfOthers uid (snd (removeFromCart uid id sh)) = linesOfOthers uid sh) /\
  (forall wid q,
     linesOfOthers uid (snd (moveToCart newId uid wid q sh)) = linesOfOthers uid sh) /\
  linesOfOthers uid (snd (clearCart uid sh)) = linesOfOthers uid sh /\
  (forall id,
     (forall it, it ∈ cartItems sh -> ci_id it = id -> ci_userId it <> uid) ->
     removeFromCart uid id sh = (Err (AppError "Cart item not found" 404), sh) /\
     forall data,
       updateCartItem uid id data sh = (Err (AppError "Cart item not found" 404), sh)).
Proof.
  intros Hids.
  split; [intros; now apply addToCart_others|].
  split; [intros; now apply updateCartItem_others|].
  split; [intros; now apply removeFromCart_others|].
  split; [intros; now apply moveToCart_others|].
  split.
  - unfold clearCart, PrismaCart.cartItem_deleteMany, linesOfOthers.
    cbn [snd cartItems set_cartItems].
    apply (filter_idem (fun it => negb (PrismaCart.ofUser uid it))).
  - intros id Hnot. apply not_owned_not_found in Hnot.
    unfold removeFromCart, updateCartItem, bindS, PrismaCart.cartItem_findFirst, throwS.
    rewrite Hnot. split; [reflexivity | intros; reflexivity].
Qed.

Lemma cart_lines_private_witness :
  let mine := mkCartItem "c1" "u1" "p-lily" 2 None None in
  let theirs := mkCartItem "c2" "u2" "p-rose" 1 None None in
  let sh := mkShop store0 [mine; theirs] [] in
  linesOfOthers "u1" (snd (removeFromCart "u1" "c1" sh)) = [theirs] /\
  removeFromCart "u1" "c2" sh = (Err (AppError "Cart item not found" 404), sh).
Proof.
  intros mine theirs sh.
  assert (Hids : NoDup (map ci_id (cartItems sh))).
  { cbn. apply NoDup_cons. split; [|apply NoDup_singleton].
    intros Hin. apply list_elem_of_singleton in Hin. discriminate Hin. }
  destruct (cart_lines_private "c9" "u1" sh Hids) as (_ & _ & Hremove & _ & _ & Hnot).
  split.
  - rewrite Hremove. reflexivity.
  - apply (Hnot "c2"). intros it Hin Hid.
    apply elem_of_cons in Hin as [->|Hin]; [discriminate Hid|].
    apply list_elem_of_singleton in Hin. subst it. discriminate.
Defined.

(** ** The wishlist *)

Lemma find_wish_owned id uid rows w :
  List.find (fun it => PrismaCart.wishHasId id it && String.eqb (wi_userId it) uid) rows
  = Some w ->
  w ∈ rows /\ wi_id w = id /\ wi_userId w = uid.
Proof.
  intros Hfind. apply find_some in Hfind as [Hin Htest].
  apply andb_true_iff in Htest as [Hid Hu]. unfold PrismaCart.wishHasId in Hid.
  apply String.eqb_eq in Hid, Hu. split; [now apply list_elem_of_In | now split].
Qed.

Lemma find_wishHasId_Some id rows w :
  w ∈ rows -> wi_id w = id -> List.find (PrismaCart.wishHasId id) rows <> None.
Proof.
  intros Hin Hid Hnone. apply list_elem_of_In in Hin.
  pose proof (find_none _ _ Hnone w Hin) as Hf.
  unfold PrismaCart.wishHasId in Hf. rewrite Hid, string_eqb_refl in Hf. discriminate.
Qed.

(** X22. [moveToCart] does all or nothing.  Whatever error it ends with,
    the shop is as before.  When it succeeds, the wishlist entry was the
    user's, it is gone from the wishlist, its product is in stock with at
    least the requested quantity, and the returned line is in the cart with
    a quantity the stock count covers; the catalog is untouched. *)
Theorem moveToCart_spec newId uid wid q sh :
  match moveToCart newId uid wid q sh with
  | (Err e, sh') => sh' = sh
  | (Ok it, sh') =>
      exists w p,
        w ∈ wishlistItems sh /\ wi_id w = wid /\ wi_userId w = uid /\
        products (base sh) !! wi_productId w = Some p /\ inStock p = true /\
        (q <= stockCount p)%Z /\
        (ci_quantity it <= stockCount p)%Z /\
        it ∈ cartItems sh' /\
        wishlistItems sh'
        = List.filter (fun row => negb (PrismaCart.wishHasId wid row)) (wishlistItems sh) /\
        base sh' = base sh
  end.
Proof.
  unfold moveToCart, bindS, PrismaCart.wishlistItem_findFirst, throwS,
    PrismaCart.includeProduct.
  destruct (List.find _ (wishlistItems sh)) as [w|] eqn:Hfind; [|reflexivity].
  apply find_wish_owned in Hfind as (Hw & Hwid & Hwu).
  destruct (products (base sh) !! wi_productId w) as [p|] eqn:Hp; [|reflexivity].
  cbn [snd].
  destruct (negb (inStock p) || (stockCount p <? q)%Z) eqn:Hchk; [reflexivity|].
  apply orb_false_iff in Hchk as [Hin Hq].
  apply negb_false_iff in Hin. apply Z.ltb_ge in Hq.
  destruct (addToCart newId uid (mkAddToCart (wi_productId w) q None None) sh)
    as [r sh1] eqn:Hadd.
  apply addToCart_cases in Hadd
    as [(e & -> & ->) | [(p' & ex & it0 & Hp' & _ & Hstock & _ & Hid & Hr & ->)
                       | (p' & Hp' & _ & Hstock & Hr & ->)]];
    [reflexivity | |]; cbn zeta in Hr; subst r;
    cbn [add_productId add_quantity] in *;
    rewrite Hp in Hp'; injection Hp' as <-;
    unfold PrismaCart.wishlistItem_delete; cbn [wishlistItems set_cartItems];
    (destruct (List.find (PrismaCart.wishHasId wid) (wishlistItems sh)) eqn:Hdel;
       [|now destruct (find_wishHasId_Some wid _ w Hw Hwid)]);
    exists w, p; cbn [ci_quantity base cartItems wishlistItems set_wishlistItems];
    repeat (split; [first [assumption | reflexivity | lia]|]).
  - split; [|now split].
    apply find_some in Hid as [Hin0 Hid0]. apply list_elem_of_In in Hin0.
    apply list_elem_of_fmap. exists it0. now rewrite Hid0.
  - split; [|now split].
    apply elem_of_app. right. now left.
Qed.

Lemma find_wish_none uid pid rows :
  List.find (fun it => String.eqb (wi_userId it) uid && String.eqb (wi_productId it) pid) rows
  = None ->
  (uid, pid) ∉ map wishKey rows.
Proof.
  intros Hnone Hin. apply list_elem_of_fmap in Hin as (it & Hkey & Hin).
  apply list_elem_of_In in Hin. pose proof (find_none _ _ Hnone it Hin) as Hf.
  cbv beta in Hf. unfold wishKey in Hkey. injection Hkey as -> ->.
  now rewrite !string_eqb_refl in Hf.
Qed.

Lemma find_wish_some uid pid rows w :
  List.find (fun it => String.eqb (wi_userId it) uid && String.eqb (wi_productId it) pid) rows
  = Some w ->
  (uid, pid) ∈ map wishKey rows.
Proof.
  intros Hfind. apply find_some in Hfind as [Hin Htest].
  apply andb_true_iff in Htest as [Hu Hp]. apply String.eqb_eq in Hu, Hp.
  apply list_elem_of_fmap. exists w. unfold wishKey.
  split; [congruence | now apply list_elem_of_In].
Qed.

Lemma filter_absent id rows :
  id ∉ map wi_id rows ->
  List.filter (fun row => negb (PrismaCart.wishHasId id row)) rows = rows.
Proof.
  induction rows as [|r rows IH]; intros Hfresh; [reflexivity|]. cbn.
  unfold PrismaCart.wishHasId at 1.
  destruct (String.eqb (wi_id r) id) eqn:Heq.
  - apply String.eqb_eq in Heq. exfalso. apply Hfresh. cbn. rewrite Heq. left.
  - cbn. f_equal. apply IH. intros Hin. apply Hfresh. cbn. now right.
Qed.

Lemma count_after_delete (P : WishlistItem -> bool) rows w :
  NoDup (map wi_id rows) -> w ∈ rows -> P w = true ->
  (length (List.filter P
             (List.filter (fun row => negb (PrismaCart.wishHasId (wi_id w) row)) rows)) + 1
   = length (List.filter P rows))%nat.
Proof.
  intros Hnd Hin HP. induction rows as [|r rows IH]; [inversion Hin|].
  cbn [map] in Hnd. apply NoDup_cons in Hnd as [Hfresh Hnd]. cbn [List.filter].
  unfold PrismaCart.wishHasId at 1.
  apply elem_of_cons in Hin as [<-|Hin].
  - rewrite string_eqb_refl. cbn [negb]. rewrite HP. cbn [length].
    assert (Hkeep := filter_absent (wi_id w) rows Hfresh).
    rewrite Hkeep. lia.
  - destruct (String.eqb (wi_id r) (wi_id w)) eqn:Heq.
    + apply String.eqb_eq in Heq. exfalso. apply Hfresh. rewrite Heq.
      apply list_elem_of_fmap. now exists w.
    + cbn [negb List.filter]. destruct (P r); cbn [length]; rewrite <- (IH Hnd Hin); lia.
Qed.

(** X23. The wishlist never holds a product twice for one user.
    [addToWishlist] keeps the ids and the pairs of user and product of the
    table distinct; it answers 404 when the product is not in the catalog
    and 409 when the user already has it, and then changes nothing;
    otherwise it appends the entry, and the user's [getWishlistItemCount]
    grows by one.  The cart and the catalog are never touched. *)
Theorem addToWishlist_spec newId uid pid sh :
  wishlistWellFormed sh ->
  newId ∉ map wi_id (wishlistItems sh) ->
  match addToWishlist newId uid pid sh with
  | (Err e, sh') =>
      sh' = sh /\
      ((e = AppError "Product not found" 404 /\ products (base sh) !! pid = None) \/
       (e = AppError "Product is already in your wishlist" 409 /\
        is_Some (products (base sh) !! pid) /\
        (uid, pid) ∈ map wishKey (wishlistItems sh)))
  | (Ok it, sh') =>
      it = mkWishlistItem newId uid pid /\
      is_Some (products (base sh) !! pid) /\
      ((uid, pid) ∉ map wishKey (wishlistItems sh)) /\
      wishlistItems sh' = (wishlistItems sh ++ [it])%list /\
      cartItems sh' = cartItems sh /\ base sh' = base sh /\
      wishlistWellFormed sh' /\
      exists n, getWishlistItemCount uid sh = (Ok n, sh) /\
                getWishlistItemCount uid sh' = (Ok (n + 1)%Z, sh')
  end.
Proof.
  intros [Hids Hkeys] Hfresh.
  unfold addToWishlist, bindS, PrismaCart.product_findUnique, throwS,
    PrismaCart.wishlistItem_findFirst_product.
  destruct (products (base sh) !! pid) as [p|] eqn:Hp.
  2:{ split; [reflexivity|]. left. now split. }
  destruct (List.find _ (wishlistItems sh)) as [w|] eqn:Hfind.
  { split; [reflexivity|]. right. split; [reflexivity|]. split; [now exists p|].
    now apply (find_wish_some uid pid _ w). }
  apply find_wish_none in Hfind.
  unfold PrismaCart.wishlistItem_create. cbn [wi_id].
  destruct (List.find (PrismaCart.wishHasId newId) (wishlistItems sh)) as [clash|] eqn:Hclash.
  { exfalso. apply find_some in Hclash as [Hcin Hcid].
    unfold PrismaCart.wishHasId in Hcid. apply String.eqb_eq in Hcid.
    apply Hfresh. apply list_elem_of_fmap. exists clash.
    split; [now symmetry | now apply list_elem_of_In]. }
  cbn. split; [reflexivity|]. split; [now exists p|]. split; [exact Hfind|].
  split; [reflexivity|]. split; [reflexivity|]. split; [reflexivity|]. split.
  - split; cbn [wishlistItems set_wishlistItems]; rewrite map_app; cbn [map];
      apply NoDup_app; (split; [assumption|]);
      (split; [|apply NoDup_singleton]);
      intros x Hx Hx'; apply list_elem_of_singleton in Hx'; subst x; contradiction.
  - eexists. split; [reflexivity|].
    unfold getWishlistItemCount, PrismaCart.wishlistItem_count.
    cbn [wishlistItems set_wishlistItems]. f_equal. f_equal.
    rewrite List.filter_app, length_app. cbn. rewrite string_eqb_refl. cbn. lia.
Qed.

Lemma addToWishlist_spec_witness :
  let sh := mkShop store0 [] [mkWishlistItem "w1" "u1" "p-rose"] in
  fst (addToWishlist "w2" "u1" "p-rose" sh)
  = Err (AppError "Product is already in your wishlist" 409) /\
  fst (addToWishlist "w2" "u1" "p-lily" sh) = Ok (mkWishlistItem "w2" "u1" "p-lily").
Proof.
  intros sh.
  assert (Hwf : wishlistWellFormed sh) by (split; cbn; apply NoDup_singleton).
  assert (Hfresh : "w2" ∉ map wi_id (wishlistItems sh)).
  { cbn. intros Hin. apply list_elem_of_singleton in Hin. discriminate Hin. }
  split.
  - pose proof (addToWishlist_spec "w2" "u1" "p-rose" sh Hwf Hfresh) as H.
    destruct (addToWishlist "w2" "u1" "p-rose" sh) as [[it|e] sh'].
    + exfalso. destruct H as (_ & _ & Hnot & _). apply Hnot. cbn. left.
    + destruct H as (_ & [[_ Hnone] | [-> _]]); [|reflexivity].
      vm_compute in Hnone. discriminate Hnone.
  - pose proof (addToWishlist_spec "w2" "u1" "p-lily" sh Hwf Hfresh) as H.
    destruct (addToWishlist "w2" "u1" "p-lily" sh) as [[it|e] sh'].
    + destruct H as (-> & _). reflexivity.
    + exfalso. destruct H as (_ & [[_ Hnone] | (_ & _ & Hin)]).
      * vm_compute in Hnone. discriminate Hnone.
      * cbn in Hin. apply list_elem_of_singleton in Hin. discriminate Hin.
Defined.

(** X24. [removeFromWishlist] removes an entry only for its owner.  With
    distinct ids in the table: when the user has an entry under the id, the
    call succeeds, exactly that entry is gone, and the user's
    [getWishlistItemCount] is one less; when no entry under the id is the
    user's, the answer is 'Wishlist item not found' with status 404 and
    nothing changes. *)
Theorem removeFromWishlist_spec uid wid sh :
  NoDup (map wi_id (wishlistItems sh)) ->
  (forall w, w ∈ wishlistItems sh -> wi_id w = wid -> wi_userId w = uid ->
     exists sh',
       removeFromWishlist uid wid sh = (Ok tt, sh') /\
       (w ∉ wishlistItems sh') /\
       (forall row, row <> w -> (row ∈ wishlistItems sh' <-> row ∈ wishlistItems sh)) /\
       cartItems sh' = cartItems sh /\ base sh' = base sh /\
       (exists n, getWishlistItemCount uid sh' = (Ok n, sh') /\
                  getWishlistItemCount uid sh = (Ok (n + 1)%Z, sh))) /\
  ((forall w, w ∈ wishlistItems sh -> wi_id w = wid -> wi_userId w <> uid) ->
   removeFromWishlist uid wid sh = (Err (AppError "Wishlist item not found" 404), sh)).
Proof.
  intros Hids. split.
  - intros w Hin Hid Hu.
    unfold removeFromWishlist, bindS, PrismaCart.wishlistItem_findFirst, throwS.
    destruct (List.find _ (wishlistItems sh)) as [w0|] eqn:Hfind.
    2:{ exfalso. apply list_elem_of_In in Hin.
        pose proof (find_none _ _ Hfind w Hin) as Hf. cbv beta in Hf.
        unfold PrismaCart.wishHasId in Hf. now rewrite Hid, Hu, !string_eqb_refl in Hf. }
    unfold PrismaCart.wishlistItem_delete.
    destruct (List.find (PrismaCart.wishHasId wid) (wishlistItems sh)) eqn:Hdel;
      [|now destruct (find_wishHasId_Some wid _ w Hin Hid)].
    eexists. split; [reflexivity|]. cbn [wishlistItems cartItems base set_wishlistItems].
    split; [|split; [|split; [reflexivity|split; [reflexivity|]]]].
    + intros Hw. apply list_elem_of_In, filter_In in Hw as [_ Hw].
      unfold PrismaCart.wishHasId in Hw. now rewrite Hid, string_eqb_refl in Hw.
    + intros row Hne. rewrite !list_elem_of_In, filter_In, <- !list_elem_of_In. split.
      * now intros [Hrow _].
      * intros Hrow. split; [exact Hrow|].
        unfold PrismaCart.wishHasId.
        destruct (String.eqb (wi_id row) wid) eqn:Heq; [|reflexivity].
        apply String.eqb_eq in Heq. exfalso. apply Hne.
        clear Hfind Hdel. revert Hids Hin Hrow. generalize (wishlistItems sh).
        induction l as [|r rows IH]; intros Hnd Hw Hrow; [inversion Hw|].
        cbn in Hnd. apply NoDup_cons in Hnd as [Hfresh Hnd].
        apply elem_of_cons in Hw as [->|Hw]; apply elem_of_cons in Hrow as [->|Hrow];
          try reflexivity.
        -- exfalso. apply Hfresh. apply list_elem_of_fmap. exists row.
           split; [congruence | exact Hrow].
        -- exfalso. apply Hfresh. apply list_elem_of_fmap. exists w.
           split; [congruence | exact Hw].
        -- now apply IH.
    + eexists. split; [reflexivity|].
      unfold getWishlistItemCount, PrismaCart.wishlistItem_count.
      cbn [wishlistItems set_wishlistItems]. f_equal. f_equal.
      rewrite <- Hid.
      rewrite <- (count_after_delete (fun it => String.eqb (wi_userId it) uid)
                    (wishlistItems sh) w Hids Hin).
      * lia.
      * now rewrite Hu, string_eqb_refl.
  - intros Hnot.
    unfold removeFromWishlist, bindS, PrismaCart.wishlistItem_findFirst, throwS.
    destruct (List.find _ (wishlistItems sh)) as [w|] eqn:Hfind; [|reflexivity].
    apply find_wish_owned in Hfind as (Hin & Hid & Hu). now destruct (Hnot w Hin Hid).
Qed.

Lemma removeFromWishlist_spec_witness :
  let mine := mkWishlistItem "w1" "u1" "p-rose" in
  let theirs := mkWishlistItem "w2" "u2" "p-rose" in
  let sh := mkShop store0 [] [mine; theirs] in
  removeFromWishlist "u1" "w2" sh = (Err (AppError "Wishlist item not found" 404), sh) /\
  exists sh', removeFromWishlist "u1" "w1" sh = (Ok tt, sh') /\ mine ∉ wishlistItems sh'.
Proof.
  intros mine theirs sh.
  assert (Hids : NoDup (map wi_id (wishlistItems sh))).
  { cbn. apply NoDup_cons. split; [|apply NoDup_singleton].
    intros Hin. apply list_elem_of_singleton in Hin. discriminate Hin. }
  destruct (removeFromWishlist_spec "u1" "w2" sh Hids) as [_ Hnot].
  destruct (removeFromWishlist_spec "u1" "w1" sh Hids) as [Hown _].
  split.
  - apply Hnot. intros w Hin Hid.
    apply elem_of_cons in Hin as [->|Hin]; [discriminate Hid|].
    apply list_elem_of_singleton in Hin. subst w. discriminate.
  - destruct (Hown mine) as (sh' & Hrun & Hgone & _); [now left | reflexivity | reflexivity|].
    exists sh'. now split.
Defined.

(** * Properties of the handlers *)

Lemma ensureUser_inl user error :
  ensureUser user = inl error -> error = PlainError "User not authenticated".
Proof.
  unfold ensureUser. destruct user as [u|]; [destruct (Js.truthyStr _)|]; congruence.
Qed.

Lemma ensureUser_Some (u : User) :
  user_id u <> "" -> ensureUser (Some u) = inr (user_id u).
Proof.
  intros Hid. unfold ensureUser. destruct (user_id u); [contradiction | reflexivity].
Qed.

(** X25. Through the handlers, [updateCartItem] with a quantity of 0 or less
    is [removeFromCart]: when the products of the cart lines are in the
    catalog, both give the same response and leave the same shop, for every
    request.  The status 200 error the service throws after deleting the
    line never reaches the client as an error. *)
Theorem updateCartItem_nonpositive_is_removeFromCart user id body sh :
  (upc_quantity body <= 0)%Z ->
  cartResolved sh ->
  cartController.updateCartItem user id body sh = cartController.removeFromCart user id sh.
Proof.
  intros Hq Hres.
  unfold cartController.updateCartItem, cartController.removeFromCart, asyncHandler.
  destruct (ensureUser user) as [error|uid] eqn:Huser.
  { apply ensureUser_inl in Huser. subst error. reflexivity. }
  unfold updateCartItem, removeFromCart, bindS, PrismaCart.cartItem_findFirst, throwS.
  destruct (List.find _ (cartItems sh)) as [it|] eqn:Hfind; [|reflexivity].
  apply find_owned in Hfind as (Hin & Hid & Hu).
  unfold cartResolved in Hres. rewrite Forall_forall in Hres.
  destruct (Hres it Hin) as [p Hp].
  unfold PrismaCart.includeProduct. rewrite Hp.
  apply Z.leb_le in Hq. rewrite Hq.
  unfold PrismaCart.cartItem_delete.
  destruct (List.find (PrismaCart.hasId id) (cartItems sh)) eqn:Hdel;
    [reflexivity | now destruct (find_hasId_Some id _ it Hin Hid)].
Qed.

Lemma updateCartItem_nonpositive_is_removeFromCart_witness :
  let sh := mkShop store0 [mkCartItem "c1" "u1" "p-lily" 2 None None] [] in
  cartController.updateCartItem (Some (mkUser "u1" "USER")) "c1"
    (mkUpdateCartItem 0 None None) sh
  = (sendSuccess PNull "Item removed from cart" 200, mkShop store0 [] []).
Proof.
  intros sh.
  rewrite (updateCartItem_nonpositive_is_removeFromCart
             (Some (mkUser "u1" "USER")) "c1" (mkUpdateCartItem 0 None None) sh).
  - vm_compute. reflexivity.
  - cbn. lia.
  - unfold cartResolved. cbn. repeat constructor. eexists. vm_compute. reflexivity.
Defined.

Lemma order_handler_shape (lookup : M OrderWithProducts) (user : option User) s :
  (forall r s', lookup s = (r, s') -> s' = s) ->
  let handler :=
    asyncHandler (fun s =>
      match lookup s with
      | (Err e, s') => (inl (Raised e), s')
      | (Ok order, s') =>
          match ensureUser user with
          | inl error => (inl error, s')
          | inr uid =>
              if orderController.denied order uid user
              then (inr (sendError "Access denied" 403), s')
              else (inr (sendSuccess (POrder order) "Order retrieved" 200), s')
          end
      end) in
  snd (handler s) = s /\
  (forall o st msg,
     fst (handler s) = mkResponse st (SuccessBody (POrder o) msg) ->
     fst (lookup s) = Ok o /\ st = 200%Z /\
     exists u, user = Some u /\
               (userId (jo_order o) = user_id u \/ user_role u <> "user")) /\
  (forall u o,
     user = Some u -> user_id u <> "" -> fst (lookup s) = Ok o ->
     fst (handler s)
     = if String.eqb (userId (jo_order o)) (user_id u)
          || negb (String.eqb (user_role u) "user")
       then sendSuccess (POrder o) "Order retrieved" 200
       else sendError "Access denied" 403).
Proof.
  intros Hpure handler. unfold handler, asyncHandler.
  assert (Hs : snd (lookup s) = s).
  { destruct (lookup s) as [r s']. exact (Hpure _ _ eq_refl). }
  clear Hpure. destruct (lookup s) as [[order|e] s']; cbn [snd] in Hs; subst s'.
  - split; [|split].
    + destruct (ensureUser user); [reflexivity|].
      destruct (orderController.denied order s0 user); reflexivity.
    + destruct (ensureUser user) as [error|uid] eqn:Huser.
      * apply ensureUser_inl in Huser. subst error. intros o st msg H. discriminate H.
      * destruct (orderController.denied order uid user) eqn:Hdenied;
          intros o st msg H; [discriminate H|]. cbn in H.
        injection H as <- <- _. split; [reflexivity|]. split; [reflexivity|].
        unfold ensureUser in Huser. destruct user as [u|]; [|discriminate].
        destruct (Js.truthyStr _); [|discriminate]. injection Huser as <-.
        exists u. split; [reflexivity|].
        unfold orderController.denied in Hdenied.
        apply andb_false_iff in Hdenied as [Howner | Hrole].
        -- left. apply negb_false_iff, String.eqb_eq in Howner. exact Howner.
        -- right. now apply String.eqb_neq in Hrole.
    + intros u o -> Hid [= <-]. rewrite (ensureUser_Some u Hid).
      unfold orderController.denied.
      destruct (String.eqb (userId (jo_order order)) (user_id u));
        destruct (String.eqb (user_role u) "user"); reflexivity.
  - split; [destruct e; reflexivity|]. split.
    + intros o st msg H. destruct e; discriminate H.
    + intros u o _ _ H. discriminate H.
Qed.

Lemma getOrderById_pure orderId r s s' :
  orderQueries.getOrderById orderId s = (r, s') -> s' = s.
Proof.
  unfold orderQueries.getOrderById, bind, Prisma.order_findUnique, throw, includeItems.
  destruct (orders s !! orderId); [destruct (mapM _ _)|]; now intros [= _ <-].
Qed.

Lemma getOrderByNumber_pure num r s s' :
  orderQueries.getOrderByNumber num s = (r, s') -> s' = s.
Proof.
  unfold orderQueries.getOrderByNumber, bind, PrismaQueries.order_findUnique_number,
    throw, includeItems.
  destruct (head _); [destruct (mapM _ _)|]; now intros [= _ <-].
Qed.

Lemma stored_role_is_not_user role : role ∈ storedRoles -> String.eqb role "user" = false.
Proof.
  unfold storedRoles. intros Hin.
  repeat (apply elem_of_cons in Hin as [->|Hin]; [reflexivity|]).
  inversion Hin.
Qed.

(** X26. The two order lookups of the API write nothing.  A missing order
    is 'Order not found' with status 404 for everyone.  For a request with
    a user and an order the service finds, the answer is the order, with
    status 200, when the user placed it or the user's role is not the
    string 'user', and 'Access denied' with status 403 otherwise; no
    response carries an order in any other case.  The roles the program
    gives its users are 'USER', 'ADMIN' and 'SUPER_ADMIN', none of which is
    'user': with such a role every user is shown every order the service
    finds, whoever placed it. *)
Theorem order_lookup_access user orderId s :
  (snd (orderController.getOrderById user orderId s) = s /\
   snd (orderController.getOrderByNumber user orderId s) = s) /\
  (forall o st msg,
     fst (orderController.getOrderById user orderId s)
       = mkResponse st (SuccessBody (POrder o) msg) \/
     fst (orderController.getOrderByNumber user orderId s)
       = mkResponse st (SuccessBody (POrder o) msg) ->
     st = 200%Z /\
     exists u, user = Some u /\
               (userId (jo_order o) = user_id u \/ user_role u <> "user")) /\
  (orders s !! orderId = None ->
   fst (orderController.getOrderById user orderId s) = sendError "Order not found" 404) /\
  (forall u o,
     user = Some u -> user_id u <> "" ->
     (fst (orderQueries.getOrderById orderId s) = Ok o ->
      fst (orderController.getOrderById user orderId s)
      = if String.eqb (userId (jo_order o)) (user_id u)
           || negb (String.eqb (user_role u) "user")
        then sendSuccess (POrder o) "Order retrieved" 200
        else sendError "Access denied" 403) /\
     (fst (orderQueries.getOrderByNumber orderId s) = Ok o ->
      fst (orderController.getOrderByNumber user orderId s)
      = if String.eqb (userId (jo_order o)) (user_id u)
           || negb (String.eqb (user_role u) "user")
        then sendSuccess (POrder o) "Order retrieved" 200
        else sendError "Access denied" 403) /\
     (user_role u ∈ storedRoles ->
      (fst (orderQueries.getOrderById orderId s) = Ok o ->
       fst (orderController.getOrderById user orderId s)
       = sendSuccess (POrder o) "Order retrieved" 200) /\
      (fst (orderQueries.getOrderByNumber orderId s) = Ok o ->
       fst (orderController.getOrderByNumber user orderId s)
       = sendSuccess (POrder o) "Order retrieved" 200))).
Proof.
  pose proof (order_handler_shape (orderQueries.getOrderById orderId) user s
                (fun r s' => getOrderById_pure orderId r s s')) as (Hs1 & Hp1 & Ha1).
  pose proof (order_handler_shape (orderQueries.getOrderByNumber orderId) user s
                (fun r s' => getOrderByNumber_pure orderId r s s')) as (Hs2 & Hp2 & Ha2).
  cbn zeta in *.
  split; [split; [exact Hs1 | exact Hs2]|]. split; [|split].
  - intros o st msg [H | H]; [apply Hp1 in H | apply Hp2 in H];
      destruct H as (_ & Hst & Hu); now split.
  - intros Hnone. unfold orderController.getOrderById, asyncHandler,
      orderQueries.getOrderById, bind, Prisma.order_findUnique, throw.
    rewrite Hnone. reflexivity.
  - intros u o Hu Hid.
    split; [exact (Ha1 u o Hu Hid)|]. split; [exact (Ha2 u o Hu Hid)|].
    intros Hrole. apply stored_role_is_not_user in Hrole. split; intros Hfound.
    + unfold orderController.getOrderById. rewrite (Ha1 u o Hu Hid Hfound), Hrole.
      now rewrite orb_true_r.
    + unfold orderController.getOrderByNumber. rewrite (Ha2 u o Hu Hid Hfound), Hrole.
      now rewrite orb_true_r.
Qed.

Lemma order_lookup_access_witness :
  fst (orderController.getOrderById (Some (mkUser "u2" "USER")) "order-7" store1)
  = sendSuccess (POrder (mkJoined placed [rose; lily]))
      "Order retrieved" 200 /\
  userId placed = "u1".
Proof.
  split; [|reflexivity].
  destruct (order_lookup_access (Some (mkUser "u2" "USER")) "order-7" store1)
    as (_ & _ & _ & H).
  destruct (H (mkUser "u2" "USER") (mkJoined placed [rose; lily])
              eq_refl ltac:(discriminate)) as (_ & _ & Hstored).
  apply Hstored; [cbn; left | vm_compute; reflexivity].
Defined.

(** X27. The role checks of the routes compare the role with lowercase
    strings.  [adminOnly] lets a request through exactly when
    [authorize('admin', 'super_admin')] does, which is when there is a user
    whose role is the string 'admin' or 'super_admin'; [superAdminOnly]
    exactly when [authorize('super_admin')] does; the rejections have the
    same status, 401 without a user and 403 otherwise; whoever passes
    [superAdminOnly] passes [adminOnly]; [authorize] with no role lets
    nobody through.  With each of the roles the program gives its users,
    'USER', 'ADMIN' and 'SUPER_ADMIN', [adminOnly] and [superAdminOnly]
    answer 403. *)
Theorem adminOnly_is_authorize user :
  (authMiddleware.adminOnly user = None
   <-> authMiddleware.authorize ["admin"; "super_admin"] user = None) /\
  (authMiddleware.adminOnly user = None
   <-> exists u, user = Some u /\ (user_role u = "admin" \/ user_role u = "super_admin")) /\
  (authMiddleware.superAdminOnly user = None
   <-> authMiddleware.authorize ["super_admin"] user = None) /\
  res_statusCode <$> authMiddleware.adminOnly user
  = res_statusCode <$> authMiddleware.authorize ["admin"; "super_admin"] user /\
  res_statusCode <$> authMiddleware.superAdminOnly user
  = res_statusCode <$> authMiddleware.authorize ["super_admin"] user /\
  (authMiddleware.superAdminOnly user = None -> authMiddleware.adminOnly user = None) /\
  authMiddleware.authorize [] user <> None /\
  (forall u, user = Some u -> user_role u ∈ storedRoles ->
     authMiddleware.adminOnly user = Some (sendForbidden "Admin access required") /\
     authMiddleware.superAdminOnly user
     = Some (sendForbidden "Super admin access required")).
Proof.
  destruct user as [u|].
  2:{ cbn. repeat split; try discriminate; try (intros (u & [=] & _)). }
  assert (Hstored : forall role, role ∈ storedRoles ->
            String.eqb role "admin" = false /\ String.eqb role "super_admin" = false).
  { unfold storedRoles. intros role Hin.
    repeat (apply elem_of_cons in Hin as [->|Hin]; [split; reflexivity|]).
    inversion Hin. }
  assert (Hlast : forall u0, Some u = Some u0 -> user_role u0 ∈ storedRoles ->
            authMiddleware.adminOnly (Some u)
            = Some (sendForbidden "Admin access required") /\
            authMiddleware.superAdminOnly (Some u)
            = Some (sendForbidden "Super admin access required")).
  { intros u0 [= <-] Hin. apply Hstored in Hin as [Ha Hs].
    unfold authMiddleware.adminOnly, authMiddleware.superAdminOnly.
    rewrite Ha, Hs. split; reflexivity. }
  revert Hlast.
  unfold authMiddleware.adminOnly, authMiddleware.superAdminOnly,
    authMiddleware.authorize. cbn [existsb].
  destruct (String.eqb (user_role u) "admin") eqn:Ha;
    destruct (String.eqb (user_role u) "super_admin") eqn:Hs;
    cbn [negb andb orb fmap option_fmap option_map res_statusCode sendForbidden];
    intros Hlast; split_and!; try exact Hlast; try discriminate; try reflexivity;
    try (split; intros; (reflexivity || discriminate)).
  - split; [intros _|reflexivity]. exists u. apply String.eqb_eq in Ha.
    split; [reflexivity | now left].
  - split; [intros _|reflexivity]. exists u. apply String.eqb_eq in Ha.
    split; [reflexivity | now left].
  - split; [intros _|reflexivity]. exists u. apply String.eqb_eq in Hs.
    split; [reflexivity | now right].
  - apply String.eqb_neq in Ha, Hs. split; [discriminate|].
    intros (u' & [= <-] & [H | H]); contradiction.
Qed.

Lemma adminOnly_is_authorize_witness :
  authMiddleware.adminOnly (Some (mkUser "a1" "SUPER_ADMIN"))
  = Some (sendForbidden "Admin access required").
Proof.
  apply (proj2 (proj2 (proj2 (proj2 (proj2 (proj2 (proj2
           (adminOnly_is_authorize (Some (mkUser "a1" "SUPER_ADMIN")))))))))
           (mkUser "a1" "SUPER_ADMIN") eq_refl).
  cbn. right. right. left.
Defined.

(** ** Changing a cart line *)

Lemma find_owned_is uid id rows it :
  NoDup (map ci_id rows) -> it ∈ rows -> ci_id it = id -> ci_userId it = uid ->
  List.find (fun it => PrismaCart.hasId id it && PrismaCart.ofUser uid it) rows = Some it.
Proof.
  intros Hids Hin Hid Hu.
  destruct (List.find _ rows) as [it0|] eqn:Hfind.
  - apply find_owned in Hfind as (Hin0 & Hid0 & _).
    f_equal. apply (id_unique rows it it0 Hids Hin Hin0). congruence.
  - apply list_elem_of_In in Hin. pose proof (find_none _ _ Hfind it Hin) as Hf.
    cbv beta in Hf. unfold PrismaCart.hasId, PrismaCart.ofUser in Hf.
    now rewrite Hid, Hu, !string_eqb_refl in Hf.
Qed.

Lemma find_hasId_is id rows it :
  NoDup (map ci_id rows) -> it ∈ rows -> ci_id it = id ->
  List.find (PrismaCart.hasId id) rows = Some it.
Proof.
  intros Hids Hin Hid.
  destruct (List.find _ rows) as [it0|] eqn:Hfind.
  - apply find_some in Hfind as [Hin0 Hid0]. apply list_elem_of_In in Hin0.
    unfold PrismaCart.hasId in Hid0. apply String.eqb_eq in Hid0.
    f_equal. apply (id_unique rows it it0 Hids Hin Hin0). congruence.
  - now destruct (find_hasId_Some id rows it Hin Hid).
Qed.

(** X28. [updateCartItem] with a positive quantity on a line of the user
    whose product is in the catalog, the ids of the table being distinct:
    a quantity above the stock count is refused with 'Insufficient stock'
    and status 400, and nothing changes; any other quantity replaces the
    line by one with the same id, user and product, the new quantity, and
    the color and size of the request, null when the request leaves them
    out.  The [inStock] flag of the product is not looked at.  The other
    lines, the catalog and the wishlist stay as they are. *)
Theorem updateCartItem_spec uid id data sh it p :
  NoDup (map ci_id (cartItems sh)) ->
  it ∈ cartItems sh -> ci_id it = id -> ci_userId it = uid ->
  products (base sh) !! ci_productId it = Some p ->
  (0 < upc_quantity data)%Z ->
  let updated := mkCartItem id uid (ci_productId it) (upc_quantity data)
                   (Js.orNull (upc_selectedColor data))
                   (Js.orNull (upc_selectedSize data)) in
  ((stockCount p < upc_quantity data)%Z ->
   updateCartItem uid id data sh = (Err (AppError "Insufficient stock" 400), sh)) /\
  ((upc_quantity data <= stockCount p)%Z ->
   exists sh',
     updateCartItem uid id data sh = (Ok updated, sh') /\
     updated ∈ cartItems sh' /\
     map ci_id (cartItems sh') = map ci_id (cartItems sh) /\
     (forall row, ci_id row <> id -> (row ∈ cartItems sh' <-> row ∈ cartItems sh)) /\
     (forall row, row ∈ cartItems sh' -> ci_id row = id -> row = updated) /\
     base sh' = base sh /\ wishlistItems sh' = wishlistItems sh).
Proof.
  intros Hids Hin Hid Hu Hp Hq updated.
  unfold updateCartItem, bindS, PrismaCart.cartItem_findFirst, throwS,
    PrismaCart.includeProduct.
  rewrite (find_owned_is uid id _ it Hids Hin Hid Hu), Hp. cbn [snd].
  assert (Hpos : (upc_quantity data <=? 0)%Z = false) by (apply Z.leb_gt; lia).
  rewrite Hpos. split.
  - intros Hover. apply Z.ltb_lt in Hover. now rewrite Hover.
  - intros Hfits. apply Z.ltb_ge in Hfits. rewrite Hfits.
    unfold PrismaCart.cartItem_update.
    rewrite (find_hasId_is id _ it Hids Hin Hid). cbn [retS].
    rewrite Hid, Hu. fold updated.
    eexists. split; [reflexivity|]. cbn [cartItems base wishlistItems set_cartItems].
    assert (Hupd : forall row, row ∈ cartItems sh -> PrismaCart.hasId id row = true ->
                     mkCartItem (ci_id row) (ci_userId row) (ci_productId row)
                       (upc_quantity data) (Js.orNull (upc_selectedColor data))
                       (Js.orNull (upc_selectedSize data)) = updated).
    { intros row Hrow Htest. unfold PrismaCart.hasId in Htest.
      apply String.eqb_eq in Htest.
      rewrite (id_unique _ it row Hids Hin Hrow) by congruence.
      now rewrite Hid, Hu. }
    split; [|split; [|split; [|split; [|now split]]]].
    + apply list_elem_of_fmap. exists it. split; [|exact Hin].
      unfold PrismaCart.hasId. rewrite Hid, string_eqb_refl, ?Hu. reflexivity.
    + now apply map_update_keeps.
    + intros row Hne. rewrite list_elem_of_fmap.
      assert (Hrowid : PrismaCart.hasId id row = false).
      { unfold PrismaCart.hasId. now apply String.eqb_neq. }
      split.
      * intros (row0 & -> & Hrow0).
        destruct (PrismaCart.hasId id row0) eqn:Htest; [|exact Hrow0].
        exfalso. apply Hne. cbn [ci_id].
        unfold PrismaCart.hasId in Htest. now apply String.eqb_eq in Htest.
      * intros Hrow. exists row. now rewrite Hrowid.
    + intros row Hrow Hrid. apply list_elem_of_fmap in Hrow as (row0 & -> & Hrow0).
      destruct (PrismaCart.hasId id row0) eqn:Htest; [now apply Hupd|].
      unfold PrismaCart.hasId in Htest. apply String.eqb_neq in Htest. contradiction.
Qed.

Lemma updateCartItem_spec_witness :
  let line := mkCartItem "c1" "u1" "p-lily" 2 (Some "white") None in
  let sh := mkShop store0 [line] [] in
  updateCartItem "u1" "c1" (mkUpdateCartItem 9 None None) sh
  = (Err (AppError "Insufficient stock" 400), sh) /\
  fst (updateCartItem "u1" "c1" (mkUpdateCartItem 3 None None) sh)
  = Ok (mkCartItem "c1" "u1" "p-lily" 3 None None).
Proof.
  intros line sh.
  assert (Hids : NoDup (map ci_id (cartItems sh))) by (cbn; apply NoDup_singleton).
  assert (Hin : line ∈ cartItems sh) by (cbn; left).
  assert (Hp : products (base sh) !! ci_productId line = Some lily)
    by (vm_compute; reflexivity).
  split.
  - apply (proj1 (updateCartItem_spec "u1" "c1" (mkUpdateCartItem 9 None None) sh line lily
                    Hids Hin eq_refl eq_refl Hp ltac:(cbn; lia))).
    cbn. lia.
  - destruct (proj2 (updateCartItem_spec "u1" "c1" (mkUpdateCartItem 3 None None) sh line
                       lily Hids Hin eq_refl eq_refl Hp ltac:(cbn; lia)))
      as (sh' & Hrun & _); [cbn; lia|].
    rewrite Hrun. reflexivity.
Defined.

(** ** The cart after the last units are sold *)

(** X29. [createOrder] lowers the stock count but never the [inStock] flag.
    So after an order that takes all the units of a product flagged in
    stock, the product has a stock count of 0 and is still flagged in
    stock, and the cart answers in two ways: [addToCart] with a positive
    quantity passes the flag check and fails with 'Insufficient stock',
    while [moveToCart] with a positive quantity fails with 'Product is out
    of stock'; both with status 400 and without changing the shop. *)
Theorem cart_after_selling_out fresh now buyer data s o s' pid p sh :
  createOrder fresh now buyer data s = (Ok o, s') ->
  products s !! pid = Some p ->
  inStock p = true ->
  requestedOf pid (req_items data) = stockCount p ->
  base sh = s' ->
  Forall (fun it => (0 <= ci_quantity it)%Z) (cartItems sh) ->
  products s' !! pid = Some (mkProduct (name p) (price p) true 0) /\
  (forall newId uid q color size,
     (0 < q)%Z ->
     addToCart newId uid (mkAddToCart pid q color size) sh
     = (Err (AppError "Insufficient stock" 400), sh)) /\
  (forall newId uid wid q,
     (0 < q)%Z ->
     (exists w, w ∈ wishlistItems sh /\ wi_id w = wid /\ wi_userId w = uid) ->
     (forall w, w ∈ wishlistItems sh -> wi_id w = wid -> wi_userId w = uid ->
                wi_productId w = pid) ->
     moveToCart newId uid wid q sh = (Err (AppError "Product is out of stock" 400), sh)).
Proof.
  intros Hrun Hp Hflag Hall Hbase Hpos.
  destruct (createOrder_Ok_store _ _ _ _ _ _ _ Hrun) as (_ & Hstock).
  assert (Hp' : products s' !! pid = Some (mkProduct (name p) (price p) true 0)).
  { rewrite Hstock, Hp. cbn. unfold Prisma.addStock. rewrite Hall, Hflag.
    do 2 f_equal. lia. }
  split; [exact Hp'|]. split.
  - intros newId uid q color size Hq.
    unfold addToCart, bindS, PrismaCart.product_findUnique, throwS.
    cbn [add_productId add_quantity add_selectedColor add_selectedSize].
    rewrite Hbase, Hp'. cbn [inStock negb stockCount].
    unfold PrismaCart.cartItem_findFirst_variant.
    destruct (List.find _ (cartItems sh)) as [ex|] eqn:Hfind.
    + apply find_some in Hfind as [Hin _].
      rewrite Forall_forall in Hpos. apply list_elem_of_In in Hin.
      pose proof (Hpos ex Hin) as Hex.
      assert (Hlt : (0 <? ci_quantity ex + q)%Z = true) by (apply Z.ltb_lt; lia).
      now rewrite Hlt.
    + assert (Hlt : (0 <? q)%Z = true) by (apply Z.ltb_lt; lia).
      now rewrite Hlt.
  - intros newId uid wid q Hq (w & Hw & Hwid & Hwu) Honly.
    unfold moveToCart, bindS, PrismaCart.wishlistItem_findFirst, throwS,
      PrismaCart.includeProduct.
    destruct (List.find _ (wishlistItems sh)) as [w0|] eqn:Hfind.
    + apply find_wish_owned in Hfind as (Hw0 & Hid0 & Hu0).
      rewrite (Honly w0 Hw0 Hid0 Hu0), Hbase, Hp'. cbn [snd inStock negb stockCount orb].
      assert (Hlt : (0 <? q)%Z = true) by (apply Z.ltb_lt; lia).
      now rewrite Hlt.
    + exfalso. apply list_elem_of_In in Hw.
      pose proof (find_none _ _ Hfind w Hw) as Hf. cbv beta in Hf.
      unfold PrismaCart.wishHasId in Hf. now rewrite Hwid, Hwu, !string_eqb_refl in Hf.
Qed.

Lemma cart_after_selling_out_witness :
  exists o s',
    createOrder fresh1 500 "u1" (request [line "p-lily" 8] None) store0 = (Ok o, s') /\
    addToCart "c1" "u2" (mkAddToCart "p-lily" 1 None None) (mkShop s' [] [])
    = (Err (AppError "Insufficient stock" 400), mkShop s' [] []).
Proof.
  destruct (createOrder fresh1 500 "u1" (request [line "p-lily" 8] None) store0)
    as [[o|e] s'] eqn:Hrun.
  - exists o, s'. split; [reflexivity|].
    refine (proj1 (proj2 (cart_after_selling_out fresh1 500 "u1" _ store0 o s' "p-lily" lily
                            (mkShop s' [] []) Hrun _ _ _ _ _)) "c1" "u2" 1%Z None None _).
    + vm_compute. reflexivity.
    + reflexivity.
    + vm_compute. reflexivity.
    + reflexivity.
    + constructor.
    + lia.
  - exfalso. apply (f_equal fst) in Hrun. vm_compute in Hrun. discriminate Hrun.
Defined.
